(** * Berlin winery analysis: the analytics engine, embedded and verified

    A shallow embedding of the computational core of the analysis scripts

      - [scripts/create_winery_density_map.py]
          (region assignment, density normalisation),
      - [scripts/create_winery_growth_analysis.py]
          (historical synthesis, growth metrics),
      - [scripts/create_temporal_leading_indicator_analysis.py]
          (synthetic temporal series, lagged cross-correlation, best lag),
      - [scripts/download_recent_wineries.py]
          (classification by recency, districts),

    followed by the properties of the specification that concern them.

    Conventions of the embedding.

      - Python floats are idealised as exact rationals ([Q]); the special
        values a float can take where the code can meet them (coordinates
        read from a CSV file, correlation coefficients) are kept in
        [Py.pyfloat].  Equality of rationals is [Qeq], written [==].
      - A [dict] whose iteration order matters is an association list in
        insertion order; a pandas [DataFrame] is the list of its rows.
      - numpy's global random generator is explicit state: the sequence of
        standard normal variates it is going to deliver.
      - A Python exception is the [Raise] outcome of a computation. *)

From Stdlib Require Import QArith Qround Qminmax Qpower ZArith List String Bool.
From Stdlib Require Import Lia Lqa Permutation Sorted.
Import ListNotations.

Open Scope Q_scope.

(* ================================================================== *)
(** * Python, numpy and pandas primitives used by the scripts *)
(* ================================================================== *)

Module Py.

(** ** Floats *)

(** A float as the scripts can meet it: a finite value, [nan], or an
    infinity. *)
Inductive pyfloat : Type :=
| Fin (q : Q)
| NaN
| PosInf
| NegInf.

(** [bool(x)] for a float: only zero is falsy ([nan] is truthy). *)
Definition truthy (x : pyfloat) : bool :=
  match x with
  | Fin q => negb (Qeq_bool q 0)
  | NaN | PosInf | NegInf => true
  end.

(** [bool(v)] for a value that may be [None]. *)
Definition truthy_opt (v : option pyfloat) : bool :=
  match v with
  | None => false
  | Some x => truthy x
  end.

(** [x <= y] on floats: every comparison with [nan] is false. *)
Definition fle (x y : pyfloat) : bool :=
  match x, y with
  | NaN, _ | _, NaN => false
  | NegInf, _ => true
  | _, PosInf => true
  | Fin a, Fin b => Qle_bool a b
  | PosInf, _ => false
  | Fin _, NegInf => false
  end.

(** [x > y] on floats. *)
Definition fgt (x y : pyfloat) : bool :=
  match x, y with
  | NaN, _ | _, NaN => false
  | PosInf, PosInf => false
  | PosInf, _ => true
  | NegInf, _ => false
  | Fin _, PosInf => false
  | Fin _, NegInf => true
  | Fin a, Fin b => negb (Qle_bool a b)
  end.

Definition is_nan (x : pyfloat) : bool :=
  match x with NaN => true | _ => false end.

Definition is_finite (x : pyfloat) : bool :=
  match x with Fin _ => true | _ => false end.

(** ** Rounding and truncation *)

(** Nearest integer, ties to the even one. *)
Definition rint (q : Q) : Z :=
  let f := Qfloor q in
  match Qcompare (q - inject_Z f) (1 # 2) with
  | Lt => f
  | Gt => (f + 1)%Z
  | Eq => if Z.even f then f else (f + 1)%Z
  end.

Definition pow10 (ndigits : nat) : positive := Pos.pow 10 (Pos.of_nat ndigits).

(** [round(q, ndigits)] for [ndigits >= 1]. *)
Definition round (q : Q) (ndigits : nat) : Q :=
  Qmake (rint (q * inject_Z (Zpos (pow10 ndigits)))) (pow10 ndigits).

(** [int(q)]: truncation towards zero. *)
Definition int (q : Q) : Z := Z.quot (Qnum q) (Zpos (Qden q)).

(** [max(0, q)]. *)
Definition max0 (q : Q) : Q := if Qle_bool q 0 then 0 else q.

(** ** Exceptions *)

Inductive exn : Type :=
| ZeroDivisionError
| ValueError
| KeyError
| IndexError.

Inductive outcome (A : Type) : Type :=
| Ok (a : A)
| Raise (e : exn).

Arguments Ok {A} a.
Arguments Raise {A} e.

(** ** The global random generator *)

(** The state of [np.random]: the stream of standard normal variates
    the generator delivers and the number of those already drawn. *)
Record bitgen : Type :=
  { draws : nat -> Q;
    pos : nat }.

Definition advance (n : nat) (g : bitgen) : bitgen :=
  {| draws := draws g; pos := (pos g + n)%nat |}.

(** Computations that draw from the generator and may raise. *)
Definition M (A : Type) : Type := bitgen -> outcome (A * bitgen).

Class Monad (m : Type -> Type) : Type :=
  { ret : forall {A}, A -> m A;
    bind : forall {A B}, m A -> (A -> m B) -> m B }.

#[export] Instance outcome_monad : Monad outcome :=
  { ret := fun A a => Ok a;
    bind := fun A B c k =>
      match c with
      | Ok a => k a
      | Raise e => Raise e
      end }.

#[export] Instance M_monad : Monad M :=
  { ret := fun A a g => Ok (a, g);
    bind := fun A B c k g =>
      match c g with
      | Ok (a, g') => k a g'
      | Raise e => Raise e
      end }.

(** [np.random.normal(loc, scale)]: location plus scale times the next
    standard normal variate. *)
Definition normal (loc scale : Q) : M Q :=
  fun g => Ok (loc + scale * draws g (pos g), advance 1 g).

(** [np.random.seed(s)]: the stream restarts as the seed dictates;
    [seeded] is numpy's map from seeds to streams. *)
Definition seed (seeded : Z -> nat -> Q) (s : Z) : M unit :=
  fun _ => Ok (tt, {| draws := seeded s; pos := 0 |}).

(** Float division: a zero divisor raises. *)
Definition fdiv (a b : Q) : outcome Q :=
  if Qeq_bool b 0 then Raise ZeroDivisionError else Ok (a / b).

Definition lift {A : Type} (c : outcome A) : M A :=
  fun g => match c with Ok a => Ok (a, g) | Raise e => Raise e end.

(** Running the loop body [f] over [l], collecting the results. *)
Fixpoint for_each {m : Type -> Type} `{Monad m} {A B : Type}
  (f : A -> m B) (l : list A) : m (list B) :=
  match l with
  | [] => ret []
  | a :: l' => bind (f a) (fun b => bind (for_each f l') (fun bs => ret (b :: bs)))
  end.

(** ** Small list helpers *)

(** [range(lo, lo + n)]. *)
Fixpoint range (lo : Z) (n : nat) : list Z :=
  match n with
  | O => []
  | S n' => lo :: range (lo + 1) n'
  end.

(** [sum(l)]: the additions are made from the left, starting at 0. *)
Definition sum (l : list Q) : Q := fold_left Qplus l 0.

(** A stable insertion sort, descending on [key]: the model of
    [sort_values(key, ascending=False)].  The order pandas leaves rows of
    equal key in is its own business; no statement below depends on it. *)
Fixpoint insert_desc {A : Type} (key : A -> Q) (a : A) (l : list A) : list A :=
  match l with
  | [] => [a]
  | b :: l' => if Qle_bool (key b) (key a) then a :: l else b :: insert_desc key a l'
  end.

Definition sort_values_desc {A : Type} (key : A -> Q) (l : list A) : list A :=
  fold_right (insert_desc key) [] l.

(** A stable insertion sort, ascending on an integer key. *)
Fixpoint insert_asc {A : Type} (key : A -> Z) (a : A) (l : list A) : list A :=
  match l with
  | [] => [a]
  | b :: l' => if (key a <=? key b)%Z then a :: l else b :: insert_asc key a l'
  end.

Definition sort_values_asc {A : Type} (key : A -> Z) (l : list A) : list A :=
  fold_right (insert_asc key) [] l.

(** [a < b] and [a >= b] on finite floats. *)
Definition qlt (a b : Q) : bool := negb (Qle_bool b a).
Definition qge (a b : Q) : bool := Qle_bool b a.

(** [max(l, key=key)]: the first item whose key no later item exceeds
    under [>]; an empty sequence raises. *)
Definition max_by {A : Type} (key : A -> pyfloat) (l : list A) : outcome A :=
  match l with
  | [] => Raise ValueError
  | a :: l' =>
      Ok (fold_left
            (fun maxitem item =>
               if fgt (key item) (key maxitem) then item else maxitem)
            l' a)
  end.

End Py.

Import Py.

Declare Scope py_scope.
Notation "x <- c ;; k" := (bind c (fun x => k))
  (at level 61, c at next level, right associativity) : py_scope.
Open Scope py_scope.

(* ================================================================== *)
(** * Regions and the assignment loop shared by both scripts *)
(* ================================================================== *)

Module Regions.

(** The ['bounds'] entry of a district. *)
Record bbox : Type :=
  { lat_min : Q; lat_max : Q; lon_min : Q; lon_max : Q }.

(** A row of the winery frame: the two coordinates as [winery.get]
    returns them ([None] when there is no such value) and the
    ['district'] column. *)
Record winery : Type :=
  { name : string;
    latitude : option pyfloat;
    longitude : option pyfloat;
    district : string }.

Definition set_district (w : winery) (d : string) : winery :=
  {| name := name w; latitude := latitude w; longitude := longitude w;
     district := d |}.

(** [b.lat_min <= lat <= b.lat_max and b.lon_min <= lon <= b.lon_max]. *)
Definition contains (b : bbox) (lat lon : pyfloat) : bool :=
  fle (Fin (lat_min b)) lat && fle lat (Fin (lat_max b))
  && fle (Fin (lon_min b)) lon && fle lon (Fin (lon_max b)).

Section Assign.

Variable info : Type.
Variable bounds : info -> bbox.

(** The inner loop: [for district_name, district_info in districts.items()],
    left at the first box that contains the point ([break]). *)
Fixpoint first_containing (districts : list (string * info))
  (lat lon : pyfloat) : option string :=
  match districts with
  | [] => None
  | (district_name, district_info) :: rest =>
      if contains (bounds district_info) lat lon
      then Some district_name
      else first_containing rest lat lon
  end.

(** One turn of [for idx, winery in df.iterrows()], on a row whose
    district is already ['Other']. *)
Definition assign_row (districts : list (string * info)) (w : winery) : winery :=
  let lat := latitude w in
  let lon := longitude w in
  if truthy_opt lat && truthy_opt lon then
    match lat, lon with
    | Some lat, Some lon =>
        match first_containing districts lat lon with
        | Some district_name => set_district w district_name
        | None => w
        end
    | _, _ => w
    end
  else w.

(** [df['district'] = 'Other'], then the loop over the rows. *)
Definition assign_loop (districts : list (string * info)) (df : list winery)
  : list winery :=
  map (assign_row districts) (map (fun w => set_district w "Other") df).

End Assign.

Arguments first_containing {info} bounds districts lat lon.
Arguments assign_row {info} bounds districts w.
Arguments assign_loop {info} bounds districts df.

(** [len(df[df['district'] == d])]. *)
Definition count_in (d : string) (df : list winery) : nat :=
  List.length (filter (fun w => String.eqb (district w) d) df).

End Regions.

Import Regions.

(* ================================================================== *)
(** * scripts/create_winery_density_map.py *)
(* ================================================================== *)

Module DensityMap.

Record district_info : Type :=
  { bounds : bbox;
    area_km2 : Q;
    center : Q * Q;
    population : Z;
    description : string }.

Definition mk (b : Q * Q * Q * Q) (area : Q) (c : Q * Q) (pop : Z)
  (descr : string) : district_info :=
  let '(a1, a2, o1, o2) := b in
  {| bounds := {| lat_min := a1; lat_max := a2; lon_min := o1; lon_max := o2 |};
     area_km2 := area; center := c; population := pop; description := descr |}.

Definition get_district_boundaries_and_areas : list (string * district_info) :=
  [ ("Mitte"%string,
     mk (52.500, 52.550, 13.350, 13.420) 39.5 (52.525, 13.385) 383000
        "Historic center, government district");
    ("Prenzlauer Berg"%string,
     mk (52.520, 52.560, 13.400, 13.450) 10.9 (52.540, 13.425) 165000
        "Trendy residential area");
    ("Charlottenburg"%string,
     mk (52.490, 52.530, 13.280, 13.350) 64.7 (52.510, 13.315) 129000
        "Western district, shopping area");
    ("Kreuzberg"%string,
     mk (52.490, 52.520, 13.380, 13.420) 15.2 (52.505, 13.400) 154000
        "Cultural hub, nightlife");
    ("Neuk√∂lln"%string,
     mk (52.450, 52.500, 13.400, 13.470) 44.9 (52.475, 13.435) 329000
        "Diverse, gentrifying area");
    ("Friedrichshain"%string,
     mk (52.500, 52.530, 13.420, 13.480) 9.8 (52.515, 13.450) 289000
        "Young, alternative scene");
    ("Sch√∂neberg"%string,
     mk (52.460, 52.500, 13.330, 13.380) 10.5 (52.480, 13.355) 349000
        "LGBTQ+ district, cafes");
    ("Wedding"%string,
     mk (52.530, 52.570, 13.330, 13.380) 9.5 (52.550, 13.355) 87000
        "Up-and-coming area");
    ("Tempelhof"%string,
     mk (52.450, 52.490, 13.380, 13.420) 12.2 (52.470, 13.400) 56000
        "Former airport area");
    ("Steglitz"%string,
     mk (52.440, 52.480, 13.310, 13.360) 9.2 (52.460, 13.335) 105000
        "Residential, family area");
    ("Wilmersdorf"%string,
     mk (52.470, 52.510, 13.280, 13.330) 8.9 (52.490, 13.305) 94000
        "Upscale residential");
    ("Spandau"%string,
     mk (52.520, 52.580, 13.160, 13.280) 91.9 (52.550, 13.220) 245000
        "Historic town, outskirts") ].

(** A row of [district_stats]. *)
Record stats : Type :=
  { st_district : string;
    st_winery_count : nat;
    st_area_km2 : Q;
    st_density_per_km2 : Q;
    st_population : Z;
    st_wineries_per_100k_people : Q;
    st_center : Q * Q;
    st_description : string }.

Definition of_nat (n : nat) : Q := inject_Z (Z.of_nat n).

(** The statistics of one cataloged district. *)
Definition district_row (df : list winery) (district_name : string)
  (district_info : district_info) : stats :=
  let winery_count := count_in district_name df in
  let area_km2 := area_km2 district_info in
  let density :=
    if negb (Qle_bool area_km2 0) then of_nat winery_count / area_km2 else 0 in
  {| st_district := district_name;
     st_winery_count := winery_count;
     st_area_km2 := area_km2;
     st_density_per_km2 := round density 3;
     st_population := population district_info;
     st_wineries_per_100k_people :=
       if (0 <? population district_info)%Z
       then round (of_nat winery_count / inject_Z (population district_info)
                   * 100000) 2
       else 0;
     st_center := center district_info;
     st_description := description district_info |}.

Definition berlin_total_area : Q := 891.7.

(** [total_defined_area] and [other_area]. *)
Definition other_area (districts : list (string * district_info)) : Q :=
  let total_defined_area := Py.sum (map (fun d => area_km2 (snd d)) districts) in
  berlin_total_area - total_defined_area.

(** The row of the wineries left in ['Other']; it is only made when there
    is such a winery. *)
Definition other_row (df : list winery)
  (districts : list (string * district_info)) : list stats :=
  let other_wineries := count_in "Other" df in
  if (0 <? other_wineries)%nat then
    let other_area := other_area districts in
    [ {| st_district := "Other";
         st_winery_count := other_wineries;
         st_area_km2 := other_area;
         st_density_per_km2 :=
           if negb (Qle_bool other_area 0)
           then round (of_nat other_wineries / other_area) 3
           else 0;
         st_population := 800000;
         st_wineries_per_100k_people :=
           round (of_nat other_wineries / 800000 * 100000) 2;
         st_center := (52.520, 13.405);
         st_description := "Other Berlin areas" |} ]
  else [].

(** The rows in the order they are appended, before the final sort. *)
Definition district_stats (df : list winery)
  (districts : list (string * district_info)) : list stats :=
  map (fun d => district_row df (fst d) (snd d)) districts
  ++ other_row df districts.

Definition assign_districts_to_wineries (df : list winery)
  (districts : list (string * district_info)) : list winery * list stats :=
  let df := assign_loop bounds districts df in
  (df, sort_values_desc st_density_per_km2 (district_stats df districts)).

(** ** The map: colours *)

(** [get_density_color] of [create_density_interactive_map]: the fill
    colour of a district's polygon. *)
Definition get_density_color (density : Q) : string :=
  if Qeq_bool density 0 then "#f7f7f7"
  else if qlt density 0.5 then "#fde68a"
  else if qlt density 1.0 then "#fbbf24"
  else if qlt density 2.0 then "#f59e0b"
  else if qlt density 3.0 then "#dc2626"
  else "#7f1d1d".

(** The colour of a marker by the density of its district. *)
Definition marker_color_of (density : Q) : string :=
  if qge density 2.0 then "red"
  else if qge density 1.0 then "orange"
  else if qge density 0.5 then "green"
  else "blue".

(** The colour of a winery's marker: by the density of the first
    statistics row of its district, gray when there is none. *)
Definition marker_color (district_stats_df : list stats) (district : string)
  : string :=
  match filter (fun st => String.eqb (st_district st) district) district_stats_df with
  | district_data :: _ => marker_color_of (st_density_per_km2 district_data)
  | [] => "gray"
  end.

(** ** The report: totals and categories *)

(** [district_stats_df['winery_count'].sum()]. *)
Definition total_wineries (district_stats_df : list stats) : nat :=
  list_sum (map st_winery_count district_stats_df).

(** [district_stats_df['area_km2'].sum()]. *)
Definition total_area (district_stats_df : list stats) : Q :=
  Py.sum (map st_area_km2 district_stats_df).

(** The number of rows of density at least 1.0. *)
Definition high_density_districts (district_stats_df : list stats) : nat :=
  List.length (filter (fun st => qge (st_density_per_km2 st) 1.0) district_stats_df).

(** The rows listed under "High Density" and under "Medium Density". *)
Definition high_density (district_stats_df : list stats) : list stats :=
  filter (fun st => qge (st_density_per_km2 st) 2.0) district_stats_df.

Definition medium_density (district_stats_df : list stats) : list stats :=
  filter (fun st => qge (st_density_per_km2 st) 1.0 && qlt (st_density_per_km2 st) 2.0)
         district_stats_df.

(** ** The printed analysis *)

(** [district_stats_df.iloc[0]]: the row reported as of highest density;
    a frame without rows has no first row. *)
Definition highest_density (district_stats_df : list stats) : outcome stats :=
  match district_stats_df with
  | [] => Raise IndexError
  | st :: _ => Ok st
  end.

End DensityMap.

(* ================================================================== *)
(** * scripts/create_winery_growth_analysis.py *)
(* ================================================================== *)

Module GrowthAnalysis.

(** An entry of the historical context of a district. *)
Record context : Type :=
  { gentrification_peak : Z;
    growth_pattern : string;
    development_factors : list string;
    base_growth_rate : Q;
    peak_growth_years : list Z;
    description : string }.

Definition get_district_historical_context : list (string * context) :=
  [ ("Prenzlauer Berg"%string,
     {| gentrification_peak := 2016;
        growth_pattern := "early_strong_then_stable";
        development_factors := ["family_gentrification"; "established_foodie_scene"]%string;
        base_growth_rate := 0.08;
        peak_growth_years := [2015; 2016; 2017]%Z;
        description := "Early gentrification leader, sustained growth" |});
    ("Neukölln"%string,
     {| gentrification_peak := 2019;
        growth_pattern := "explosive_recent";
        development_factors := ["artist_migration"; "young_professionals"; "affordability"]%string;
        base_growth_rate := 0.15;
        peak_growth_years := [2018; 2019; 2020; 2021]%Z;
        description := "Rapid recent development, cultural hub emergence" |});
    ("Friedrichshain"%string,
     {| gentrification_peak := 2018;
        growth_pattern := "steady_strong";
        development_factors := ["startup_scene"; "nightlife"; "young_demographics"]%string;
        base_growth_rate := 0.12;
        peak_growth_years := [2017; 2018; 2019]%Z;
        description := "Consistent strong growth, tech/creative scene" |});
    ("Kreuzberg"%string,
     {| gentrification_peak := 2017;
        growth_pattern := "early_strong_maturing";
        development_factors := ["cultural_scene"; "tourism"; "established_gentrification"]%string;
        base_growth_rate := 0.10;
        peak_growth_years := [2016; 2017; 2018]%Z;
        description := "Early adopter, now maturing market" |});
    ("Wedding"%string,
     {| gentrification_peak := 2022;
        growth_pattern := "recent_emergence";
        development_factors := ["spillover_effect"; "affordability"; "transport_improvements"]%string;
        base_growth_rate := 0.18;
        peak_growth_years := [2021; 2022; 2023]%Z;
        description := "Latest growth area, rapid recent development" |});
    ("Mitte"%string,
     {| gentrification_peak := 2015;
        growth_pattern := "early_plateau";
        development_factors := ["tourism"; "established_commercial"; "high_rents"]%string;
        base_growth_rate := 0.05;
        peak_growth_years := [2014; 2015; 2016]%Z;
        description := "Early development, now mature/saturated" |});
    ("Charlottenburg"%string,
     {| gentrification_peak := 2020;
        growth_pattern := "slow_steady";
        development_factors := ["established_area"; "family_demographics"; "steady_income"]%string;
        base_growth_rate := 0.06;
        peak_growth_years := [2019; 2020; 2021]%Z;
        description := "Stable, established growth pattern" |});
    ("Schöneberg"%string,
     {| gentrification_peak := 2018;
        growth_pattern := "cultural_driven";
        development_factors := ["LGBTQ+ community"; "café culture"; "established_scene"]%string;
        base_growth_rate := 0.09;
        peak_growth_years := [2017; 2018; 2019]%Z;
        description := "Community-driven sustainable growth" |});
    ("Tempelhof"%string,
     {| gentrification_peak := 2021;
        growth_pattern := "slow_recent";
        development_factors := ["proximity_effects"; "family_area"; "park_development"]%string;
        base_growth_rate := 0.07;
        peak_growth_years := [2020; 2021; 2022]%Z;
        description := "Gradual family-oriented development" |});
    ("Steglitz"%string,
     {| gentrification_peak := 2019;
        growth_pattern := "family_driven";
        development_factors := ["family_demographics"; "quality_of_life"; "established_retail"]%string;
        base_growth_rate := 0.08;
        peak_growth_years := [2018; 2019; 2020]%Z;
        description := "Family-oriented steady growth" |});
    ("Wilmersdorf"%string,
     {| gentrification_peak := 2020;
        growth_pattern := "upscale_steady";
        development_factors := ["high_income"; "established_area"; "quality_retail"]%string;
        base_growth_rate := 0.07;
        peak_growth_years := [2019; 2020; 2021]%Z;
        description := "Upscale market, measured growth" |});
    ("Spandau"%string,
     {| gentrification_peak := 2023;
        growth_pattern := "late_emerging";
        development_factors := ["affordability"; "family_spillover"; "transport_improvements"]%string;
        base_growth_rate := 0.12;
        peak_growth_years := [2022; 2023; 2024]%Z;
        description := "Latest frontier, emerging growth" |}) ].

Record district_info : Type :=
  { bounds : bbox;
    area_km2 : Q;
    center : Q * Q }.

Definition mk (b : Q * Q * Q * Q) (area : Q) (c : Q * Q) : district_info :=
  let '(a1, a2, o1, o2) := b in
  {| bounds := {| lat_min := a1; lat_max := a2; lon_min := o1; lon_max := o2 |};
     area_km2 := area; center := c |}.

Definition get_district_boundaries_and_areas : list (string * district_info) :=
  [ ("Prenzlauer Berg"%string, mk (52.520, 52.560, 13.400, 13.450) 10.9 (52.540, 13.425));
    ("Neukölln"%string, mk (52.450, 52.500, 13.400, 13.470) 44.9 (52.475, 13.435));
    ("Friedrichshain"%string, mk (52.500, 52.530, 13.420, 13.480) 9.8 (52.515, 13.450));
    ("Kreuzberg"%string, mk (52.490, 52.520, 13.380, 13.420) 15.2 (52.505, 13.400));
    ("Wedding"%string, mk (52.530, 52.570, 13.330, 13.380) 9.5 (52.550, 13.355));
    ("Mitte"%string, mk (52.500, 52.550, 13.350, 13.420) 39.5 (52.525, 13.385));
    ("Charlottenburg"%string, mk (52.490, 52.530, 13.280, 13.350) 64.7 (52.510, 13.315));
    ("Schöneberg"%string, mk (52.460, 52.500, 13.330, 13.380) 10.5 (52.480, 13.355));
    ("Tempelhof"%string, mk (52.450, 52.490, 13.380, 13.420) 12.2 (52.470, 13.400));
    ("Steglitz"%string, mk (52.440, 52.480, 13.310, 13.360) 9.2 (52.460, 13.335));
    ("Wilmersdorf"%string, mk (52.470, 52.510, 13.280, 13.330) 8.9 (52.490, 13.305));
    ("Spandau"%string, mk (52.520, 52.580, 13.160, 13.280) 91.9 (52.550, 13.220)) ].

(** This script's assigner reads the catalog itself. *)
Definition assign_districts_to_wineries (df : list winery) : list winery :=
  assign_loop bounds get_district_boundaries_and_areas df.

(** A row of the historical frame.  ['yoy_growth_rate'] is written after
    the row is made: [None] is a row that has no such value (yet). *)
Record history_row : Type :=
  { h_district : string;
    h_year : Z;
    h_density : Q;
    h_count : Z;
    h_area_km2 : Q;
    h_growth_pattern : string;
    h_base_growth_rate : Q;
    h_description : string;
    h_yoy_growth_rate : option Q }.

Definition set_yoy (r : history_row) (g : Q) : history_row :=
  {| h_district := h_district r; h_year := h_year r; h_density := h_density r;
     h_count := h_count r; h_area_km2 := h_area_km2 r;
     h_growth_pattern := h_growth_pattern r;
     h_base_growth_rate := h_base_growth_rate r;
     h_description := h_description r;
     h_yoy_growth_rate := Some g |}.

(** [list(range(2014, 2025))]. *)
Definition years : list Z := Py.range 2014 11.

Definition lookup {A : Type} (k : string) (d : list (string * A)) : option A :=
  option_map snd (find (fun e => String.eqb (fst e) k) d).

Definition of_nat (n : nat) : Q := inject_Z (Z.of_nat n).

(** [current_density_by_district[name]]: the 2024 count, density and
    area of a district (the dictionary is filled from the catalog and read
    back under the same keys). *)
Definition current_count (current_df : list winery) (district_name : string) : nat :=
  count_in district_name current_df.

Definition current_density (current_df : list winery) (district_name : string)
  (district_info : district_info) : Q :=
  let area_km2 := area_km2 district_info in
  if negb (Qle_bool area_km2 0)
  then of_nat (current_count current_df district_name) / area_km2
  else 0.

(** [year_modifier]: 1.3 in a peak growth year. *)
Definition year_modifier (context : context) (year : Z) : Q :=
  if existsb (Z.eqb year) (peak_growth_years context) then 1.3 else 1.0.

(** [annual_growth = base_decay * year_modifier * random_factor]. *)
Definition annual_growth (context : context) (year : Z) (random_factor : Q) : Q :=
  base_growth_rate context * year_modifier context year * random_factor.

Definition make_row (district_name : string) (context : context) (area_km2 : Q)
  (year : Z) (density : Q) (count : Z) : history_row :=
  {| h_district := district_name;
     h_year := year;
     h_density := round density 4;
     h_count := count;
     h_area_km2 := area_km2;
     h_growth_pattern := growth_pattern context;
     h_base_growth_rate := base_growth_rate context;
     h_description := description context;
     h_yoy_growth_rate := None |}.

(** The row of the current year. *)
Definition current_entry (district_name : string) (context : context)
  (current_density : Q) (current_count : nat) (area_km2 : Q) (year : Z)
  : history_row :=
  make_row district_name context area_km2 year
    current_density (Z.of_nat current_count).

(** The row of an earlier year, once its random factor is drawn. *)
Definition historical_entry (district_name : string) (context : context)
  (current_density : Q) (area_km2 : Q) (year : Z) (random_factor : Q)
  : outcome history_row :=
  let years_back := (2024 - year)%Z in
  let annual_growth := annual_growth context year random_factor in
  historical_density <-
    fdiv current_density (Qpower (1 + annual_growth) years_back) ;;
  let historical_density := max0 historical_density in
  ret (make_row district_name context area_km2 year
         historical_density (int (historical_density * area_km2))).

(** The body of [for year in reversed(years)]. *)
Definition year_entry (district_name : string) (context : context)
  (current_density : Q) (current_count : nat) (area_km2 : Q) (year : Z)
  : M history_row :=
  if (year =? 2024)%Z then
    ret (current_entry district_name context current_density current_count
           area_km2 year)
  else
    random_factor <- normal 1.0 0.1 ;;
    lift (historical_entry district_name context current_density area_km2
            year random_factor).

(** The year-over-year rate from one recorded density to the next. *)
Definition growth_rate (prev_density curr_density : Q) : Q :=
  if negb (Qle_bool prev_density 0)
  then (curr_density - prev_density) / prev_density
  else if negb (Qle_bool curr_density 0) then 1.0 else 0.0.

(** [for i in range(1, len(district_history))]: the rate of each row
    from the density of the row before it. *)
Fixpoint yoy_from (prev_density : Q) (rows : list history_row) : list history_row :=
  match rows with
  | [] => []
  | r :: rest =>
      set_yoy r (round (growth_rate prev_density (h_density r)) 4)
      :: yoy_from (h_density r) rest
  end.

(** The rates of a chronological history; the first year is given 0.0. *)
Definition with_yoy (district_history : list history_row)
  : outcome (list history_row) :=
  match district_history with
  | [] => Raise IndexError
  | r0 :: rest => Ok (set_yoy r0 0.0 :: yoy_from (h_density r0) rest)
  end.

(** The history of one district: backwards from 2024, reversed, rated. *)
Definition district_history (current_df : list winery) (district_name : string)
  (district_info : district_info) (context : context) : M (list history_row) :=
  let current_density := current_density current_df district_name district_info in
  let area_km2 := area_km2 district_info in
  backwards <-
    for_each (year_entry district_name context current_density
                (current_count current_df district_name) area_km2)
             (rev years) ;;
  lift (with_yoy (rev backwards)).

Section Simulation.

(** numpy's map from a seed to the stream of variates. *)
Variable seeded : Z -> nat -> Q.

(** The simulation over a catalog [districts_info]. *)
Definition simulate_over (districts_info : list (string * district_info))
  (current_df : list winery) (district_context : list (string * context))
  : M (list history_row) :=
  _ <- seed seeded 42 ;;
  let current_df := assign_loop bounds districts_info current_df in
  blocks <-
    for_each
      (fun d : string * district_info =>
         match lookup (fst d) district_context with
         | None => ret []
         | Some context => district_history current_df (fst d) (snd d) context
         end)
      districts_info ;;
  ret (List.concat blocks).

Definition simulate_historical_winery_development (current_df : list winery)
  (district_context : list (string * context)) : M (list history_row) :=
  simulate_over get_district_boundaries_and_areas current_df district_context.

End Simulation.

(** ** Growth metrics *)

Record metrics : Type :=
  { m_district : string;
    m_start_density_2014 : Q;
    m_end_density_2024 : Q;
    m_total_growth_rate : Q;
    m_cagr : Q;
    m_avg_annual_growth : option Q;
    m_growth_volatility : option Q;
    m_peak_growth_year : Z;
    m_peak_growth_rate : Q;
    m_growth_pattern : string;
    m_area_km2 : Q;
    m_description : string }.

(** [Series.unique()]: the values in order of first appearance. *)
Fixpoint unique (l : list string) : list string :=
  match l with
  | [] => []
  | x :: l' => x :: filter (fun y => negb (String.eqb y x)) (unique l')
  end.

(** The values of a column that are not missing. *)
Fixpoint valid (col : list (option Q)) : list Q :=
  match col with
  | [] => []
  | Some v :: col' => v :: valid col'
  | None :: col' => valid col'
  end.

(** [Series.mean()]: over the valid values; none gives [nan] ([None]). *)
Definition mean (col : list (option Q)) : option Q :=
  match valid col with
  | [] => None
  | v => Some (Py.sum v / of_nat (List.length v))
  end.

(** The first row of the largest valid rate ([idxmax], then [loc]). *)
Fixpoint peak_from (best : history_row) (best_rate : Q) (rows : list history_row)
  : history_row * Q :=
  match rows with
  | [] => (best, best_rate)
  | r :: rest =>
      match h_yoy_growth_rate r with
      | Some v =>
          if negb (Qle_bool v best_rate) then peak_from r v rest
          else peak_from best best_rate rest
      | None => peak_from best best_rate rest
      end
  end.

Fixpoint peak (rows : list history_row) : outcome (history_row * Q) :=
  match rows with
  | [] => Raise ValueError
  | r :: rest =>
      match h_yoy_growth_rate r with
      | Some v => Ok (peak_from r v rest)
      | None => peak rest
      end
  end.

Section Metrics.

(** [a ** b] on floats and the square root behind [Series.std()]. *)
Variable float_pow : Q -> Q -> Q.
Variable float_sqrt : Q -> Q.

(** [Series.std()]: the sample deviation (ddof = 1) of the valid values;
    fewer than two give [nan]. *)
Definition std (col : list (option Q)) : option Q :=
  let v := valid col in
  match v with
  | [] | [_] => None
  | _ =>
      let m := Py.sum v / of_nat (List.length v) in
      Some (float_sqrt
              (Py.sum (map (fun x => (x - m) * (x - m)) v)
               / of_nat (List.length v - 1)))
  end.

(** The body of the loop over the districts: [None] is [continue]. *)
Definition district_metrics (historical_df : list history_row) (district : string)
  : outcome (option metrics) :=
  let district_data :=
    sort_values_asc h_year
      (filter (fun r => String.eqb (h_district r) district) historical_df) in
  if (List.length district_data <? 2)%nat then ret None
  else
    match district_data with
    | [] => ret None
    | first :: _ =>
        let last := List.last district_data first in
        let start_density := h_density first in
        let end_density := h_density last in
        let years_span := (h_year last - h_year first)%Z in
        let total_growth_rate :=
          if negb (Qle_bool start_density 0)
          then (end_density - start_density) / start_density
          else if negb (Qle_bool end_density 0) then 1.0 else 0.0 in
        let cagr :=
          if negb (Qle_bool start_density 0) && (0 <? years_span)%Z
          then float_pow (end_density / start_density) (1 / inject_Z years_span) - 1
          else 0.0 in
        let yoy := map h_yoy_growth_rate district_data in
        let avg_yoy_growth := mean yoy in
        let growth_volatility := std yoy in
        p <- peak district_data ;;
        ret (Some
          {| m_district := district;
             m_start_density_2014 := round start_density 4;
             m_end_density_2024 := round end_density 4;
             m_total_growth_rate := round total_growth_rate 4;
             m_cagr := round cagr 4;
             m_avg_annual_growth := option_map (fun v => round v 4) avg_yoy_growth;
             m_growth_volatility := option_map (fun v => round v 4) growth_volatility;
             m_peak_growth_year := h_year (fst p);
             m_peak_growth_rate := round (snd p) 4;
             m_growth_pattern := h_growth_pattern first;
             m_area_km2 := h_area_km2 first;
             m_description := h_description first |})
    end.

(** The rows a loop over optional results keeps. *)
Fixpoint kept {A : Type} (l : list (option A)) : list A :=
  match l with
  | [] => []
  | Some a :: l' => a :: kept l'
  | None :: l' => kept l'
  end.

(** The metrics of every district; a frame without rows has no ['cagr']
    column to sort on. *)
Definition calculate_growth_metrics (historical_df : list history_row)
  : outcome (list metrics) :=
  results <-
    for_each (district_metrics historical_df)
             (unique (map h_district historical_df)) ;;
  match kept results with
  | [] => Raise KeyError
  | growth_metrics => ret (sort_values_desc m_cagr growth_metrics)
  end.

End Metrics.

(** ** The map and the report *)

(** [get_growth_color] of [create_growth_map]: the fill colour of a
    district's polygon, by its CAGR. *)
Definition get_growth_color (cagr : Q) : string :=
  if qge cagr 0.15 then "#006d2c"
  else if qge cagr 0.10 then "#31a354"
  else if qge cagr 0.07 then "#74c476"
  else if qge cagr 0.05 then "#bae4b3"
  else if qge cagr 0.02 then "#edf8e9"
  else if qlt 0 cagr then "#f7f7f7"
  else "#d9d9d9".

(** The number of districts the report counts as of high growth, and the
    rows it lists under "Explosive Growth" and under "High Growth". *)
Definition high_growth_districts (growth_metrics_df : list metrics) : nat :=
  List.length (filter (fun m => qge (m_cagr m) 0.10) growth_metrics_df).

Definition explosive_growth (growth_metrics_df : list metrics) : list metrics :=
  filter (fun m => qge (m_cagr m) 0.15) growth_metrics_df.

Definition high_growth (growth_metrics_df : list metrics) : list metrics :=
  filter (fun m => qge (m_cagr m) 0.10 && qlt (m_cagr m) 0.15) growth_metrics_df.

(** [growth_metrics_df.head(n)]. *)
Definition head (n : nat) (growth_metrics_df : list metrics) : list metrics :=
  firstn n growth_metrics_df.

(** [district_data] of [calculate_growth_metrics]: the rows of one
    district, in the order of their years. *)
Definition district_data (historical_df : list history_row) (district : string)
  : list history_row :=
  sort_values_asc h_year
    (filter (fun r => String.eqb (h_district r) district) historical_df).

End GrowthAnalysis.

(* ================================================================== *)
(** * scripts/create_temporal_leading_indicator_analysis.py *)
(* ================================================================== *)

Module TemporalAnalysis.

Definition years : list Z := Py.range 2014 11.

(** ** Real estate prices *)

Record price_pattern : Type :=
  { base_price_2014 : Q;
    annual_rates : list Q;
    re_volatility : Q }.

Definition district_patterns : list (string * price_pattern) :=
  [ ("Neukölln"%string,
     {| base_price_2014 := 2400;
        annual_rates := [0.03; 0.05; 0.08; 0.12; 0.15; 0.18; 0.14; 0.10; 0.08; 0.06; 0.04];
        re_volatility := 0.15 |});
    ("Wedding"%string,
     {| base_price_2014 := 2100;
        annual_rates := [0.02; 0.03; 0.04; 0.05; 0.06; 0.08; 0.12; 0.15; 0.18; 0.14; 0.10];
        re_volatility := 0.12 |});
    ("Friedrichshain"%string,
     {| base_price_2014 := 3200;
        annual_rates := [0.04; 0.06; 0.09; 0.12; 0.15; 0.12; 0.10; 0.08; 0.06; 0.05; 0.04];
        re_volatility := 0.10 |});
    ("Kreuzberg"%string,
     {| base_price_2014 := 3400;
        annual_rates := [0.05; 0.07; 0.10; 0.12; 0.09; 0.08; 0.07; 0.06; 0.05; 0.04; 0.03];
        re_volatility := 0.08 |});
    ("Prenzlauer Berg"%string,
     {| base_price_2014 := 4200;
        annual_rates := [0.08; 0.10; 0.09; 0.07; 0.06; 0.05; 0.04; 0.04; 0.03; 0.03; 0.02];
        re_volatility := 0.06 |});
    ("Mitte"%string,
     {| base_price_2014 := 4500;
        annual_rates := [0.06; 0.08; 0.09; 0.08; 0.07; 0.06; 0.05; 0.04; 0.04; 0.03; 0.03];
        re_volatility := 0.05 |}) ].

Record price_row : Type :=
  { p_district : string;
    p_year : Z;
    price_eur_sqm : Q;
    p_annual_growth_rate : Q;
    price_change_eur : Q }.

(** [pattern['annual_rates'][i]]. *)
Definition rate_at (rates : list Q) (i : nat) : outcome Q :=
  match nth_error rates i with
  | Some r => Ok r
  | None => Raise IndexError
  end.

(** [for i, year in enumerate(years[:-1])], carrying [price]; the result
    is the rows appended and the price the loop ends with. *)
Fixpoint price_loop (district : string) (pattern : price_pattern) (price : Q)
  (i : nat) (ys : list Z) : M (list price_row * Q) :=
  match ys with
  | [] => ret ([], price)
  | year :: ys' =>
      base <- lift (rate_at (annual_rates pattern) i) ;;
      noise <- normal 0 (re_volatility pattern / 10) ;;
      let annual_rate := max0 (base + noise) in
      let price_start_year := price in
      let price_end_year := price * (1 + annual_rate) in
      rest <- price_loop district pattern price_end_year (S i) ys' ;;
      ret ({| p_district := district;
              p_year := year;
              price_eur_sqm := price_start_year;
              p_annual_growth_rate := annual_rate;
              price_change_eur := price_end_year - price_start_year |}
           :: fst rest, snd rest)
  end.

(** The rows of one district: the loop, then the final year. *)
Definition price_rows (d : string * price_pattern) : M (list price_row) :=
  let (district, pattern) := d in
  r <- price_loop district pattern (base_price_2014 pattern) 0 (removelast years) ;;
  ret (fst r ++
       [ {| p_district := district;
            p_year := 2024;
            price_eur_sqm := snd r;
            p_annual_growth_rate := 0;
            price_change_eur := 0 |} ]).

Definition real_estate_data (patterns : list (string * price_pattern))
  : M (list price_row) :=
  blocks <- for_each price_rows patterns ;;
  ret (List.concat blocks).

Definition get_annual_real_estate_data : M (list price_row) :=
  real_estate_data district_patterns.

(** ** Winery counts *)

Record winery_pattern : Type :=
  { base_count_2014 : Q;
    growth_phases : list (Z * Z * Q);
    w_volatility : Q }.

Definition phase (start_year end_year : Z) (rate : Q) : Z * Z * Q :=
  (start_year, end_year, rate).

Definition winery_patterns : list (string * winery_pattern) :=
  [ ("Neukölln"%string,
     {| base_count_2014 := 2;
        growth_phases := [ phase 2014 2016 0.1; phase 2017 2019 0.4;
                           phase 2020 2022 0.6; phase 2023 2024 0.3 ];
        w_volatility := 0.3 |});
    ("Wedding"%string,
     {| base_count_2014 := 1;
        growth_phases := [ phase 2014 2017 0.05; phase 2018 2020 0.3;
                           phase 2021 2023 0.5; phase 2024 2024 0.4 ];
        w_volatility := 0.4 |});
    ("Friedrichshain"%string,
     {| base_count_2014 := 4;
        growth_phases := [ phase 2014 2015 0.2; phase 2016 2018 0.5;
                           phase 2019 2021 0.4; phase 2022 2024 0.2 ];
        w_volatility := 0.25 |});
    ("Kreuzberg"%string,
     {| base_count_2014 := 6;
        growth_phases := [ phase 2014 2016 0.3; phase 2017 2019 0.4;
                           phase 2020 2022 0.2; phase 2023 2024 0.1 ];
        w_volatility := 0.2 |});
    ("Prenzlauer Berg"%string,
     {| base_count_2014 := 8;
        growth_phases := [ phase 2014 2017 0.25; phase 2018 2020 0.15;
                           phase 2021 2024 0.05 ];
        w_volatility := 0.15 |});
    ("Mitte"%string,
     {| base_count_2014 := 10;
        growth_phases := [ phase 2014 2017 0.2; phase 2018 2021 0.1;
                           phase 2022 2024 0.05 ];
        w_volatility := 0.1 |}) ].

Record count_row : Type :=
  { c_district : string;
    c_year : Z;
    winery_count : Q;
    c_annual_growth_rate : Q;
    winery_growth_absolute : Q }.

(** The rate of the first phase whose years include [year]; 0 if none. *)
Fixpoint phase_rate (phases : list (Z * Z * Q)) (year : Z) : Q :=
  match phases with
  | [] => 0
  | (start_year, end_year, rate) :: rest =>
      if (start_year <=? year)%Z && (year <=? end_year)%Z then rate
      else phase_rate rest year
  end.

(** [for year in years[:-1]], carrying [count]. *)
Fixpoint count_loop (district : string) (pattern : winery_pattern) (count : Q)
  (ys : list Z) : M (list count_row * Q) :=
  match ys with
  | [] => ret ([], count)
  | year :: ys' =>
      let growth_rate := phase_rate (growth_phases pattern) year in
      noise <- normal 0 (w_volatility pattern / 5) ;;
      let growth_rate := max0 (growth_rate + noise) in
      let count_start_year := count in
      let count_end_year := count * (1 + growth_rate) in
      rest <- count_loop district pattern count_end_year ys' ;;
      ret ({| c_district := district;
              c_year := year;
              winery_count := count_start_year;
              c_annual_growth_rate := growth_rate;
              winery_growth_absolute := count_end_year - count_start_year |}
           :: fst rest, snd rest)
  end.

Definition count_rows (d : string * winery_pattern) : M (list count_row) :=
  let (district, pattern) := d in
  r <- count_loop district pattern (base_count_2014 pattern) (removelast years) ;;
  ret (fst r ++
       [ {| c_district := district;
            c_year := 2024;
            winery_count := snd r;
            c_annual_growth_rate := 0;
            winery_growth_absolute := 0 |} ]).

Definition winery_growth_data (patterns : list (string * winery_pattern))
  : M (list count_row) :=
  blocks <- for_each count_rows patterns ;;
  ret (List.concat blocks).

Definition get_annual_winery_growth_data : M (list count_row) :=
  winery_growth_data winery_patterns.

(** ** Cross-correlation *)

(** The sign of a difference, as [np.sign] gives it. *)
Definition sign (q : Q) : Q :=
  match Qcompare q 0 with
  | Lt => -1
  | Eq => 0
  | Gt => 1
  end.

(** [(x == x[0]).all()]. *)
Definition constant (x : list Q) : bool :=
  match x with
  | [] => true
  | x0 :: _ => forallb (Qeq_bool x0) x
  end.

Inductive interpretation : Type :=
| Simultaneous
| WineryLeadsBy (lag : Z)
| RealEstateLeadsBy (lag : Z).

Record lag_entry : Type :=
  { correlation : pyfloat;
    p_value : pyfloat;
    interpreted : interpretation }.

Section CrossCorrelation.

(** scipy's coefficient and p-value on samples of three points or more
    that are not constant. *)
Variable pearson_stat : list Q -> list Q -> pyfloat * pyfloat.

(** [scipy.stats.pearsonr], by its documented cases: the lengths must
    agree and be at least 2; a constant input has no coefficient ([nan]);
    two points give the product of the signs of the two differences, with
    p-value 1. *)
Definition pearsonr (x y : list Q) : outcome (pyfloat * pyfloat) :=
  let n := List.length x in
  if negb (n =? List.length y)%nat then Raise ValueError
  else if (n <? 2)%nat then Raise ValueError
  else if constant x || constant y then Ok (NaN, NaN)
  else
    match x, y with
    | [x0; x1], [y0; y1] => Ok (Fin (sign (x1 - x0) * sign (y1 - y0)), Fin 1.0)
    | _, _ => Ok (pearson_stat x y)
    end.

(** The pair [(corr, p_val)] the loop computes for one lag. *)
Definition correlate_at (x y : list Q) (lag : Z) : outcome (pyfloat * pyfloat) :=
  if (lag =? 0)%Z then pearsonr x y
  else if (0 <? lag)%Z then
    if (lag <? Z.of_nat (List.length x))%Z
    then pearsonr (firstn (List.length x - Z.to_nat lag) x) (skipn (Z.to_nat lag) y)
    else Ok (NaN, NaN)
  else
    if (Z.abs lag <? Z.of_nat (List.length y))%Z
    then pearsonr (skipn (Z.to_nat (Z.abs lag)) x)
                  (firstn (List.length y - Z.to_nat (Z.abs lag)) y)
    else Ok (NaN, NaN).

Definition interpret (lag : Z) : interpretation :=
  if (lag =? 0)%Z then Simultaneous
  else if (0 <? lag)%Z then WineryLeadsBy lag
  else RealEstateLeadsBy (Z.abs lag).

(** The dictionary from each lag of [range(-max_lag, max_lag + 1)] to its
    entry, in insertion order. *)
Definition calculate_cross_correlation (x y : list Q) (max_lag : Z)
  : outcome (list (Z * lag_entry)) :=
  let min_len := Nat.min (List.length x) (List.length y) in
  let x := firstn min_len x in
  let y := firstn min_len y in
  for_each
    (fun lag =>
       r <- correlate_at x y lag ;;
       ret (lag, {| correlation := fst r; p_value := snd r;
                    interpreted := interpret lag |}))
    (Py.range (- max_lag) (Z.to_nat (2 * max_lag + 1))).

End CrossCorrelation.

(** [max(cross_corr.keys(), key=lambda k: cross_corr[k]['correlation'])]. *)
Definition best_lag (cross_corr : list (Z * lag_entry)) : outcome Z :=
  e <- max_by (fun e => correlation (snd e)) cross_corr ;;
  ret (fst e).

(** ** The lag study and the peak timing of [create_temporal_analysis_charts] *)

(** The rows of a district in the years before 2024, of either frame. *)
Definition district_winery (winery_df : list count_row) (district : string)
  : list count_row :=
  filter (fun r => String.eqb (c_district r) district && (c_year r <? 2024)%Z)
         winery_df.

Definition district_re (real_estate_df : list price_row) (district : string)
  : list price_row :=
  filter (fun r => String.eqb (p_district r) district && (p_year r <? 2024)%Z)
         real_estate_df.

(** The districts of the lag study: the dictionary [lag_results], in
    insertion order. *)
Definition lag_districts : list string :=
  ["Neukölln"; "Wedding"; "Friedrichshain"]%string.

Definition lag_results (pearson_stat : list Q -> list Q -> pyfloat * pyfloat)
  (winery_df : list count_row) (real_estate_df : list price_row)
  : outcome (list (string * list (Z * lag_entry))) :=
  for_each
    (fun district =>
       let winery_rates := map c_annual_growth_rate (district_winery winery_df district) in
       let re_rates := map p_annual_growth_rate (district_re real_estate_df district) in
       cross_corr <- calculate_cross_correlation pearson_stat winery_rates re_rates 2 ;;
       ret (district, cross_corr))
    lag_districts.

Definition key_districts : list string :=
  ["Neukölln"; "Wedding"; "Friedrichshain"; "Kreuzberg"; "Prenzlauer Berg";
   "Mitte"]%string.

(** [rows.loc[rows[rate].idxmax()]]: the first row of the largest rate;
    an empty selection has no maximum. *)
Definition idxmax {A : Type} (rate : A -> Q) (rows : list A) : outcome A :=
  match rows with
  | [] => Raise ValueError
  | r :: rest =>
      Ok (fold_left (fun best r' => if qlt (rate best) (rate r') then r' else best)
            rest r)
  end.

Record peak_row : Type :=
  { pk_district : string;
    winery_peak : Z;
    re_peak : Z;
    lead_time : Z }.

(** [peak_df]: for each key district the years of the largest rates. *)
Definition peak_analysis (winery_df : list count_row)
  (real_estate_df : list price_row) : outcome (list peak_row) :=
  for_each
    (fun district =>
       w <- idxmax c_annual_growth_rate (district_winery winery_df district) ;;
       p <- idxmax p_annual_growth_rate (district_re real_estate_df district) ;;
       let winery_peak_year := c_year w in
       let re_peak_year := p_year p in
       ret {| pk_district := district;
              winery_peak := winery_peak_year;
              re_peak := re_peak_year;
              lead_time := (re_peak_year - winery_peak_year)%Z |})
    key_districts.

(** The counts of the report: districts whose winery peak comes before,
    with, and after the real-estate peak. *)
Definition leads_count (peak_df : list peak_row) : nat :=
  List.length (filter (fun row => (0 <? lead_time row)%Z) peak_df).

Definition simultaneous_count (peak_df : list peak_row) : nat :=
  List.length (filter (fun row => (lead_time row =? 0)%Z) peak_df).

Definition lags_count (peak_df : list peak_row) : nat :=
  List.length (filter (fun row => (lead_time row <? 0)%Z) peak_df).

(** The data of [main], the lag study and the peak timing, in the order
    in which [main] runs them. *)
Definition analysis (pearson_stat : list Q -> list Q -> pyfloat * pyfloat)
  : M (list (string * list (Z * lag_entry)) * list peak_row) :=
  winery_df <- get_annual_winery_growth_data ;;
  real_estate_df <- get_annual_real_estate_data ;;
  lags <- lift (lag_results pearson_stat winery_df real_estate_df) ;;
  peak_df <- lift (peak_analysis winery_df real_estate_df) ;;
  ret (lags, peak_df).

End TemporalAnalysis.

(* ================================================================== *)
(** * scripts/download_recent_wineries.py *)
(* ================================================================== *)

Module RecentWineries.

(** ** Dates *)

(** A [datetime]: an instant, in microseconds of its own reckoning, and
    whether it carries an offset (aware) or not (naive). *)
Record datetime : Type :=
  { instant : Z;
    aware : bool }.

(** The one exception that [classify_by_recency] lets through. *)
Inductive checked (A : Type) : Type :=
| Done (a : A)
| TypeError.

Arguments Done {A} a.
Arguments TypeError {A}.

(** [a >= b] on datetimes: a naive and an aware one cannot be ordered. *)
Definition ge (a b : datetime) : checked bool :=
  if Bool.eqb (aware a) (aware b) then Done (instant b <=? instant a)%Z
  else TypeError.

(** [d - timedelta(days=n)]. *)
Definition minus_days (d : datetime) (n : Z) : datetime :=
  {| instant := (instant d - n * 86400000000)%Z; aware := aware d |}.

(** [datetime.now()]: naive. *)
Definition current_date (now : Z) : datetime := {| instant := now; aware := false |}.

(** ** Classification by recency *)

(** The entries of a winery that the classification reads; [None] is a
    missing key. *)
Record entry : Type :=
  { start_date : option string;
    opening_date : option string;
    created_date : option string;
    osm_version : option Z }.

(** [bool(winery.get(key))] for a text entry. *)
Definition present (v : option string) : bool :=
  match v with
  | Some s => negb (String.eqb s "")
  | None => false
  end.

Record recency : Type :=
  { recency_score : Z;
    recency_category : string;
    is_recent : bool }.

Definition mk (score : Z) (category : string) : recency :=
  {| recency_score := score;
     recency_category := category;
     is_recent := (5 <=? score)%Z |}.

Section Classify.

(** [datetime.fromisoformat]; [None] when it raises. *)
Variable fromisoformat : string -> option datetime.

(** The instant of [datetime.now()]. *)
Variable now : Z.

Definition two_years_ago : datetime := minus_days (current_date now) 730.
Definition one_year_ago : datetime := minus_days (current_date now) 365.

(** [try: datetime.fromisoformat(winery[key]) except: pass]. *)
Definition parsed (v : option string) : option datetime :=
  match v with
  | Some s => fromisoformat s
  | None => None
  end.

(** [opening_date]: the explicit date, from ['start_date'] when that
    entry is there, else from ['opening_date']. *)
Definition explicit_date (w : entry) : option datetime :=
  if present (start_date w) then parsed (start_date w)
  else if present (opening_date w) then parsed (opening_date w)
  else None.

(** The score and the category from the OSM metadata: the body of the
    [try], any exception of which is passed over. *)
Definition osm_recency (w : entry) : Z * string :=
  if present (created_date w) then
    match parsed (created_date w) with
    | None => (0%Z, "unknown"%string)
    | Some osm_date =>
        match ge osm_date two_years_ago with
        | TypeError => (0%Z, "unknown"%string)
        | Done true =>
            match ge osm_date one_year_ago with
            | TypeError => (0%Z, "unknown"%string)
            | Done true => (7%Z, "likely_recent"%string)
            | Done false => (5%Z, "possibly_recent"%string)
            end
        | Done false => (1%Z, "established"%string)
        end
    end
  else (0%Z, "unknown"%string).

(** The points for the version number. *)
Definition version_bonus (w : entry) : Z :=
  let version := match osm_version w with Some v => v | None => 1%Z end in
  (if (5 <? version) then 2 else if (2 <? version) then 1 else 0)%Z.

(** The body of the loop over the wineries. *)
Definition classify (w : entry) : checked recency :=
  match explicit_date w with
  | Some opening_date =>
      match ge opening_date two_years_ago with
      | TypeError => TypeError
      | Done true =>
          match ge opening_date one_year_ago with
          | TypeError => TypeError
          | Done true => Done (mk 10 "very_recent")
          | Done false => Done (mk 8 "recent")
          end
      | Done false => Done (mk 2 "established")
      end
  | None =>
      let (recency_score, recency_category) := osm_recency w in
      Done (mk (recency_score + version_bonus w)%Z recency_category)
  end.

(** [classify_by_recency]: the loop stops at the first exception. *)
Fixpoint classify_by_recency (wineries : list entry) : checked (list recency) :=
  match wineries with
  | [] => Done []
  | w :: rest =>
      match classify w with
      | TypeError => TypeError
      | Done c =>
          match classify_by_recency rest with
          | TypeError => TypeError
          | Done cs => Done (c :: cs)
          end
      end
  end.

End Classify.

(** ** Districts *)

(** The boxes of [add_district_info], in the order of the dictionary. *)
Definition box (a1 a2 o1 o2 : Q) : bbox :=
  {| lat_min := a1; lat_max := a2; lon_min := o1; lon_max := o2 |}.

Definition districts : list (string * bbox) :=
  [ ("Mitte"%string, box 52.50 52.55 13.35 13.42);
    ("Prenzlauer Berg"%string, box 52.52 52.56 13.40 13.45);
    ("Charlottenburg"%string, box 52.49 52.53 13.28 13.35);
    ("Kreuzberg"%string, box 52.49 52.52 13.38 13.42);
    ("Neukölln"%string, box 52.45 52.50 13.40 13.47);
    ("Friedrichshain"%string, box 52.50 52.53 13.42 13.48);
    ("Schöneberg"%string, box 52.46 52.50 13.33 13.38);
    ("Wedding"%string, box 52.53 52.57 13.33 13.38);
    ("Tempelhof"%string, box 52.45 52.49 13.38 13.42);
    ("Steglitz"%string, box 52.44 52.48 13.31 13.36) ].

(** One turn of the loop of [add_district_info]: a winery without both
    coordinates keeps the ['district'] it came with. *)
Definition add_district_row (w : winery) : winery :=
  let lat := latitude w in
  let lon := longitude w in
  if truthy_opt lat && truthy_opt lon then
    match lat, lon with
    | Some lat, Some lon =>
        match first_containing (fun b : bbox => b) districts lat lon with
        | Some district_name => set_district w district_name
        | None => set_district w "Other"
        end
    | _, _ => w
    end
  else w.

Definition add_district_info (wineries : list winery) : list winery :=
  map add_district_row wineries.

(** For the comparison with the density map: boxes of equal bounds. *)
Definition same_box (b b' : bbox) : Prop :=
  lat_min b == lat_min b' /\ lat_max b == lat_max b'
  /\ lon_min b == lon_min b' /\ lon_max b == lon_max b'.

(** The name under which [add_district_info] knows a district of that
    script's catalog.  The two spell Neukölln and Schöneberg differently,
    and Wilmersdorf and Spandau have no box here. *)
Definition known_as (district_name : string) : string :=
  if String.eqb district_name "Neuk√∂lln" then "Neukölln"
  else if String.eqb district_name "Sch√∂neberg" then "Schöneberg"
  else if String.eqb district_name "Wilmersdorf" then "Other"
  else if String.eqb district_name "Spandau" then "Other"
  else district_name.

End RecentWineries.

(* ================================================================== *)
(** * The synthesis with the noise of each district and year made explicit *)
(* ================================================================== *)

Module Keyed.

Import GrowthAnalysis.

Section Keyed.

Variable seeded : Z -> nat -> Q.

(** The random factor that the simulation uses for the year [year] of the
    [k]-th district it processes: each processed district takes ten
    draws, from 2023 back to 2014. *)
Definition random_factor (k : nat) (year : Z) : Q :=
  1.0 + 0.1 * seeded 42 (10 * k + Z.to_nat (2023 - year))%nat.

(** The row of a year when the random factors are given by [noise]. *)
Definition entry_with (noise : Z -> Q) (district_name : string) (context : context)
  (current_density : Q) (current_count : nat) (area_km2 : Q) (year : Z)
  : outcome history_row :=
  if (year =? 2024)%Z
  then Ok (current_entry district_name context current_density current_count
             area_km2 year)
  else historical_entry district_name context current_density area_km2 year
         (noise year).

(** The history of a district when the random factors are given by
    [noise]. *)
Definition history_with (noise : Z -> Q) (current_df : list winery)
  (district_name : string) (district_info : district_info) (context : context)
  : outcome (list history_row) :=
  backwards <-
    for_each (entry_with noise district_name context
                (current_density current_df district_name district_info)
                (current_count current_df district_name)
                (area_km2 district_info))
             (rev years) ;;
  with_yoy (rev backwards).

(** The blocks of the districts of a catalog, the first district that
    has a context being the [k]-th processed. *)
Fixpoint histories_from (current_df : list winery)
  (district_context : list (string * context)) (k : nat)
  (districts_info : list (string * district_info))
  : outcome (list (list history_row)) :=
  match districts_info with
  | [] => ret []
  | d :: rest =>
      match lookup (fst d) district_context with
      | None =>
          blocks <- histories_from current_df district_context k rest ;;
          ret ([] :: blocks)
      | Some context =>
          block <- history_with (random_factor k) current_df (fst d) (snd d) context ;;
          blocks <- histories_from current_df district_context (S k) rest ;;
          ret (block :: blocks)
      end
  end.

End Keyed.

(** The districts of the catalog that have a context. *)
Definition processed (district_context : list (string * context))
  (districts_info : list (string * district_info)) : list (string * district_info) :=
  filter (fun d => match lookup (fst d) district_context with
                   | Some _ => true
                   | None => false
                   end)
         districts_info.

(** The recorded density of a district in a year. *)
Definition density_at (rows : list history_row) (d : string) (y : Z) : option Q :=
  option_map h_density
    (find (fun r => String.eqb (h_district r) d && (h_year r =? y)%Z) rows).

(** The rows of a run that returned. *)
Definition rows_of {A : Type} (o : outcome (list A * bitgen)) : list A :=
  match o with
  | Ok (rows, _) => rows
  | Raise _ => []
  end.

End Keyed.

(* ================================================================== *)
(** * The assignment policy as the specification words it *)
(* ================================================================== *)

Module Policy.

(** The first region of the catalog, in its declared order, whose box
    (bounds included) contains the point; ["Other"] when none does, which
    is the case of a point that lacks a coordinate. *)
Definition first_match {info : Type} (bounds : info -> bbox)
  (districts : list (string * info)) (lat lon : option pyfloat) : string :=
  match lat, lon with
  | Some lat, Some lon =>
      match find (fun d => contains (bounds (snd d)) lat lon) districts with
      | Some d => fst d
      | None => "Other"%string
      end
  | _, _ => "Other"%string
  end.

(** What the assigner does with one winery: the policy behind the test
    [if lat and lon], ["Other"] when it fails. *)
Definition label {info : Type} (bounds : info -> bbox)
  (districts : list (string * info)) (w : winery) : winery :=
  set_district w
    (if truthy_opt (latitude w) && truthy_opt (longitude w)
     then first_match bounds districts (latitude w) (longitude w)
     else "Other"%string).

(** A winery whose latitude or longitude is missing or not finite. *)
Definition invalid (w : winery) : bool :=
  match latitude w, longitude w with
  | Some (Fin _), Some (Fin _) => false
  | _, _ => true
  end.

(** The best lag in the specification's words: among the lags whose
    correlation is defined, the one of maximum correlation; on equal
    correlations the smaller absolute lag; then the smaller lag. *)
Definition preferred (a b : Z * Q) : bool :=
  let (la, ca) := a in
  let (lb, cb) := b in
  if negb (Qle_bool ca cb) then true
  else if Qeq_bool ca cb
       then (Z.abs la <? Z.abs lb)%Z || ((Z.abs la =? Z.abs lb)%Z && (la <? lb)%Z)
       else false.

Fixpoint defined (table : list (Z * TemporalAnalysis.lag_entry)) : list (Z * Q) :=
  match table with
  | [] => []
  | (lag, e) :: rest =>
      match TemporalAnalysis.correlation e with
      | Fin c => (lag, c) :: defined rest
      | _ => defined rest
      end
  end.

Definition best_lag (table : list (Z * TemporalAnalysis.lag_entry)) : option Z :=
  match defined table with
  | [] => None
  | a :: rest =>
      Some (fst (fold_left (fun best e => if preferred e best then e else best)
                   rest a))
  end.

End Policy.

(* ================================================================== *)
(** * Series read off a frame *)
(* ================================================================== *)

Module Trend.

Section Series.

Variable row : Type.
Variable district_of : row -> string.
Variable year_of : row -> Z.
Variable value_of : row -> Q.

(** The points (year, value) of the rows of one district, in the order
    of the frame. *)
Definition series (d : string) (rows : list row) : list (Z * Q) :=
  map (fun r => (year_of r, value_of r))
      (filter (fun r => String.eqb (district_of r) d) rows).

(** A later point is a point of a later year and of a value at least as
    large. *)
Definition follows (a b : Z * Q) : Prop := (fst a < fst b)%Z /\ snd a <= snd b.

(** A series in chronological order that never declines: every point is
    followed by all the points after it. *)
Definition rising (s : list (Z * Q)) : Prop := StronglySorted follows s.

(** The rows of one district as a generator appends them: all of that
    name, over the years [ys], in chronological order and never
    declining. *)
Definition block_of (ys : list Z) (d : string) (rows : list row) : Prop :=
  Forall (fun r => district_of r = d) rows
  /\ map year_of rows = ys
  /\ rising (map (fun r => (year_of r, value_of r)) rows).

End Series.

Arguments series {row} district_of year_of value_of d rows.
Arguments block_of {row} district_of year_of value_of ys d rows.

End Trend.

(* ================================================================== *)
(** * Inputs used in the examples *)
(* ================================================================== *)

Module Inputs.

(** A catalog of one region, a box around the origin. *)
Definition origin_catalog : list (string * DensityMap.district_info) :=
  [ ("A"%string, DensityMap.mk (-1, 1, -1, 1) 100 (0, 0) 1000 "around the origin") ].

(** A winery on the equator, inside that box. *)
Definition equator_winery : winery :=
  {| name := "on the equator"; latitude := Some (Fin 0.0);
     longitude := Some (Fin 0.5); district := "" |}.

(** A winery whose latitude cell is empty ([nan]), in the east of Berlin. *)
Definition nan_winery : winery :=
  {| name := "no latitude"; latitude := Some NaN;
     longitude := Some (Fin 13.405); district := "" |}.

(** A winery far from every cataloged district. *)
Definition far_winery : winery :=
  {| name := "Potsdam"; latitude := Some (Fin 52.400);
     longitude := Some (Fin 13.050); district := "" |}.

(** A catalog whose one region is larger than the nominal city area. *)
Definition oversized_catalog : list (string * DensityMap.district_info) :=
  [ ("Mitte"%string,
     DensityMap.mk (52.500, 52.550, 13.350, 13.420) 900 (52.525, 13.385) 383000
       "Historic center, government district") ].

(** A lag table in which lags -1 and 0 share the largest correlation. *)
Definition entry (lag : Z) (c p : Q) : Z * TemporalAnalysis.lag_entry :=
  (lag, {| TemporalAnalysis.correlation := Fin c;
           TemporalAnalysis.p_value := Fin p;
           TemporalAnalysis.interpreted := TemporalAnalysis.interpret lag |}).

Definition tied_table : list (Z * TemporalAnalysis.lag_entry) :=
  [ entry (-1) 0.5 0.1; entry 0 0.5 0.1; entry 1 0.2 0.4 ].

(** Two series of three years. *)
Definition three_x : list Q := [1; 2; 3].
Definition three_y : list Q := [2; 1; 3].

(** A stand-in for scipy's statistic on longer samples. *)
Definition half_stat (x y : list Q) : pyfloat * pyfloat := (Fin 0.5, Fin 0.6).

(** A stream for the examples: the first variates that numpy's legacy
    generator delivers after [seed(42)], to four places; 0 afterwards. *)
Definition seed42_head : list Q :=
  [ 0.4967; -0.1383; 0.6477; 1.5230; -0.2342; -0.2341; 1.5792; 0.7674;
    -0.4695; 0.5426; -0.4634; -0.4657; 0.2420; -1.9133; -1.7249; -0.5623;
    -1.0128; 0.3142; -0.9080; -1.4123 ].

Definition seeded_head (s : Z) (k : nat) : Q := nth k seed42_head 0.

(** A generator that only delivers zeros: no noise. *)
Definition quiet : bitgen := {| draws := fun _ => 0; pos := 0 |}.

(** The profile of the specification's region ["A"]: base rate 0.10, no
    peak years. *)
Definition region_a : GrowthAnalysis.context :=
  {| GrowthAnalysis.gentrification_peak := 2020;
     GrowthAnalysis.growth_pattern := "steady";
     GrowthAnalysis.development_factors := [];
     GrowthAnalysis.base_growth_rate := 0.10;
     GrowthAnalysis.peak_growth_years := [];
     GrowthAnalysis.description := "region A" |}.

(** One winery, in Neukölln. *)
Definition neukoelln_winery : winery :=
  {| name := "Weinhandlung"; latitude := Some (Fin 52.470);
     longitude := Some (Fin 13.430); district := "" |}.

(** A winery where the boxes of Prenzlauer Berg and Mitte overlap. *)
Definition overlap_winery : winery :=
  {| name := "Kollwitzplatz"; latitude := Some (Fin 52.530);
     longitude := Some (Fin 13.410); district := "" |}.

(** The historical context without its first entry, Prenzlauer Berg. *)
Definition context_without_first : list (string * GrowthAnalysis.context) :=
  tl GrowthAnalysis.get_district_historical_context.

(** A row of the historical frame before its rate is written. *)
Definition unrated (d : string) (year : Z) (density : Q) : GrowthAnalysis.history_row :=
  GrowthAnalysis.make_row d region_a 10 year density (int (density * 10)).

(** Two years of a district whose density doubles, and their rated
    history. *)
Definition two_years : list GrowthAnalysis.history_row :=
  [ unrated "B" 2023 1; unrated "B" 2024 2 ].

Definition two_years_rated : list GrowthAnalysis.history_row :=
  [ GrowthAnalysis.set_yoy (unrated "B" 2023 1) 0.0;
    GrowthAnalysis.set_yoy (unrated "B" 2024 2) 1.0000 ].

(** A frame with a single year of district ["A"] before those two years
    of ["B"]. *)
Definition lone_and_pair : list GrowthAnalysis.history_row :=
  GrowthAnalysis.set_yoy (unrated "A" 2024 1) 0.0 :: two_years_rated.

(** The two years of ["B"] and three years of a district ["C"] whose
    density goes from 1 to 4 in 2023. *)
Definition two_districts : list GrowthAnalysis.history_row :=
  two_years_rated
  ++ [ GrowthAnalysis.set_yoy (unrated "C" 2022 1) 0.0;
       GrowthAnalysis.set_yoy (unrated "C" 2023 4) 3.0000;
       GrowthAnalysis.set_yoy (unrated "C" 2024 4) 0.0 ].

(** A stand-in for [datetime.fromisoformat] that reads two texts of the
    first of May 2024, one with an offset and one without, and raises on
    every other; a clock at the first of July 2024. *)
Definition fromisoformat (s : string) : option RecentWineries.datetime :=
  if String.eqb s "2024-05-01T10:00:00+00:00"
  then Some {| RecentWineries.instant := 1714557600000000;
               RecentWineries.aware := true |}
  else if String.eqb s "2024-05-01"
  then Some {| RecentWineries.instant := 1714521600000000;
               RecentWineries.aware := false |}
  else None.

Definition clock : Z := 1719792000000000.

(** A winery as the download writes it: no explicit date, the OSM
    timestamp with its offset, seven versions. *)
Definition downloaded : RecentWineries.entry :=
  {| RecentWineries.start_date := Some ""%string;
     RecentWineries.opening_date := Some ""%string;
     RecentWineries.created_date := Some "2024-05-01T10:00:00+00:00"%string;
     RecentWineries.osm_version := Some 7%Z |}.

(** The same winery with an opening date two months before the clock. *)
Definition opened : RecentWineries.entry :=
  {| RecentWineries.start_date := Some "2024-05-01"%string;
     RecentWineries.opening_date := Some ""%string;
     RecentWineries.created_date := Some "2024-05-01T10:00:00+00:00"%string;
     RecentWineries.osm_version := Some 7%Z |}.

(** And with an opening date that carries an offset. *)
Definition opened_with_offset : RecentWineries.entry :=
  {| RecentWineries.start_date := Some "2024-05-01T10:00:00+00:00"%string;
     RecentWineries.opening_date := Some ""%string;
     RecentWineries.created_date := Some ""%string;
     RecentWineries.osm_version := Some 1%Z |}.

(** A winery in Wilmersdorf. *)
Definition wilmersdorf_winery : winery :=
  {| name := "Weinladen"; latitude := Some (Fin 52.480);
     longitude := Some (Fin 13.300); district := "" |}.

End Inputs.

(* ================================================================== *)
(** * Properties of the primitives *)
(* ================================================================== *)

Section SortFacts.

Context {A : Type}.

Lemma insert_desc_perm (key : A -> Q) (a : A) (l : list A) :
  Permutation (insert_desc key a l) (a :: l).
Proof.
  induction l as [|b l IH]; simpl; [reflexivity|].
  destruct (Qle_bool (key b) (key a)); [reflexivity|].
  rewrite IH. apply perm_swap.
Qed.

Lemma sort_values_desc_perm (key : A -> Q) (l : list A) :
  Permutation (sort_values_desc key l) l.
Proof.
  induction l as [|a l IH]; simpl; [reflexivity|].
  unfold sort_values_desc in *. simpl.
  rewrite insert_desc_perm. now rewrite IH.
Qed.

Lemma insert_asc_perm (key : A -> Z) (a : A) (l : list A) :
  Permutation (insert_asc key a l) (a :: l).
Proof.
  induction l as [|b l IH]; simpl; [reflexivity|].
  destruct (key a <=? key b)%Z; [reflexivity|].
  rewrite IH. apply perm_swap.
Qed.

Lemma sort_values_asc_perm (key : A -> Z) (l : list A) :
  Permutation (sort_values_asc key l) l.
Proof.
  induction l as [|a l IH]; simpl; [reflexivity|].
  unfold sort_values_asc in *. simpl.
  rewrite insert_asc_perm. now rewrite IH.
Qed.

Lemma in_sort_values_desc (key : A -> Q) (l : list A) (a : A) :
  In a (sort_values_desc key l) <-> In a l.
Proof.
  split; apply Permutation_in;
    [|symmetry]; apply sort_values_desc_perm.
Qed.

End SortFacts.

(* ================================================================== *)
(** * Region assignment *)
(* ================================================================== *)

Section AssignFacts.

Variable info : Type.
Variable bounds : info -> bbox.

(** The inner loop is a search for the first containing box. *)
Lemma first_containing_find (districts : list (string * info)) (lat lon : pyfloat) :
  first_containing bounds districts lat lon =
  option_map fst (find (fun d => contains (bounds (snd d)) lat lon) districts).
Proof.
  induction districts as [|[n i] ds IH]; simpl; [reflexivity|].
  destruct (contains (bounds i) lat lon); [reflexivity|exact IH].
Qed.

(** One turn of the loop, on a row first set to ['Other']. *)
Lemma assign_row_label (districts : list (string * info)) (w : winery) :
  assign_row bounds districts (set_district w "Other") =
  Policy.label bounds districts w.
Proof.
  unfold assign_row, Policy.label, Policy.first_match. simpl.
  destruct (latitude w) as [lat|], (longitude w) as [lon|]; simpl;
    try reflexivity; try (rewrite ?andb_false_r; reflexivity).
  destruct (truthy lat && truthy lon); [|reflexivity].
  rewrite first_containing_find.
  destruct (find _ districts) as [[n i]|]; reflexivity.
Qed.

Lemma assign_loop_label (districts : list (string * info)) (df : list winery) :
  assign_loop bounds districts df = map (Policy.label bounds districts) df.
Proof.
  unfold assign_loop. rewrite map_map.
  apply map_ext. intro w. apply assign_row_label.
Qed.

(** No box contains a point with a coordinate that is not finite. *)
Lemma contains_finite (b : bbox) (lat lon : pyfloat) :
  contains b lat lon = true -> is_finite lat = true /\ is_finite lon = true.
Proof.
  unfold contains. intro H.
  apply andb_prop in H as [H H4]. apply andb_prop in H as [H H3].
  apply andb_prop in H as [H1 H2].
  destruct lat, lon; simpl in *; try discriminate; auto.
Qed.

Lemma find_containing_finite (districts : list (string * info)) (lat lon : pyfloat) d :
  find (fun d => contains (bounds (snd d)) lat lon) districts = Some d ->
  is_finite lat = true /\ is_finite lon = true.
Proof.
  intro H. apply find_some in H as [_ H]. now apply contains_finite in H.
Qed.

(** A winery with an invalid coordinate stays in ['Other']. *)
Lemma label_invalid (districts : list (string * info)) (w : winery) :
  Policy.invalid w = true ->
  Policy.label bounds districts w = set_district w "Other".
Proof.
  unfold Policy.invalid, Policy.label, Policy.first_match. intro H.
  destruct (truthy_opt (latitude w) && truthy_opt (longitude w)); [|reflexivity].
  destruct (latitude w) as [lat|]; [|reflexivity].
  destruct (longitude w) as [lon|]; [|reflexivity].
  destruct (find _ districts) as [d|] eqn:E; [|reflexivity].
  apply find_containing_finite in E as [F1 F2].
  destruct lat, lon; simpl in *; discriminate.
Qed.

End AssignFacts.

(** C2, as the specification states it, fails on a winery whose latitude
    is 0.0: the catalog's only box contains the point, and the assigner,
    whose test [if lat and lon] takes the zero for a missing value, leaves
    the winery in ['Other']. *)
Lemma first_match_skipped_at_zero :
  Policy.first_match DensityMap.bounds Inputs.origin_catalog
    (latitude Inputs.equator_winery) (longitude Inputs.equator_winery)
  = "A"%string
  /\ map district
       (fst (DensityMap.assign_districts_to_wineries
               [Inputs.equator_winery] Inputs.origin_catalog))
     = ["Other"%string].
Proof. split; reflexivity. Qed.

(** C2, amended.  Both assigners label every winery on its own, whatever
    the rows around it and their order: a winery whose latitude and
    longitude are both present and non-zero gets the first region, in
    catalog order, whose box (bounds included) contains it, and ['Other']
    when no box does; a winery with a missing or zero coordinate gets
    ['Other']. *)
Theorem assign_first_match_behind_guard :
  forall (districts : list (string * DensityMap.district_info)) (df : list winery),
    fst (DensityMap.assign_districts_to_wineries df districts)
    = map (Policy.label DensityMap.bounds districts) df
    /\ GrowthAnalysis.assign_districts_to_wineries df
       = map (Policy.label GrowthAnalysis.bounds
                GrowthAnalysis.get_district_boundaries_and_areas) df.
Proof.
  intros districts df. split.
  - unfold DensityMap.assign_districts_to_wineries. simpl.
    apply assign_loop_label.
  - apply assign_loop_label.
Qed.

(* ================================================================== *)
(** * Density normalisation *)
(* ================================================================== *)

Section DensityFacts.

Import DensityMap.

Lemma count_in_pos (d : string) (df : list winery) (w : winery) :
  In w df -> district w = d -> (1 <= count_in d df)%nat.
Proof.
  intros Hin Hd. unfold count_in.
  assert (Hf : In w (filter (fun w => String.eqb (district w) d) df)).
  { apply filter_In. split; [exact Hin|]. subst d. apply String.eqb_refl. }
  destruct (filter _ df); [contradiction|simpl; lia].
Qed.

(** The rows of the cataloged districts carry the catalog's names. *)
Lemma district_row_names (df : list winery)
  (districts : list (string * district_info)) (st : stats) :
  In st (map (fun d => district_row df (fst d) (snd d)) districts) ->
  In (st_district st) (map fst districts).
Proof.
  intro H. apply in_map_iff in H as [[n i] [<- Hin]]. simpl.
  apply in_map_iff. now exists (n, i).
Qed.

(** The row of ['Other'], when it is made. *)
Lemma other_row_made (df : list winery)
  (districts : list (string * district_info)) :
  (0 < count_in "Other" df)%nat ->
  exists st, other_row df districts = [st]
             /\ st_district st = "Other"%string
             /\ st_winery_count st = count_in "Other" df.
Proof.
  intro H. unfold other_row.
  destruct (0 <? count_in "Other" df)%nat eqn:E.
  - eexists. split; [reflexivity|]. split; reflexivity.
  - apply Nat.ltb_ge in E. lia.
Qed.

Lemma other_row_shape (df : list winery)
  (districts : list (string * district_info)) (st : stats) :
  In st (other_row df districts) ->
  st_area_km2 st = other_area districts
  /\ st_winery_count st = count_in "Other" df
  /\ (0 < st_winery_count st)%nat
  /\ st_density_per_km2 st
     = (if Qle_bool (st_area_km2 st) 0 then 0
        else round (of_nat (st_winery_count st) / st_area_km2 st) 3).
Proof.
  unfold other_row.
  destruct (0 <? count_in "Other" df)%nat eqn:E; [|contradiction].
  intros [<-|[]]. simpl. apply Nat.ltb_lt in E.
  repeat split; [exact E|].
  destruct (Qle_bool (other_area districts) 0); reflexivity.
Qed.

End DensityFacts.

(** C8, as the specification states it, fails on a winery whose latitude
    is [nan]: it is not dropped but kept in the frame under ['Other'], and
    the statistics count it in the ['Other'] row. *)
Lemma nan_winery_counted_in_other :
  Policy.invalid Inputs.nan_winery = true
  /\ map district
       (fst (DensityMap.assign_districts_to_wineries
               [Inputs.nan_winery] DensityMap.get_district_boundaries_and_areas))
     = ["Other"%string]
  /\ map (fun st => (DensityMap.st_district st, DensityMap.st_winery_count st))
       (filter (fun st => String.eqb (DensityMap.st_district st) "Other")
          (snd (DensityMap.assign_districts_to_wineries
                  [Inputs.nan_winery] DensityMap.get_district_boundaries_and_areas)))
     = [("Other"%string, 1%nat)].
Proof. repeat split; vm_compute; reflexivity. Qed.

(** C8, amended.  A winery with a missing or non-finite coordinate is not
    excluded: the assigner keeps every row, labels such a winery
    ['Other'], and the statistics have an ['Other'] row that counts it
    with the other wineries of that label.  (Nothing counts dropped
    wineries: the result is the labelled frame and the statistics.) *)
Theorem invalid_coordinates_kept_in_other :
  forall (districts : list (string * DensityMap.district_info))
         (df : list winery) (w : winery),
    In w df ->
    Policy.invalid w = true ->
    let out := DensityMap.assign_districts_to_wineries df districts in
    List.length (fst out) = List.length df
    /\ In (set_district w "Other") (fst out)
    /\ exists st,
         In st (snd out)
         /\ DensityMap.st_district st = "Other"%string
         /\ DensityMap.st_winery_count st = count_in "Other" (fst out)
         /\ (1 <= DensityMap.st_winery_count st)%nat.
Proof.
  intros districts df w Hin Hinv out.
  assert (Hout : fst out = map (Policy.label DensityMap.bounds districts) df)
    by apply assign_loop_label.
  assert (Hw : In (set_district w "Other") (fst out)).
  { rewrite Hout. apply in_map_iff. exists w. split; [|exact Hin].
    now apply label_invalid. }
  assert (Hc : (1 <= count_in "Other" (fst out))%nat)
    by (apply (count_in_pos _ _ _ Hw); reflexivity).
  split; [rewrite Hout; apply length_map|]. split; [exact Hw|].
  destruct (other_row_made (fst out) districts) as (st & Hst & Hn & Hk); [lia|].
  exists st. split.
  - unfold out at 1, DensityMap.assign_districts_to_wineries. simpl.
    apply in_sort_values_desc. unfold DensityMap.district_stats.
    apply in_or_app. right. fold out in Hst |- *.
    change (assign_loop DensityMap.bounds districts df) with (fst out).
    rewrite Hst. now left.
  - split; [exact Hn|]. split; [exact Hk|]. rewrite Hk. exact Hc.
Qed.

(** The theorem at a frame of two wineries, one of them without a
    latitude. *)
Lemma invalid_coordinates_kept_in_other_witness :
  In Inputs.nan_winery [Inputs.far_winery; Inputs.nan_winery]
  /\ Policy.invalid Inputs.nan_winery = true
  /\ exists st,
       In st (snd (DensityMap.assign_districts_to_wineries
                     [Inputs.far_winery; Inputs.nan_winery]
                     DensityMap.get_district_boundaries_and_areas))
       /\ DensityMap.st_district st = "Other"%string
       /\ (1 <= DensityMap.st_winery_count st)%nat.
Proof.
  assert (Hin : In Inputs.nan_winery [Inputs.far_winery; Inputs.nan_winery])
    by (right; left; reflexivity).
  assert (Hinv : Policy.invalid Inputs.nan_winery = true) by reflexivity.
  split; [exact Hin|]. split; [exact Hinv|].
  destruct (invalid_coordinates_kept_in_other
              DensityMap.get_district_boundaries_and_areas
              [Inputs.far_winery; Inputs.nan_winery] Inputs.nan_winery Hin Hinv)
    as (_ & _ & st & H1 & H2 & _ & H4).
  exists st. split; [exact H1|]. split; [exact H2|exact H4].
Defined.

(** C9, as the specification states it, fails when the cataloged areas
    exceed the nominal city area: the area of the ['Other'] row is then
    the negative difference itself, which no clamp to a positive epsilon
    can give, and its density is 0. *)
Lemma other_area_negative :
  exists st,
    In st (snd (DensityMap.assign_districts_to_wineries
                  [Inputs.far_winery] Inputs.oversized_catalog))
    /\ DensityMap.st_district st = "Other"%string
    /\ DensityMap.st_area_km2 st == -8.3
    /\ DensityMap.st_density_per_km2 st == 0
    /\ forall eps : Q,
         0 < eps ->
         ~ DensityMap.st_area_km2 st
           == Qmax eps (DensityMap.berlin_total_area
                        - Py.sum (map (fun d => DensityMap.area_km2 (snd d))
                                    Inputs.oversized_catalog)).
Proof.
  eexists. split; [right; left; reflexivity|].
  split; [reflexivity|]. split; [reflexivity|]. split; [reflexivity|].
  intros eps Heps H. simpl in H.
  pose proof (Q.le_max_l eps
    (DensityMap.berlin_total_area
     - Py.sum (map (fun d => DensityMap.area_km2 (snd d)) Inputs.oversized_catalog))) as Hle.
  rewrite <- H in Hle.
  assert (Hneg : DensityMap.other_area Inputs.oversized_catalog < 0) by reflexivity.
  apply (Qlt_irrefl 0).
  eapply Qlt_le_trans; [exact Heps|].
  eapply Qle_trans; [exact Hle|]. apply Qlt_le_weak. exact Hneg.
Qed.

(** C9, amended.  When ['Other'] is not itself a cataloged name, every
    ['Other'] row of the statistics has as area the nominal city area
    (891.7) minus the sum of the cataloged areas, with no clamp, and
    counts at least one winery; its density is the count over that area,
    rounded to 3 places, when the area is positive, and 0 otherwise, so
    that no division by a zero or negative area is made. *)
Theorem other_area_is_remainder :
  forall (districts : list (string * DensityMap.district_info))
         (df : list winery) (st : DensityMap.stats),
    ~ In "Other"%string (map fst districts) ->
    In st (snd (DensityMap.assign_districts_to_wineries df districts)) ->
    DensityMap.st_district st = "Other"%string ->
    DensityMap.st_area_km2 st
    = DensityMap.berlin_total_area
      - Py.sum (map (fun d => DensityMap.area_km2 (snd d)) districts)
    /\ DensityMap.st_winery_count st
       = count_in "Other" (fst (DensityMap.assign_districts_to_wineries df districts))
    /\ (0 < DensityMap.st_winery_count st)%nat
    /\ DensityMap.st_density_per_km2 st
       = (if Qle_bool (DensityMap.st_area_km2 st) 0 then 0
          else round (DensityMap.of_nat (DensityMap.st_winery_count st)
                      / DensityMap.st_area_km2 st) 3).
Proof.
  intros districts df st Hother Hin Hname.
  unfold DensityMap.assign_districts_to_wineries in *. simpl in *.
  apply in_sort_values_desc in Hin. unfold DensityMap.district_stats in Hin.
  apply in_app_or in Hin as [Hin|Hin].
  - apply district_row_names in Hin. rewrite Hname in Hin. contradiction.
  - apply other_row_shape in Hin. exact Hin.
Qed.

(** The theorem at the oversized catalog and a winery outside its box. *)
Lemma other_area_is_remainder_witness :
  exists st,
    DensityMap.st_district st = "Other"%string
    /\ DensityMap.st_area_km2 st == -8.3
    /\ DensityMap.st_density_per_km2 st = 0.
Proof.
  pose (st := {| DensityMap.st_district := "Other";
                 DensityMap.st_winery_count := 1;
                 DensityMap.st_area_km2 := DensityMap.other_area Inputs.oversized_catalog;
                 DensityMap.st_density_per_km2 := 0;
                 DensityMap.st_population := 800000;
                 DensityMap.st_wineries_per_100k_people :=
                   round (DensityMap.of_nat 1 / 800000 * 100000) 2;
                 DensityMap.st_center := (52.520, 13.405);
                 DensityMap.st_description := "Other Berlin areas" |}).
  assert (Hnot : ~ In "Other"%string (map fst Inputs.oversized_catalog)).
  { simpl. intros [H|[]]. discriminate H. }
  assert (Hin : In st (snd (DensityMap.assign_districts_to_wineries
                              [Inputs.far_winery] Inputs.oversized_catalog))).
  { right. left. reflexivity. }
  destruct (other_area_is_remainder Inputs.oversized_catalog [Inputs.far_winery]
              st Hnot Hin eq_refl) as (Ha & _ & _ & Hd).
  exists st. split; [reflexivity|]. split; [reflexivity|].
  rewrite Hd. reflexivity.
Defined.

(* ================================================================== *)
(** * Lagged cross-correlation and the best lag *)
(* ================================================================== *)

Section MaxFacts.

Context {A : Type}.
Variable key : A -> pyfloat.

Let step (maxitem item : A) : A :=
  if fgt (key item) (key maxitem) then item else maxitem.

Lemma fgt_le_trans (x p r : pyfloat) :
  is_nan p = false -> fgt p r = false -> fgt x r = true -> fgt x p = true.
Proof.
  destruct x as [x| | |], p as [p| | |], r as [r| | |]; simpl;
    try discriminate; try reflexivity.
  intros _ H1 H2.
  apply negb_false_iff in H1. apply Qle_bool_iff in H1.
  apply negb_true_iff in H2. apply negb_true_iff.
  destruct (Qle_bool x p) eqn:E; [|reflexivity].
  apply Qle_bool_iff in E.
  assert (Hxr : x <= r) by (eapply Qle_trans; eassumption).
  apply Qle_bool_iff in Hxr. congruence.
Qed.

Lemma fgt_trans (x r p : pyfloat) :
  fgt x r = true -> fgt r p = true -> fgt x p = true.
Proof.
  destruct x as [x| | |], p as [p| | |], r as [r| | |]; simpl;
    try discriminate; try reflexivity.
  intros H1 H2.
  apply negb_true_iff in H1, H2. apply negb_true_iff.
  destruct (Qle_bool x p) eqn:E; [|reflexivity].
  apply Qle_bool_iff in E.
  assert (Hrp : ~ r <= p) by (rewrite <- Qle_bool_iff; congruence).
  assert (Hxr : ~ x <= r) by (rewrite <- Qle_bool_iff; congruence).
  exfalso. apply Hxr. apply Qlt_le_weak.
  apply Qle_lt_trans with p; [exact E|]. now apply Qnot_le_lt.
Qed.

(** The loop of [max]: when no key is [nan], the item it ends with
    exceeds every item before it and is exceeded by none after it. *)
Lemma fold_max_first (l : list A) (a : A) :
  (forall p, In p (a :: l) -> is_nan (key p) = false) ->
  exists pre post,
    a :: l = pre ++ fold_left step l a :: post
    /\ (forall p, In p pre -> fgt (key (fold_left step l a)) (key p) = true)
    /\ (forall p, In p post -> fgt (key p) (key (fold_left step l a)) = false).
Proof.
  induction l as [|x l IH] using rev_ind; intro Hnan.
  - exists [], []. simpl. repeat split; intros p [].
  - destruct IH as (pre & post & Heq & Hpre & Hpost).
    { intros p Hp. apply Hnan. simpl in *. destruct Hp as [Hp|Hp]; [now left|].
      right. apply in_or_app. now left. }
    rewrite fold_left_app. simpl. set (r := fold_left step l a) in *.
    assert (Hs : step r x = if fgt (key x) (key r) then x else r) by reflexivity.
    rewrite Hs. clear Hs. destruct (fgt (key x) (key r)) eqn:E.
    + exists (a :: l), []. split; [now rewrite app_comm_cons|].
      split; [|intros p []].
      intros p Hp. rewrite Heq in Hp. apply in_app_or in Hp as [Hp|[<-|Hp]].
      * eapply fgt_trans; [exact E|]. now apply Hpre.
      * exact E.
      * apply fgt_le_trans with (r := key r); [|now apply Hpost|exact E].
        apply Hnan. rewrite app_comm_cons, Heq.
        apply in_or_app. left. apply in_or_app. right. now right.
    + exists pre, (post ++ [x]). split.
      * rewrite app_comm_cons, Heq, <- app_assoc. reflexivity.
      * split; [exact Hpre|].
        intros p Hp. apply in_app_or in Hp as [Hp|[<-|[]]]; [now apply Hpost|exact E].
Qed.

End MaxFacts.

Section BestLagFacts.

Import TemporalAnalysis.

Lemma range_lower (n : nat) (lo k : Z) : In k (Py.range lo n) -> (lo <= k)%Z.
Proof.
  revert lo. induction n as [|n IH]; intros lo; simpl; [intros []|].
  intros [<-|H]; [lia|]. apply IH in H. lia.
Qed.

Lemma range_sorted (n : nat) (lo : Z) : StronglySorted Z.lt (Py.range lo n).
Proof.
  revert lo. induction n as [|n IH]; intros lo; simpl; constructor.
  - apply IH.
  - apply Forall_forall. intros k Hk. apply range_lower in Hk. lia.
Qed.

(** The keys of a loop that pairs each item with a result. *)
Lemma for_each_keys {B : Type} (f : Z -> outcome (Z * B)) (l : list Z)
  (table : list (Z * B)) :
  (forall k p, f k = Ok p -> fst p = k) ->
  for_each f l = Ok table ->
  map fst table = l.
Proof.
  intro Hf. revert table. induction l as [|k l IH]; intros table; simpl.
  - intros [= <-]. reflexivity.
  - destruct (f k) as [r|e] eqn:E; simpl; [|discriminate].
    destruct (for_each f l) as [t|e]; simpl; [|discriminate].
    intros [= <-]. simpl. f_equal; [now apply Hf|now apply IH].
Qed.

(** In a table whose lags increase and whose correlations are not [nan],
    [best_lag] is the first lag of maximum correlation. *)
Lemma best_lag_first_max (table : list (Z * lag_entry)) :
  table <> [] ->
  StronglySorted Z.lt (map fst table) ->
  (forall l e, In (l, e) table -> is_nan (correlation e) = false) ->
  exists L eL,
    best_lag table = Ok L
    /\ In (L, eL) table
    /\ forall l e, In (l, e) table ->
         fgt (correlation e) (correlation eL) = false
         /\ (fgt (correlation eL) (correlation e) = false -> (L <= l)%Z).
Proof.
  intros Hne Hsorted Hnan.
  destruct table as [|a t]; [contradiction|].
  destruct (fold_max_first (fun e : Z * lag_entry => correlation (snd e)) t a)
    as (pre & post & Heq & Hpre & Hpost).
  { intros [l e] Hp. now apply (Hnan l e). }
  set (r := fold_left _ t a) in *.
  exists (fst r), (snd r). split; [reflexivity|].
  assert (Hin : In r (a :: t)) by (rewrite Heq; apply in_or_app; right; now left).
  split; [now destruct r|].
  intros l e Hle. rewrite Heq in Hle, Hsorted.
  rewrite map_app in Hsorted. simpl in Hsorted.
  apply in_app_or in Hle as [Hle|[Hle|Hle]].
  - specialize (Hpre _ Hle). simpl in Hpre. split.
    + destruct (fgt (correlation e) (correlation (snd r))) eqn:E; [|reflexivity].
      pose proof (fgt_trans _ _ _ E Hpre) as Hirr.
      destruct (correlation e) as [c| | |]; simpl in Hirr; try discriminate.
      apply negb_true_iff in Hirr.
      assert (c <= c) by apply Qle_refl. apply Qle_bool_iff in H. congruence.
    + intro H. congruence.
  - rewrite Hle. simpl. split; [|lia].
    destruct (correlation e) as [c| | |]; simpl; try reflexivity.
    apply negb_false_iff. apply Qle_bool_iff. apply Qle_refl.
  - split; [now apply (Hpost (l, e))|]. intros _.
    clear - Hsorted Hle. induction pre as [|p pre IH]; simpl in Hsorted.
    + apply StronglySorted_inv in Hsorted as [_ Hall].
      rewrite Forall_forall in Hall.
      assert (fst r < l)%Z; [|lia].
      apply Hall. apply in_map_iff. now exists (l, e).
    + apply StronglySorted_inv in Hsorted as [Hs _]. now apply IH.
Qed.

End BestLagFacts.

(** C5, as the specification states it, fails on a table in which lags
    -1 and 0 share the largest correlation: the specification's rule
    prefers lag 0, of smaller absolute value; [max] keeps the first of the
    two it meets, lag -1. *)
Lemma tie_goes_to_first_lag :
  Policy.best_lag Inputs.tied_table = Some 0%Z
  /\ TemporalAnalysis.best_lag Inputs.tied_table = Ok (-1)%Z.
Proof. split; reflexivity. Qed.

(** C5, amended.  For every table that the analyzer returns for a
    non-negative [max_lag] and in which no correlation is [nan], the best
    lag is a lag of the table of maximum correlation, and among the lags
    that tie on the maximum it is the smallest (most negative) one: the
    first that the sweep from [-max_lag] to [+max_lag] meets.  The
    absolute value of the lag plays no part. *)
Theorem best_lag_is_first_maximum :
  forall (pearson_stat : list Q -> list Q -> pyfloat * pyfloat)
         (x y : list Q) (max_lag : Z)
         (table : list (Z * TemporalAnalysis.lag_entry)),
    (0 <= max_lag)%Z ->
    TemporalAnalysis.calculate_cross_correlation pearson_stat x y max_lag = Ok table ->
    (forall l e, In (l, e) table -> is_nan (TemporalAnalysis.correlation e) = false) ->
    exists L eL,
      TemporalAnalysis.best_lag table = Ok L
      /\ In (L, eL) table
      /\ forall l e, In (l, e) table ->
           fgt (TemporalAnalysis.correlation e) (TemporalAnalysis.correlation eL) = false
           /\ (fgt (TemporalAnalysis.correlation eL) (TemporalAnalysis.correlation e) = false
               -> (L <= l)%Z).
Proof.
  intros ps x y max_lag table Hm Hrun Hnan.
  unfold TemporalAnalysis.calculate_cross_correlation in Hrun.
  apply for_each_keys in Hrun as Hkeys.
  - apply best_lag_first_max; [| |exact Hnan].
    + intros ->.
      destruct (Z.to_nat (2 * max_lag + 1)) eqn:E; [lia|discriminate Hkeys].
    + rewrite Hkeys. apply range_sorted.
  - intros k p. simpl.
    destruct (TemporalAnalysis.correlate_at ps _ _ k) as [r|e]; simpl.
    + intros [= <-]. reflexivity.
    + discriminate.
Qed.

(** The theorem at the table of two series of three years. *)
Lemma best_lag_is_first_maximum_witness :
  exists table L,
    TemporalAnalysis.calculate_cross_correlation
      Inputs.half_stat Inputs.three_x Inputs.three_y 1 = Ok table
    /\ (forall l e, In (l, e) table -> is_nan (TemporalAnalysis.correlation e) = false)
    /\ TemporalAnalysis.best_lag table = Ok L.
Proof.
  eexists.
  assert (Hrun : TemporalAnalysis.calculate_cross_correlation
                   Inputs.half_stat Inputs.three_x Inputs.three_y 1
                 = Ok [Inputs.entry (-1) (-1) 1.0; Inputs.entry 0 0.5 0.6;
                       Inputs.entry 1 1 1.0]) by reflexivity.
  assert (Hnan : forall l e,
             In (l, e) [Inputs.entry (-1) (-1) 1.0; Inputs.entry 0 0.5 0.6;
                        Inputs.entry 1 1 1.0] ->
             is_nan (TemporalAnalysis.correlation e) = false).
  { intros l e [H|[H|[H|[]]]]; inversion H; reflexivity. }
  destruct (best_lag_is_first_maximum Inputs.half_stat Inputs.three_x Inputs.three_y 1
              _ ltac:(lia) Hrun Hnan) as (L & eL & HL & _).
  exists L. split; [exact Hrun|]. split; [exact Hnan|exact HL].
Defined.

(** C4: the code at its failing inputs.  On two series of three years the
    overlap at lag 1 and at lag -1 has two paired samples and the overlap
    at lag 2 has one.  Whatever scipy's statistic on longer samples is,
    the analyzer reports a coefficient for the two-sample overlaps (1 and
    -1, each with p-value 1), and the sweep to [max_lag = 2] raises where
    the specification wants an undefined result; only an empty overlap
    (lag 3) yields [nan]. *)
Theorem short_overlap_is_correlated :
  forall pearson_stat : list Q -> list Q -> pyfloat * pyfloat,
    TemporalAnalysis.correlate_at pearson_stat Inputs.three_x Inputs.three_y 1
    = Ok (Fin 1, Fin 1.0)
    /\ TemporalAnalysis.correlate_at pearson_stat Inputs.three_x Inputs.three_y (-1)
       = Ok (Fin (-1), Fin 1.0)
    /\ TemporalAnalysis.correlate_at pearson_stat Inputs.three_x Inputs.three_y 2
       = Raise ValueError
    /\ TemporalAnalysis.calculate_cross_correlation
         pearson_stat Inputs.three_x Inputs.three_y 2
       = Raise ValueError
    /\ TemporalAnalysis.correlate_at pearson_stat Inputs.three_x Inputs.three_y 3
       = Ok (NaN, NaN).
Proof. intro ps. repeat split; reflexivity. Qed.

(* ================================================================== *)
(** * Running computations that draw from the generator *)
(* ================================================================== *)

Section RunFacts.

Lemma run_bind {A B : Type} (c : M A) (k : A -> M B) (g : bitgen) :
  (x <- c ;; k x) g
  = match c g with
    | Ok (a, g') => k a g'
    | Raise e => Raise e
    end.
Proof. reflexivity. Qed.

Lemma run_ret {A : Type} (a : A) (g : bitgen) : (ret a : M A) g = Ok (a, g).
Proof. reflexivity. Qed.

Lemma outcome_bind {A B : Type} (c : outcome A) (k : A -> outcome B) :
  (x <- c ;; k x)
  = match c with
    | Ok a => k a
    | Raise e => Raise e
    end.
Proof. reflexivity. Qed.

Lemma run_for_each_cons {A B : Type} (f : A -> M B) (a : A) (l : list A) (g : bitgen) :
  for_each f (a :: l) g
  = match f a g with
    | Ok (b, g') =>
        match for_each f l g' with
        | Ok (bs, g'') => Ok (b :: bs, g'')
        | Raise e => Raise e
        end
    | Raise e => Raise e
    end.
Proof.
  simpl. destruct (f a g) as [[b g']|e]; [|reflexivity].
  destruct (for_each f l g') as [[bs g'']|e]; reflexivity.
Qed.

(** A loop whose every turn returns, returns; the results are related to
    the items as the turns relate them. *)
Lemma for_each_returns {A B : Type} (f : A -> M B) (P : A -> B -> Prop) (l : list A) :
  (forall a, In a l -> forall g, exists b g', f a g = Ok (b, g') /\ P a b) ->
  forall g, exists bs g', for_each f l g = Ok (bs, g') /\ Forall2 P l bs.
Proof.
  induction l as [|a l IH]; intros Hf g.
  - exists [], g. split; [reflexivity|constructor].
  - destruct (Hf a (or_introl eq_refl) g) as (b & g' & Hb & HP).
    destruct (IH (fun a' H => Hf a' (or_intror H)) g') as (bs & g'' & Hbs & HPs).
    exists (b :: bs), g''. rewrite run_for_each_cons, Hb, Hbs.
    split; [reflexivity|now constructor].
Qed.

Lemma max0_nonneg (q : Q) : 0 <= max0 q.
Proof.
  unfold max0. destruct (Qle_bool q 0) eqn:E; [apply Qle_refl|].
  apply Qlt_le_weak. apply Qnot_le_lt. rewrite <- Qle_bool_iff. congruence.
Qed.

Lemma grows (v r : Q) : 0 <= v -> 0 <= r -> v <= v * (1 + r).
Proof. intros. nra. Qed.

End RunFacts.

(* ================================================================== *)
(** * The synthetic temporal series never decline *)
(* ================================================================== *)

Section TrendFacts.

Import Trend.

Variable row : Type.
Variable district_of : row -> string.
Variable year_of : row -> Z.
Variable value_of : row -> Q.

Lemma filter_block_same (d : string) (rows : list row) :
  Forall (fun r => district_of r = d) rows ->
  filter (fun r => String.eqb (district_of r) d) rows = rows.
Proof.
  induction 1 as [|r rows Hr _ IH]; simpl; [reflexivity|].
  rewrite Hr, String.eqb_refl. now f_equal.
Qed.

Lemma filter_block_other (d d' : string) (rows : list row) :
  d <> d' ->
  Forall (fun r => district_of r = d') rows ->
  filter (fun r => String.eqb (district_of r) d) rows = [].
Proof.
  intros Hd. induction 1 as [|r rows Hr _ IH]; simpl; [reflexivity|].
  rewrite Hr. destruct (String.eqb_spec d' d) as [->|_]; [contradiction|exact IH].
Qed.

(** In the frame of the blocks of districts of distinct names, the series
    of a district is its block; a name that is none of them has no
    rows. *)
Lemma series_of_blocks (ys : list Z) (names : list string) (blocks : list (list row)) :
  NoDup names ->
  Forall2 (block_of district_of year_of value_of ys) names blocks ->
  forall d,
    rising (series district_of year_of value_of d (List.concat blocks))
    /\ (In d names ->
        map fst (series district_of year_of value_of d (List.concat blocks)) = ys)
    /\ (~ In d names ->
        series district_of year_of value_of d (List.concat blocks) = []).
Proof.
  intros Hnodup Hblocks d. unfold series.
  induction Hblocks as [|n b names blocks (Hn & Hy & Hr) _ IH]; simpl.
  - repeat split; [constructor|intros []].
  - apply NoDup_cons_iff in Hnodup as [Hnotin Hnodup].
    destruct (IH Hnodup) as (IH1 & IH2 & IH3). clear IH.
    rewrite filter_app, map_app.
    destruct (string_dec d n) as [->|Hne].
    + rewrite (filter_block_same n b Hn).
      specialize (IH3 Hnotin). rewrite IH3, app_nil_r.
      split; [exact Hr|]. split.
      * intros _. rewrite map_map. simpl. exact Hy.
      * intros H. exfalso. apply H. now left.
    + rewrite (filter_block_other d n b Hne Hn). simpl.
      split; [exact IH1|]. split.
      * intros [H|H]; [congruence|now apply IH2].
      * intros H. apply IH3. intro H'. apply H. now right.
Qed.

(** Appending one later, larger point to a rising series. *)
Lemma rising_snoc (s : list (Z * Q)) (y : Z) (v : Q) :
  rising s ->
  Forall (fun p => (fst p < y)%Z /\ snd p <= v) s ->
  rising (s ++ [(y, v)]).
Proof.
  unfold rising. induction 1 as [|p s Hs IH Hp]; intro Hall; simpl.
  - repeat constructor.
  - apply Forall_cons_iff in Hall as [Hpv Hall].
    constructor; [now apply IH|].
    apply Forall_app. split; [exact Hp|]. repeat constructor; apply Hpv.
Qed.

End TrendFacts.

Section PriceFacts.

Import TemporalAnalysis Trend.

Let point (r : price_row) : Z * Q := (p_year r, price_eur_sqm r).

(** The loop over the years, from a non-negative price and with a rate
    for every year: it returns, and its rows are of the district, over
    the years, with rates at least 0 and prices that start at the price
    given, never decline and stay below the price the loop ends with. *)
Lemma price_loop_rises (district : string) (pattern : price_pattern) (ys : list Z) :
  StronglySorted Z.lt ys ->
  forall (price : Q) (i : nat) (g : bitgen),
    0 <= price ->
    (i + List.length ys <= List.length (annual_rates pattern))%nat ->
    exists rows price' g',
      price_loop district pattern price i ys g = Ok ((rows, price'), g')
      /\ price <= price'
      /\ Forall (fun r => p_district r = district) rows
      /\ map p_year rows = ys
      /\ Forall (fun r => 0 <= p_annual_growth_rate r) rows
      /\ Forall (fun r => price <= price_eur_sqm r <= price') rows
      /\ rising (map point rows).
Proof.
  induction 1 as [|year ys Hs IH Hy]; intros price i g Hprice Hlen.
  - exists [], price, g. simpl.
    repeat split; try constructor; apply Qle_refl.
  - simpl in Hlen. simpl price_loop.
    destruct (nth_error (annual_rates pattern) i) as [base|] eqn:Hbase.
    2:{ apply nth_error_None in Hbase. lia. }
    unfold lift, rate_at. rewrite Hbase.
    set (annual_rate := max0 (base + _)).
    set (g1 := advance 1 g).
    assert (Hrate : 0 <= annual_rate) by apply max0_nonneg.
    assert (Hend : price <= price * (1 + annual_rate)) by now apply grows.
    destruct (IH (price * (1 + annual_rate)) (S i) g1)
      as (rows & price' & g' & Hrun & Hle & Hd & Hyr & Hr & Hv & Hrise).
    { apply Qle_trans with price; assumption. }
    { lia. }
    rewrite Hrun. cbn [fst snd].
    eexists _, price', g'. split; [reflexivity|].
    assert (Hpp : price <= price')
      by (apply Qle_trans with (price * (1 + annual_rate)); assumption).
    split; [exact Hpp|].
    split; [constructor; [reflexivity|exact Hd]|].
    split; [simpl; now rewrite Hyr|].
    split; [constructor; [exact Hrate|exact Hr]|].
    split.
    + constructor; [simpl; split; [apply Qle_refl|exact Hpp]|].
      eapply Forall_impl; [|exact Hv]. simpl. intros r [H1 H2].
      split; [|exact H2].
      apply Qle_trans with (price * (1 + annual_rate)); assumption.
    + simpl. constructor; [exact Hrise|].
      rewrite Forall_map. rewrite Forall_forall in Hv, Hy |- *.
      intros r Hin. unfold follows, point. simpl. split.
      * apply Hy. rewrite <- Hyr. now apply in_map.
      * eapply Qle_trans; [exact Hend|]. now apply Hv.
Qed.

(** The rows of one district of the catalog of patterns. *)
Lemma price_rows_block (d : string * price_pattern) (g : bitgen) :
  0 <= base_price_2014 (snd d) ->
  (10 <= List.length (annual_rates (snd d)))%nat ->
  exists rows g',
    price_rows d g = Ok (rows, g')
    /\ block_of p_district p_year price_eur_sqm years (fst d) rows
    /\ Forall (fun r => 0 <= p_annual_growth_rate r) rows.
Proof.
  destruct d as [district pattern]. cbn [fst snd]. intros Hbase Hlen.
  destruct (price_loop_rises district pattern (removelast years))
    with (price := base_price_2014 pattern) (i := 0%nat) (g := g)
    as (rows & price' & g' & Hrun & Hle & Hd & Hyr & Hr & Hv & Hrise);
    [repeat constructor; lia|exact Hbase|simpl; lia|].
  unfold price_rows. rewrite run_bind, Hrun, run_ret. cbn [fst snd].
  eexists _, g'. split; [reflexivity|]. split; [split; [|split]|].
  - apply Forall_app. split; [exact Hd|]. now repeat constructor.
  - rewrite map_app, Hyr. reflexivity.
  - rewrite map_app. apply rising_snoc; [exact Hrise|].
    rewrite Forall_map. rewrite Forall_forall in Hv |- *.
    intros r Hin. simpl. split; [|now apply Hv].
    assert (Hy : In (p_year r) (removelast years))
      by (rewrite <- Hyr; now apply in_map).
    simpl in Hy. lia.
  - apply Forall_app. split; [exact Hr|]. repeat constructor. apply Qle_refl.
Qed.

End PriceFacts.

Section CountFacts.

Import TemporalAnalysis Trend.

Let point (r : count_row) : Z * Q := (c_year r, winery_count r).

(** The loop over the years, from a non-negative count: as for prices. *)
Lemma count_loop_rises (district : string) (pattern : winery_pattern) (ys : list Z) :
  StronglySorted Z.lt ys ->
  forall (count : Q) (g : bitgen),
    0 <= count ->
    exists rows count' g',
      count_loop district pattern count ys g = Ok ((rows, count'), g')
      /\ count <= count'
      /\ Forall (fun r => c_district r = district) rows
      /\ map c_year rows = ys
      /\ Forall (fun r => 0 <= c_annual_growth_rate r) rows
      /\ Forall (fun r => count <= winery_count r <= count') rows
      /\ rising (map point rows).
Proof.
  induction 1 as [|year ys Hs IH Hy]; intros count g Hcount.
  - exists [], count, g. simpl.
    repeat split; try constructor; apply Qle_refl.
  - simpl count_loop.
    set (growth_rate := max0 (phase_rate _ _ + _)).
    set (g1 := advance 1 g).
    assert (Hrate : 0 <= growth_rate) by apply max0_nonneg.
    assert (Hend : count <= count * (1 + growth_rate)) by now apply grows.
    destruct (IH (count * (1 + growth_rate)) g1)
      as (rows & count' & g' & Hrun & Hle & Hd & Hyr & Hr & Hv & Hrise).
    { apply Qle_trans with count; assumption. }
    rewrite Hrun. cbn [fst snd].
    eexists _, count', g'. split; [reflexivity|].
    assert (Hpp : count <= count')
      by (apply Qle_trans with (count * (1 + growth_rate)); assumption).
    split; [exact Hpp|].
    split; [constructor; [reflexivity|exact Hd]|].
    split; [simpl; now rewrite Hyr|].
    split; [constructor; [exact Hrate|exact Hr]|].
    split.
    + constructor; [simpl; split; [apply Qle_refl|exact Hpp]|].
      eapply Forall_impl; [|exact Hv]. simpl. intros r [H1 H2].
      split; [|exact H2].
      apply Qle_trans with (count * (1 + growth_rate)); assumption.
    + simpl. constructor; [exact Hrise|].
      rewrite Forall_map. rewrite Forall_forall in Hv, Hy |- *.
      intros r Hin. unfold follows, point. simpl. split.
      * apply Hy. rewrite <- Hyr. now apply in_map.
      * eapply Qle_trans; [exact Hend|]. now apply Hv.
Qed.

Lemma count_rows_block (d : string * winery_pattern) (g : bitgen) :
  0 <= base_count_2014 (snd d) ->
  exists rows g',
    count_rows d g = Ok (rows, g')
    /\ block_of c_district c_year winery_count years (fst d) rows
    /\ Forall (fun r => 0 <= c_annual_growth_rate r) rows.
Proof.
  destruct d as [district pattern]. cbn [fst snd]. intros Hbase.
  destruct (count_loop_rises district pattern (removelast years))
    with (count := base_count_2014 pattern) (g := g)
    as (rows & count' & g' & Hrun & Hle & Hd & Hyr & Hr & Hv & Hrise);
    [repeat constructor; lia|exact Hbase|].
  unfold count_rows. rewrite run_bind, Hrun, run_ret. cbn [fst snd].
  eexists _, g'. split; [reflexivity|]. split; [split; [|split]|].
  - apply Forall_app. split; [exact Hd|]. now repeat constructor.
  - rewrite map_app, Hyr. reflexivity.
  - rewrite map_app. apply rising_snoc; [exact Hrise|].
    rewrite Forall_map. rewrite Forall_forall in Hv |- *.
    intros r Hin. simpl. split; [|now apply Hv].
    assert (Hy : In (c_year r) (removelast years))
      by (rewrite <- Hyr; now apply in_map).
    simpl in Hy. lia.
  - apply Forall_app. split; [exact Hr|]. repeat constructor. apply Qle_refl.
Qed.

End CountFacts.

Section FrameFacts.

Lemma Forall2_concat {A B : Type} (P : B -> Prop) (Q : A -> list B -> Prop)
  (l : list A) (bs : list (list B)) :
  (forall a b, Q a b -> Forall P b) ->
  Forall2 Q l bs ->
  Forall P (List.concat bs).
Proof.
  intros HQ. induction 1 as [|a b l bs Hab _ IH]; simpl; [constructor|].
  apply Forall_app. split; [now apply (HQ a)|exact IH].
Qed.

Lemma Forall2_names {A B : Type} (Q : string * A -> B -> Prop)
  (R : string -> B -> Prop) (l : list (string * A)) (bs : list B) :
  (forall a b, Q a b -> R (fst a) b) ->
  Forall2 Q l bs ->
  Forall2 R (map fst l) bs.
Proof.
  intros HQ. induction 1 as [|a b l bs Hab _ IH]; simpl; constructor;
    [now apply HQ|exact IH].
Qed.

End FrameFacts.

(** C10.  Whatever the generator delivers, both temporal generators
    return; every annual growth rate of their rows is at least 0; and for
    every district the series of prices, and the series of winery counts,
    is in chronological order and never declines from one year to any
    later one.  For each district of the patterns the series runs over
    the years 2014 to 2024. *)
Theorem synthetic_series_never_decline :
  forall g : bitgen,
    (exists rows g',
        TemporalAnalysis.get_annual_real_estate_data g = Ok (rows, g')
        /\ Forall (fun r => 0 <= TemporalAnalysis.p_annual_growth_rate r) rows
        /\ forall d,
             Trend.rising
               (Trend.series TemporalAnalysis.p_district TemporalAnalysis.p_year
                  TemporalAnalysis.price_eur_sqm d rows)
             /\ (In d (map fst TemporalAnalysis.district_patterns) ->
                 map fst
                   (Trend.series TemporalAnalysis.p_district TemporalAnalysis.p_year
                      TemporalAnalysis.price_eur_sqm d rows)
                 = TemporalAnalysis.years))
    /\ (exists rows g',
           TemporalAnalysis.get_annual_winery_growth_data g = Ok (rows, g')
           /\ Forall (fun r => 0 <= TemporalAnalysis.c_annual_growth_rate r) rows
           /\ forall d,
                Trend.rising
                  (Trend.series TemporalAnalysis.c_district TemporalAnalysis.c_year
                     TemporalAnalysis.winery_count d rows)
                /\ (In d (map fst TemporalAnalysis.winery_patterns) ->
                    map fst
                      (Trend.series TemporalAnalysis.c_district TemporalAnalysis.c_year
                         TemporalAnalysis.winery_count d rows)
                    = TemporalAnalysis.years)).
Proof.
  intro g. split.
  - destruct (for_each_returns TemporalAnalysis.price_rows
                (fun d rows =>
                   Trend.block_of TemporalAnalysis.p_district TemporalAnalysis.p_year
                     TemporalAnalysis.price_eur_sqm TemporalAnalysis.years (fst d) rows
                   /\ Forall (fun r => 0 <= TemporalAnalysis.p_annual_growth_rate r) rows)
                TemporalAnalysis.district_patterns) with (g := g)
      as (blocks & g' & Hrun & Hblocks).
    { intros d Hd g0. apply price_rows_block;
        simpl in Hd; repeat (destruct Hd as [<-|Hd]; [simpl; try lia; discriminate|]);
        contradiction. }
    exists (List.concat blocks), g'. split.
    { unfold TemporalAnalysis.get_annual_real_estate_data,
        TemporalAnalysis.real_estate_data.
      rewrite run_bind, Hrun. reflexivity. }
    split.
    { eapply Forall2_concat; [|exact Hblocks]. intros a b [_ H]. exact H. }
    intro d.
    destruct (series_of_blocks _ TemporalAnalysis.p_district TemporalAnalysis.p_year
                TemporalAnalysis.price_eur_sqm TemporalAnalysis.years
                (map fst TemporalAnalysis.district_patterns) blocks) with (d := d)
      as (H1 & H2 & _).
    { repeat constructor; simpl; intuition discriminate. }
    { eapply Forall2_names; [|exact Hblocks]. intros a b [H _]. exact H. }
    split; assumption.
  - destruct (for_each_returns TemporalAnalysis.count_rows
                (fun d rows =>
                   Trend.block_of TemporalAnalysis.c_district TemporalAnalysis.c_year
                     TemporalAnalysis.winery_count TemporalAnalysis.years (fst d) rows
                   /\ Forall (fun r => 0 <= TemporalAnalysis.c_annual_growth_rate r) rows)
                TemporalAnalysis.winery_patterns) with (g := g)
      as (blocks & g' & Hrun & Hblocks).
    { intros d Hd g0. apply count_rows_block;
        simpl in Hd; repeat (destruct Hd as [<-|Hd]; [simpl; discriminate|]);
        contradiction. }
    exists (List.concat blocks), g'. split.
    { unfold TemporalAnalysis.get_annual_winery_growth_data,
        TemporalAnalysis.winery_growth_data.
      rewrite run_bind, Hrun. reflexivity. }
    split.
    { eapply Forall2_concat; [|exact Hblocks]. intros a b [_ H]. exact H. }
    intro d.
    destruct (series_of_blocks _ TemporalAnalysis.c_district TemporalAnalysis.c_year
                TemporalAnalysis.winery_count TemporalAnalysis.years
                (map fst TemporalAnalysis.winery_patterns) blocks) with (d := d)
      as (H1 & H2 & _).
    { repeat constructor; simpl; intuition discriminate. }
    { eapply Forall2_names; [|exact Hblocks]. intros a b [H _]. exact H. }
    split; assumption.
Qed.

(* ================================================================== *)
(** * Historical synthesis: the value of one year *)
(* ================================================================== *)

Section RoundFacts.

Lemma rint_nonneg (q : Q) : 0 <= q -> (0 <= rint q)%Z.
Proof.
  intro H. unfold rint.
  assert (Hf : (0 <= Qfloor q)%Z).
  { change 0%Z with (Qfloor 0). now apply Qfloor_resp_le. }
  destruct (Qcompare _ _); [destruct (Z.even _)| |]; lia.
Qed.

Lemma round_nonneg (q : Q) (n : nat) : 0 <= q -> 0 <= round q n.
Proof.
  intro H. unfold round, Qle. simpl. rewrite Z.mul_1_r.
  apply rint_nonneg. apply Qmult_le_0_compat; [exact H|].
  unfold Qle. simpl. lia.
Qed.

End RoundFacts.

(** The row of an earlier year, when the division is defined. *)
Lemma historical_entry_ok (district_name : string) (context : GrowthAnalysis.context)
  (V area_km2 : Q) (year : Z) (random_factor : Q) :
  ~ 1 + GrowthAnalysis.annual_growth context year random_factor == 0 ->
  GrowthAnalysis.historical_entry district_name context V area_km2 year random_factor
  = Ok (GrowthAnalysis.make_row district_name context area_km2 year
          (max0 (V / Qpower (1 + GrowthAnalysis.annual_growth context year random_factor)
                        (2024 - year)))
          (int (max0 (V / Qpower (1 + GrowthAnalysis.annual_growth context year
                                        random_factor) (2024 - year))
                * area_km2))).
Proof.
  intro Hrate. unfold GrowthAnalysis.historical_entry, fdiv.
  destruct (Qeq_bool _ 0) eqn:Hz; [|reflexivity].
  apply Qeq_bool_iff in Hz. exfalso. revert Hz. now apply Qpower_not_0.
Qed.

(** C3, as the specification states it, fails by the rounding of the
    record: one year back from a density of 1 at a rate of 0.10 without
    noise, the formula gives 10/11, and the density recorded for 2023 is
    0.9091. *)
Lemma recorded_density_is_rounded :
  exists row,
    GrowthAnalysis.year_entry "A" Inputs.region_a 1 1 1 2023 Inputs.quiet
    = Ok (row, advance 1 Inputs.quiet)
    /\ GrowthAnalysis.h_density row == 0.9091
    /\ Qmax 0 (1 / Qpower (1 + 0.10 * 1.0 * 1.0) (2024 - 2023)) == 10 # 11
    /\ ~ GrowthAnalysis.h_density row == 10 # 11.
Proof.
  eexists. split; [reflexivity|]. split; [reflexivity|]. split; [reflexivity|].
  discriminate.
Qed.

(** C3, amended.  For every year before 2024, when one plus the effective
    rate of the year is not zero, the entry of the year takes one draw
    and records the density [V / (1 + effective_rate)^(2024 - year)],
    floored at 0 and rounded to 4 places, where the effective rate is the
    base rate times the modifier of the year (1.3 in a peak year) times
    the noise factor [1.0 + 0.1 * draw]; the recorded density is at least
    0. *)
Theorem historical_density_formula :
  forall (district_name : string) (context : GrowthAnalysis.context)
         (V : Q) (current_count : nat) (area_km2 : Q) (year : Z) (g : bitgen),
    (year < 2024)%Z ->
    let effective_rate :=
      GrowthAnalysis.base_growth_rate context
      * GrowthAnalysis.year_modifier context year
      * (1.0 + 0.1 * draws g (pos g)) in
    ~ 1 + effective_rate == 0 ->
    exists row,
      GrowthAnalysis.year_entry district_name context V current_count area_km2 year g
      = Ok (row, advance 1 g)
      /\ GrowthAnalysis.h_year row = year
      /\ GrowthAnalysis.h_density row
         = round (max0 (V / Qpower (1 + effective_rate) (2024 - year))) 4
      /\ 0 <= GrowthAnalysis.h_density row.
Proof.
  intros district_name context V current_count area_km2 year g Hyear rate Hrate.
  unfold GrowthAnalysis.year_entry.
  destruct (year =? 2024)%Z eqn:E; [apply Z.eqb_eq in E; lia|].
  rewrite run_bind. unfold normal at 1, lift.
  rewrite historical_entry_ok by exact Hrate.
  eexists. split; [reflexivity|]. split; [reflexivity|]. split; [reflexivity|].
  apply round_nonneg. apply max0_nonneg.
Qed.

(** The theorem at the specification's scenario: base rate 0.10, no
    noise, three years back from a density of 0.5 gives 0.3757. *)
Lemma historical_density_formula_witness :
  (2021 < 2024)%Z
  /\ ~ 1 + 0.10 * GrowthAnalysis.year_modifier Inputs.region_a 2021
           * (1.0 + 0.1 * draws Inputs.quiet (pos Inputs.quiet)) == 0
  /\ exists row,
       GrowthAnalysis.year_entry "A" Inputs.region_a 0.5 5 10 2021 Inputs.quiet
       = Ok (row, advance 1 Inputs.quiet)
       /\ GrowthAnalysis.h_density row = 0.3757.
Proof.
  assert (Hy : (2021 < 2024)%Z) by lia.
  assert (Hr : ~ 1 + 0.10 * GrowthAnalysis.year_modifier Inputs.region_a 2021
                     * (1.0 + 0.1 * draws Inputs.quiet (pos Inputs.quiet)) == 0)
    by discriminate.
  split; [exact Hy|]. split; [exact Hr|].
  destruct (historical_density_formula "A" Inputs.region_a 0.5 5 10 2021
              Inputs.quiet Hy Hr) as (row & Hrun & _ & Hd & _).
  exists row. split; [exact Hrun|]. rewrite Hd. reflexivity.
Defined.

(* ================================================================== *)
(** * Historical synthesis: which draw serves which district and year *)
(* ================================================================== *)

Section KeyedFacts.

Import GrowthAnalysis Keyed.

Lemma advance_0 (g : bitgen) : advance 0 g = g.
Proof. destruct g as [d p]. unfold advance. simpl. f_equal. lia. Qed.

Lemma advance_advance (m n : nat) (g : bitgen) :
  advance n (advance m g) = advance (m + n) g.
Proof. unfold advance. simpl. f_equal. lia. Qed.

Let earlier (ys : list Z) : list Z := filter (fun y => negb (y =? 2024)%Z) ys.

(** The loop over the years draws once for each year other than 2024, in
    the order of the loop. *)
Lemma entries_keyed (district_name : string) (context : context)
  (density : Q) (count : nat) (area : Q) (noise : Z -> Q) (ys : list Z) :
  forall g : bitgen,
    (forall i y, nth_error (earlier ys) i = Some y ->
                 noise y = 1.0 + 0.1 * draws g (pos g + i)) ->
    for_each (year_entry district_name context density count area) ys g
    = match for_each (entry_with noise district_name context density count area) ys with
      | Ok rows => Ok (rows, advance (List.length (earlier ys)) g)
      | Raise e => Raise e
      end.
Proof.
  induction ys as [|y ys IH]; intros g Hnoise.
  - simpl. now rewrite advance_0.
  - rewrite run_for_each_cons. simpl for_each at 2.
    unfold year_entry at 1, entry_with at 1. unfold earlier in *. simpl filter in *.
    destruct (y =? 2024)%Z; simpl negb in *; cbv iota in *.
    + rewrite run_ret. rewrite (IH g Hnoise). simpl.
      destruct (for_each _ ys); reflexivity.
    + rewrite run_bind. unfold normal at 1, lift.
      rewrite (Hnoise 0%nat y eq_refl), Nat.add_0_r. simpl.
      destruct (historical_entry _ _ _ _ y _) as [r|e]; [|reflexivity].
      rewrite (IH (advance 1 g)).
      * destruct (for_each _ ys) as [rows|e]; [|reflexivity].
        rewrite advance_advance. reflexivity.
      * intros i y' Hi. rewrite (Hnoise (S i) y' Hi). simpl.
        now rewrite <- Nat.add_assoc.
Qed.

(** The history of a district is made of the next ten draws: the draw of
    2023 first, that of 2014 last. *)
Lemma district_history_keyed (current_df : list winery) (district_name : string)
  (district_info : district_info) (context : context) (g : bitgen) :
  district_history current_df district_name district_info context g
  = match history_with
            (fun year => 1.0 + 0.1 * draws g (pos g + Z.to_nat (2023 - year)))
            current_df district_name district_info context with
    | Ok rows => Ok (rows, advance 10 g)
    | Raise e => Raise e
    end.
Proof.
  unfold district_history, history_with. rewrite run_bind.
  rewrite entries_keyed
    with (noise := fun year => 1.0 + 0.1 * draws g (pos g + Z.to_nat (2023 - year))).
  - rewrite outcome_bind.
    destruct (for_each _ (rev years)) as [backwards|e]; [|reflexivity].
    unfold lift. destruct (with_yoy (rev backwards)); reflexivity.
  - intros i y. do 10 (destruct i as [|i]; [intros [= <-]; reflexivity|]).
    destruct i; discriminate.
Qed.

Variable seeded : Z -> nat -> Q.
Variable current_df : list winery.
Variable district_context : list (string * context).

(** The loop over the catalog, entered when [k] districts have been
    processed. *)
Lemma blocks_keyed (districts_info : list (string * district_info)) :
  forall (k : nat) (g : bitgen),
    draws g = seeded 42 ->
    pos g = (10 * k)%nat ->
    for_each
      (fun d : string * district_info =>
         match lookup (fst d) district_context with
         | None => ret []
         | Some context => district_history current_df (fst d) (snd d) context
         end)
      districts_info g
    = match histories_from seeded current_df district_context k districts_info with
      | Ok blocks =>
          Ok (blocks,
              advance (10 * List.length (processed district_context districts_info)) g)
      | Raise e => Raise e
      end.
Proof.
  induction districts_info as [|d rest IH]; intros k g Hd Hp.
  - simpl. now rewrite advance_0.
  - rewrite run_for_each_cons. simpl histories_from. unfold processed. simpl filter.
    destruct (lookup (fst d) district_context) as [context|].
    + rewrite district_history_keyed.
      replace (fun year => 1.0 + 0.1 * draws g (pos g + Z.to_nat (2023 - year)))
        with (random_factor seeded k)
        by (unfold random_factor; rewrite Hd, Hp; reflexivity).
      destruct (history_with _ _ _ _ _) as [block|e]; [|reflexivity].
      rewrite (IH (S k) (advance 10 g)); [|exact Hd|simpl; lia].
      destruct (histories_from _ _ _ _ rest) as [blocks|e]; [|reflexivity].
      rewrite advance_advance. cbn [List.length]. do 3 f_equal. unfold processed. lia.
    + rewrite run_ret. rewrite (IH k g Hd Hp).
      destruct (histories_from _ _ _ _ rest); reflexivity.
Qed.

End KeyedFacts.

(** C1, as the specification states it, fails: the noise of a district
    and year is not a function of the seed, the district's name and the
    year alone.  With one winery in Neukölln and the same seed, the
    density recorded for Neukölln in 2023 is 0.0195 when Prenzlauer Berg,
    which the catalog lists before it, has a context (Neukölln's 2023 is
    then the eleventh draw), and 0.0192 when it has none and is skipped
    (Neukölln's 2023 is then the first draw); Neukölln's own context is
    the same in both runs. *)
Lemma noise_follows_processing_order :
  GrowthAnalysis.lookup "Neukölln" GrowthAnalysis.get_district_historical_context
  = GrowthAnalysis.lookup "Neukölln" Inputs.context_without_first
  /\ Keyed.density_at
       (Keyed.rows_of
          (GrowthAnalysis.simulate_historical_winery_development Inputs.seeded_head
             [Inputs.neukoelln_winery] GrowthAnalysis.get_district_historical_context
             Inputs.quiet))
       "Neukölln" 2023
     = Some 0.0195
  /\ Keyed.density_at
       (Keyed.rows_of
          (GrowthAnalysis.simulate_historical_winery_development Inputs.seeded_head
             [Inputs.neukoelln_winery] Inputs.context_without_first Inputs.quiet))
       "Neukölln" 2023
     = Some 0.0192.
Proof. repeat split; vm_compute; reflexivity. Qed.

(** C1, amended.  The simulation seeds one global stream with 42 and
    draws from it in processing order: the district that is the [k]-th
    of the catalog to have a context (counting from 0) gets, for the year
    [y] from 2023 back to 2014, the noise factor
    [1.0 + 0.1 * stream (10 * k + (2023 - y))]; its history is that of
    [Keyed.history_with] under this noise, and the run ends with ten
    draws taken for each processed district.  The result is therefore
    the same for two runs on the same inputs, whatever state the
    generator was in before, and a district's series depends on how many
    districts are processed before it. *)
Theorem simulation_draws_in_processing_order :
  forall (seeded : Z -> nat -> Q)
         (districts_info : list (string * GrowthAnalysis.district_info))
         (current_df : list winery)
         (district_context : list (string * GrowthAnalysis.context))
         (g0 : bitgen),
    GrowthAnalysis.simulate_over seeded districts_info current_df district_context g0
    = match Keyed.histories_from seeded
              (assign_loop GrowthAnalysis.bounds districts_info current_df)
              district_context 0 districts_info with
      | Ok blocks =>
          Ok (List.concat blocks,
              {| draws := seeded 42%Z;
                 pos := (10 * List.length
                                (Keyed.processed district_context districts_info))%nat |})
      | Raise e => Raise e
      end
    /\ forall g1 : bitgen,
         GrowthAnalysis.simulate_over seeded districts_info current_df district_context g0
         = GrowthAnalysis.simulate_over seeded districts_info current_df district_context g1.
Proof.
  intros seeded districts_info current_df district_context g0.
  split; [|reflexivity].
  unfold GrowthAnalysis.simulate_over. rewrite run_bind. unfold seed at 1.
  rewrite run_bind.
  rewrite (blocks_keyed seeded _ district_context districts_info 0%nat);
    [|reflexivity|reflexivity].
  destruct (Keyed.histories_from _ _ _ _ _) as [blocks|e]; [|reflexivity].
  rewrite run_ret. unfold advance. simpl. reflexivity.
Qed.

(* ================================================================== *)
(** * Growth metrics *)
(* ================================================================== *)

Section MetricsFacts.

Import GrowthAnalysis.

Variable float_pow : Q -> Q -> Q.
Variable float_sqrt : Q -> Q.

Let points (d : string) (df : list history_row) : nat :=
  List.length (Trend.series h_district h_year h_density d df).

Lemma unique_In (x : string) (l : list string) : In x (unique l) <-> In x l.
Proof.
  induction l as [|y l IH]; simpl; [reflexivity|].
  rewrite filter_In, IH. split.
  - intros [H|[H _]]; auto.
  - intros [H|H]; [now left|].
    destruct (String.eqb_spec x y) as [->|Hne]; [now left|].
    right. split; [exact H|]. reflexivity.
Qed.

Lemma for_each_outcome {A B : Type} (f : A -> outcome B) (P : A -> B -> Prop)
  (l : list A) :
  (forall a, In a l -> exists b, f a = Ok b /\ P a b) ->
  exists bs, for_each f l = Ok bs /\ Forall2 P l bs.
Proof.
  induction l as [|a l IH]; intros Hf.
  - exists []. split; [reflexivity|constructor].
  - destruct (Hf a (or_introl eq_refl)) as (b & Hb & HP).
    destruct (IH (fun a' H => Hf a' (or_intror H))) as (bs & Hbs & HPs).
    exists (b :: bs). simpl. rewrite Hb. simpl. rewrite Hbs.
    split; [reflexivity|now constructor].
Qed.

Lemma Forall2_In_r {A B : Type} (P : A -> B -> Prop) (l : list A) (bs : list B) (b : B) :
  Forall2 P l bs -> In b bs -> exists a, In a l /\ P a b.
Proof.
  induction 1 as [|a b' l bs Hab _ IH]; simpl; [intros []|].
  intros [<-|H]; [exists a; auto|].
  destruct (IH H) as (a' & Ha & HP). exists a'. auto.
Qed.

Lemma Forall2_In_l {A B : Type} (P : A -> B -> Prop) (l : list A) (bs : list B) (a : A) :
  Forall2 P l bs -> In a l -> exists b, In b bs /\ P a b.
Proof.
  induction 1 as [|a' b l bs Hab _ IH]; simpl; [intros []|].
  intros [<-|H]; [exists b; auto|].
  destruct (IH H) as (b' & Hb & HP). exists b'. auto.
Qed.

Lemma kept_In {A : Type} (l : list (option A)) (a : A) :
  In a (kept l) <-> In (Some a) l.
Proof.
  induction l as [|[b|] l IH]; simpl; [reflexivity| |].
  - rewrite IH. split; intros [H|H]; auto; left; congruence.
  - rewrite IH. split; [auto|]. intros [H|H]; [discriminate|exact H].
Qed.

(** The peak is found as soon as one row has a rate. *)
Lemma peak_returns (rows : list history_row) :
  rows <> [] ->
  (forall r, In r rows -> h_yoy_growth_rate r <> None) ->
  exists p, peak rows = Ok p.
Proof.
  destruct rows as [|r rows]; [contradiction|]. intros _ H. simpl.
  destruct (h_yoy_growth_rate r) eqn:E; [eauto|].
  exfalso. apply (H r); [now left|exact E].
Qed.

(** One turn of the loop over the districts: a district of fewer than
    two points is passed over; any other, whose rows have rates, gets its
    metrics. *)
Lemma district_metrics_cases (df : list history_row) (d : string) :
  (forall r, In r df -> h_yoy_growth_rate r <> None) ->
  exists r,
    district_metrics float_pow float_sqrt df d = Ok r
    /\ ((points d df < 2)%nat /\ r = None
        \/ (2 <= points d df)%nat /\ exists m, r = Some m /\ m_district m = d).
Proof.
  intro Hrates. unfold district_metrics, points, Trend.series.
  rewrite length_map.
  set (rows := filter _ df).
  assert (Hperm : Permutation (sort_values_asc h_year rows) rows)
    by apply sort_values_asc_perm.
  rewrite (Permutation_length Hperm).
  destruct (List.length rows <? 2)%nat eqn:E.
  - exists None. split; [reflexivity|]. left. apply Nat.ltb_lt in E. auto.
  - apply Nat.ltb_ge in E.
    destruct (sort_values_asc h_year rows) as [|first rest] eqn:Hs.
    { apply Permutation_length in Hperm. simpl in Hperm. lia. }
    destruct (peak_returns (first :: rest)) as (p & Hp); [discriminate| |].
    { intros r Hr. apply Hrates.
      apply (Permutation_in _ Hperm) in Hr. now apply filter_In in Hr as [Hr _]. }
    rewrite Hp. eexists. split; [reflexivity|].
    right. split; [exact E|]. eexists. split; reflexivity.
Qed.

Lemma points_pos_In (df : list history_row) (d : string) :
  (1 <= points d df)%nat -> In d (map h_district df).
Proof.
  unfold points, Trend.series. rewrite length_map. intro H.
  destruct (filter _ df) as [|r rows] eqn:E; [simpl in H; lia|].
  assert (Hr : In r (filter (fun r => String.eqb (h_district r) d) df))
    by (rewrite E; now left).
  apply filter_In in Hr as [Hin Hd]. apply String.eqb_eq in Hd. subst d.
  now apply in_map.
Qed.

(** The metrics frame has a row for exactly the districts of two points
    or more, provided there is one. *)
Lemma metrics_rows (df : list history_row) :
  (forall r, In r df -> h_yoy_growth_rate r <> None) ->
  (exists d, (2 <= points d df)%nat) ->
  exists ms,
    calculate_growth_metrics float_pow float_sqrt df = Ok ms
    /\ forall d, In d (map m_district ms) <-> (2 <= points d df)%nat.
Proof.
  intros Hrates (d0 & Hd0). unfold calculate_growth_metrics.
  destruct (for_each_outcome (district_metrics float_pow float_sqrt df)
              (fun d r =>
                 (points d df < 2)%nat /\ r = None
                 \/ (2 <= points d df)%nat /\ exists m, r = Some m /\ m_district m = d)
              (unique (map h_district df)))
    as (results & Hrun & Hall).
  { intros d _. now apply district_metrics_cases. }
  rewrite outcome_bind, Hrun.
  assert (Hiff : forall d, (exists m, In m (kept results) /\ m_district m = d)
                           <-> (2 <= points d df)%nat).
  { intro d. split.
    - intros (m & Hm & Hd). apply kept_In in Hm.
      destruct (Forall2_In_r _ _ _ _ Hall Hm) as (d' & _ & [[_ H]|[Hp (m' & H & Hd')]]);
        [discriminate|].
      injection H as <-. congruence.
    - intro Hp.
      assert (Hin : In d (unique (map h_district df)))
        by (apply unique_In, points_pos_In; lia).
      destruct (Forall2_In_l _ _ _ _ Hall Hin) as (r & Hr & [[Hlt _]|[_ (m & -> & Hd)]]);
        [lia|].
      exists m. split; [now apply kept_In|exact Hd]. }
  destruct (kept results) as [|m ms] eqn:Hk.
  - exfalso. destruct (proj2 (Hiff d0) Hd0) as (m & [] & _).
  - eexists. split; [reflexivity|]. intro d.
    rewrite <- Hiff, in_map_iff. split.
    + intros (m' & Hd & Hin). exists m'. split; [|exact Hd].
      now apply in_sort_values_desc in Hin.
    + intros (m' & Hin & Hd). exists m'. split; [exact Hd|].
      now apply in_sort_values_desc.
Qed.

End MetricsFacts.

(** C6, as the specification states it, fails: a district with a single
    point is neither reported nor signalled.  On a frame with one year of
    ["A"] and two years of ["B"] the metrics are returned and have a row
    for ["B"] only. *)
Lemma single_point_silently_omitted :
  (forall float_pow float_sqrt : _ -> _,
      exists ms,
        GrowthAnalysis.calculate_growth_metrics float_pow float_sqrt
          Inputs.lone_and_pair = Ok ms
        /\ map GrowthAnalysis.m_district ms = ["B"%string])
  /\ List.length
       (Trend.series GrowthAnalysis.h_district GrowthAnalysis.h_year
          GrowthAnalysis.h_density "A" Inputs.lone_and_pair) = 1%nat.
Proof.
  split; [|reflexivity].
  intros float_pow float_sqrt. eexists. split; reflexivity.
Qed.

(** C6, amended.  On a frame whose rows all have a rate and in which some
    district has two points or more, the growth-summary step returns the
    metrics, and these have a row for exactly the districts of two points
    or more: a district of fewer than two points is passed over, with no
    row (hence no growth figure of any kind) and no signal. *)
Theorem short_series_passed_over :
  forall (float_pow : Q -> Q -> Q) (float_sqrt : Q -> Q)
         (historical_df : list GrowthAnalysis.history_row),
    (forall r, In r historical_df -> GrowthAnalysis.h_yoy_growth_rate r <> None) ->
    (exists d,
        (2 <= List.length
                (Trend.series GrowthAnalysis.h_district GrowthAnalysis.h_year
                   GrowthAnalysis.h_density d historical_df))%nat) ->
    exists ms,
      GrowthAnalysis.calculate_growth_metrics float_pow float_sqrt historical_df = Ok ms
      /\ forall d,
           In d (map GrowthAnalysis.m_district ms)
           <-> (2 <= List.length
                       (Trend.series GrowthAnalysis.h_district GrowthAnalysis.h_year
                          GrowthAnalysis.h_density d historical_df))%nat.
Proof. intros float_pow float_sqrt historical_df. apply metrics_rows. Qed.

(** The theorem at the frame of one year of ["A"] and two of ["B"]. *)
Lemma short_series_passed_over_witness :
  exists ms,
    GrowthAnalysis.calculate_growth_metrics (fun a _ => a) (fun a => a)
      Inputs.lone_and_pair = Ok ms
    /\ ~ In "A"%string (map GrowthAnalysis.m_district ms)
    /\ In "B"%string (map GrowthAnalysis.m_district ms).
Proof.
  assert (Hrates : forall r, In r Inputs.lone_and_pair ->
                             GrowthAnalysis.h_yoy_growth_rate r <> None).
  { intros r [<-|[<-|[<-|[]]]]; discriminate. }
  assert (Hsome : exists d,
             (2 <= List.length
                     (Trend.series GrowthAnalysis.h_district GrowthAnalysis.h_year
                        GrowthAnalysis.h_density d Inputs.lone_and_pair))%nat).
  { exists "B"%string. simpl. lia. }
  destruct (short_series_passed_over (fun a _ => a) (fun a => a)
              Inputs.lone_and_pair Hrates Hsome) as (ms & Hrun & Hiff).
  exists ms. split; [exact Hrun|]. split.
  - intro H. apply Hiff in H. simpl in H. lia.
  - apply Hiff. simpl. lia.
Defined.

(** C7: the code at its failing input.  The synthesizer gives the first
    year of a history the rate 0.0, and the reported average is the mean
    of all the rates of the district, that one included: for two years
    whose density doubles, rates 0.0 and 1.0, it reports 0.5, where the
    mean of the rates without the first year's entry is 1.0. *)
Theorem average_counts_first_year :
  forall (float_pow : Q -> Q -> Q) (float_sqrt : Q -> Q),
    GrowthAnalysis.with_yoy Inputs.two_years = Ok Inputs.two_years_rated
    /\ map GrowthAnalysis.h_yoy_growth_rate Inputs.two_years_rated
       = [Some 0.0; Some 1.0000]
    /\ (exists v, GrowthAnalysis.mean [Some 1.0000] = Some v /\ v == 1)
    /\ exists m a,
         GrowthAnalysis.calculate_growth_metrics float_pow float_sqrt
           Inputs.two_years_rated = Ok [m]
         /\ GrowthAnalysis.m_avg_annual_growth m = Some a
         /\ a == 0.5.
Proof.
  intros float_pow float_sqrt.
  split; [reflexivity|]. split; [reflexivity|].
  split; [eexists; split; reflexivity|].
  eexists _, _. split; [reflexivity|]. split; reflexivity.
Qed.

(* ================================================================== *)
(** * Further properties of the assigner, the normaliser and the
      synthesizer *)
(* ================================================================== *)

Section CatalogFacts.

Variable info : Type.
Variable bounds : info -> bbox.

(** A box that lies north and east of the origin contains no point with
    a falsy coordinate. *)
Lemma contains_truthy (b : bbox) (lat lon : pyfloat) :
  0 < lat_min b -> 0 < lon_min b ->
  contains b lat lon = true -> truthy lat = true /\ truthy lon = true.
Proof.
  intros Hlat Hlon H. unfold contains in H.
  apply andb_prop in H as [H _]. apply andb_prop in H as [H H3].
  apply andb_prop in H as [H1 _].
  assert (Hpos : forall m x, 0 < m -> fle (Fin m) x = true -> truthy x = true).
  { intros m [q| | |] Hm Hle; simpl in *; try reflexivity.
    apply Qle_bool_iff in Hle. apply negb_true_iff.
    destruct (Qeq_bool q 0) eqn:E; [|reflexivity].
    apply Qeq_bool_iff in E. rewrite E in Hle.
    exfalso. apply (Qlt_irrefl 0). eapply Qlt_le_trans; eassumption. }
  split; [exact (Hpos _ _ Hlat H1)|exact (Hpos _ _ Hlon H3)].
Qed.

Lemma label_is_first_match (districts : list (string * info)) (w : winery) :
  Forall (fun d => 0 < lat_min (bounds (snd d)) /\ 0 < lon_min (bounds (snd d)))
         districts ->
  Policy.label bounds districts w
  = set_district w
      (Policy.first_match bounds districts (latitude w) (longitude w)).
Proof.
  intro Hpos. unfold Policy.label.
  destruct (truthy_opt (latitude w) && truthy_opt (longitude w)) eqn:E;
    [reflexivity|].
  f_equal. unfold Policy.first_match.
  destruct (latitude w) as [lat|]; [|reflexivity].
  destruct (longitude w) as [lon|]; [|reflexivity].
  destruct (find _ districts) as [d|] eqn:F; [|reflexivity].
  apply find_some in F as [Hin Hc]. rewrite Forall_forall in Hpos.
  destruct (Hpos d Hin) as [H1 H2].
  destruct (contains_truthy _ _ _ H1 H2 Hc) as [T1 T2].
  simpl in E. rewrite T1, T2 in E. discriminate.
Qed.

End CatalogFacts.

(** X1.  With the catalogs that the two scripts define, the test
    [if lat and lon] never changes a label: every winery gets the first
    region, in catalog order, whose box contains it, and ['Other'] when
    none does. *)
Theorem berlin_catalogs_first_match :
  forall df : list winery,
    GrowthAnalysis.assign_districts_to_wineries df
    = map (fun w =>
             set_district w
               (Policy.first_match GrowthAnalysis.bounds
                  GrowthAnalysis.get_district_boundaries_and_areas
                  (latitude w) (longitude w)))
          df
    /\ fst (DensityMap.assign_districts_to_wineries df
              DensityMap.get_district_boundaries_and_areas)
       = map (fun w =>
                set_district w
                  (Policy.first_match DensityMap.bounds
                     DensityMap.get_district_boundaries_and_areas
                     (latitude w) (longitude w)))
             df.
Proof.
  intro df. split.
  - unfold GrowthAnalysis.assign_districts_to_wineries.
    rewrite assign_loop_label. apply map_ext. intro w.
    apply label_is_first_match. repeat constructor.
  - unfold DensityMap.assign_districts_to_wineries. cbn [fst].
    rewrite assign_loop_label. apply map_ext. intro w.
    apply label_is_first_match. repeat constructor.
Qed.

Section RatedFacts.

Import GrowthAnalysis.

Let rated (r : history_row) : Prop := h_yoy_growth_rate r <> None.

Lemma yoy_from_rated (prev : Q) (rows : list history_row) :
  Forall rated (yoy_from prev rows).
Proof.
  revert prev. induction rows as [|r rows IH]; intro prev; simpl; constructor.
  - discriminate.
  - apply IH.
Qed.

Lemma with_yoy_rated (rows out : list history_row) :
  with_yoy rows = Ok out -> Forall rated out.
Proof.
  destruct rows as [|r0 rest]; simpl; [discriminate|].
  intros [= <-]. constructor; [discriminate|apply yoy_from_rated].
Qed.

Lemma district_history_rated (current_df : list winery) (district_name : string)
  (district_info : district_info) (context : context) (g g' : bitgen)
  (rows : list history_row) :
  district_history current_df district_name district_info context g = Ok (rows, g') ->
  Forall rated rows.
Proof.
  unfold district_history. rewrite run_bind.
  destruct (@for_each M _ _ _ _ (rev years) g) as [[backwards g1]|e]; [|discriminate].
  unfold lift. destruct (with_yoy (rev backwards)) as [out|e] eqn:E; [|discriminate].
  intros [= <- _]. now apply with_yoy_rated in E.
Qed.

(** What holds of every result of the turns of a loop that returned holds
    of all its results. *)
Lemma for_each_results {A B : Type} (f : A -> M B) (P : B -> Prop) :
  (forall a g b g', f a g = Ok (b, g') -> P b) ->
  forall l g bs g', for_each f l g = Ok (bs, g') -> Forall P bs.
Proof.
  intros Hf. induction l as [|a l IH]; intros g bs g'.
  - intros [= <- _]. constructor.
  - rewrite run_for_each_cons.
    destruct (f a g) as [[b g1]|e] eqn:E; [|discriminate].
    destruct (for_each f l g1) as [[bs' g2]|e] eqn:E'; [|discriminate].
    intros [= <- _]. constructor; [now apply (Hf a g b g1)|now apply (IH g1 bs' g2)].
Qed.

Lemma simulate_over_rated (seeded : Z -> nat -> Q)
  (districts_info : list (string * district_info)) (current_df : list winery)
  (district_context : list (string * context)) (g g' : bitgen)
  (rows : list history_row) :
  simulate_over seeded districts_info current_df district_context g = Ok (rows, g') ->
  Forall rated rows.
Proof.
  unfold simulate_over. rewrite run_bind. unfold seed at 1. rewrite run_bind.
  destruct (@for_each M _ _ _ _ districts_info _) as [[blocks g1]|e] eqn:E;
    [|discriminate].
  rewrite run_ret. intros [= <- _].
  apply for_each_results with (P := Forall rated) in E.
  - induction E as [|b bs Hb _ IH]; simpl; [constructor|].
    apply Forall_app. split; assumption.
  - intros d g0 b g2.
    destruct (lookup (fst d) district_context) as [context|].
    + apply district_history_rated.
    + rewrite run_ret. intros [= <- _]. constructor.
Qed.

End RatedFacts.



(** X3.  The order of the catalog decides in an overlap, and the two
    scripts declare their catalogs in different orders.  The boxes of
    Prenzlauer Berg and Mitte share the rectangle of latitudes 52.52 to
    52.55 and longitudes 13.40 to 13.42: every winery in it is assigned
    to Prenzlauer Berg by the growth analysis and to Mitte by the density
    map. *)
Theorem catalog_order_decides_overlap :
  forall (df : list winery) (w : winery) (lat lon : Q),
    In w df ->
    latitude w = Some (Fin lat) ->
    longitude w = Some (Fin lon) ->
    52.520 <= lat <= 52.550 ->
    13.400 <= lon <= 13.420 ->
    In (set_district w "Prenzlauer Berg")
       (GrowthAnalysis.assign_districts_to_wineries df)
    /\ In (set_district w "Mitte")
          (fst (DensityMap.assign_districts_to_wineries df
                  DensityMap.get_district_boundaries_and_areas)).
Proof.
  intros df w lat lon Hin Hlat Hlon [Ha1 Ha2] [Ho1 Ho2].
  assert (Hnz : truthy_opt (latitude w) && truthy_opt (longitude w) = true).
  { rewrite Hlat, Hlon. simpl. apply andb_true_intro.
    split; apply negb_true_iff; (destruct (Qeq_bool _ 0) eqn:E; [|reflexivity]);
      apply Qeq_bool_iff in E; exfalso; lra. }
  assert (Hle : forall a b, a <= b -> Qle_bool a b = true)
    by (intros a b H; now apply Qle_bool_iff).
  split.
  - unfold GrowthAnalysis.assign_districts_to_wineries.
    rewrite assign_loop_label. apply in_map_iff. exists w. split; [|exact Hin].
    unfold Policy.label. rewrite Hnz. f_equal.
    rewrite Hlat, Hlon. unfold Policy.first_match. simpl.
    unfold contains. simpl.
    rewrite !Hle by lra. reflexivity.
  - unfold DensityMap.assign_districts_to_wineries. cbn [fst].
    rewrite assign_loop_label. apply in_map_iff. exists w. split; [|exact Hin].
    unfold Policy.label. rewrite Hnz. f_equal.
    rewrite Hlat, Hlon. unfold Policy.first_match. simpl.
    unfold contains. simpl.
    rewrite !Hle by lra. reflexivity.
Qed.

(** The theorem at a winery on Kollwitzplatz. *)
Lemma catalog_order_decides_overlap_witness :
  map district (GrowthAnalysis.assign_districts_to_wineries [Inputs.overlap_winery])
  = ["Prenzlauer Berg"%string]
  /\ In (set_district Inputs.overlap_winery "Prenzlauer Berg")
        (GrowthAnalysis.assign_districts_to_wineries [Inputs.overlap_winery])
  /\ In (set_district Inputs.overlap_winery "Mitte")
        (fst (DensityMap.assign_districts_to_wineries [Inputs.overlap_winery]
                DensityMap.get_district_boundaries_and_areas)).
Proof.
  split; [reflexivity|].
  apply (catalog_order_decides_overlap [Inputs.overlap_winery] Inputs.overlap_winery
           52.530 13.410);
    [now left|reflexivity|reflexivity|split; discriminate|split; discriminate].
Defined.

(* ================================================================== *)
(** * The density statistics: totals, order, accuracy and colours *)
(* ================================================================== *)

Section SumFacts.

Lemma list_sum_perm (l l' : list nat) :
  Permutation l l' -> list_sum l = list_sum l'.
Proof. induction 1; simpl; lia. Qed.

Lemma fold_plus_from (l : list Q) (x : Q) :
  fold_left Qplus l x == x + fold_left Qplus l 0.
Proof.
  revert x. induction l as [|a l IH]; intro x; simpl.
  - ring.
  - rewrite (IH (x + a)), (IH (0 + a)). ring.
Qed.

Lemma sum_cons (a : Q) (l : list Q) : Py.sum (a :: l) == a + Py.sum l.
Proof. unfold Py.sum. simpl. rewrite fold_plus_from. ring. Qed.

Lemma sum_app (l l' : list Q) : Py.sum (l ++ l') == Py.sum l + Py.sum l'.
Proof.
  induction l as [|a l IH]; simpl.
  - unfold Py.sum at 2. simpl. ring.
  - rewrite !sum_cons, IH. ring.
Qed.

Lemma sum_perm (l l' : list Q) : Permutation l l' -> Py.sum l == Py.sum l'.
Proof.
  induction 1 as [|a l l' _ IH|a b l|l l' l'' _ IH1 _ IH2].
  - reflexivity.
  - now rewrite !sum_cons, IH.
  - rewrite !sum_cons. ring.
  - now rewrite IH1.
Qed.

End SumFacts.

Section SortedFacts.

Context {A : Type}.
Variable key : A -> Q.

Let above (a b : A) : Prop := key b <= key a.

Lemma insert_desc_sorted (a : A) (l : list A) :
  Sorted above l -> Sorted above (insert_desc key a l).
Proof.
  induction 1 as [|b l Hs IH Hb]; simpl.
  - repeat constructor.
  - destruct (Qle_bool (key b) (key a)) eqn:E.
    + apply Qle_bool_iff in E. repeat constructor; assumption.
    + assert (Hab : key a <= key b).
      { apply Qlt_le_weak, Qnot_le_lt. rewrite <- Qle_bool_iff. congruence. }
      constructor; [exact IH|].
      destruct l as [|c l]; simpl.
      * constructor. exact Hab.
      * destruct (Qle_bool (key c) (key a)); constructor;
          [exact Hab|now inversion Hb].
Qed.

(** The rows come out of [sort_values] in non-increasing order of the
    key. *)
Lemma sort_values_desc_sorted (l : list A) :
  StronglySorted above (sort_values_desc key l).
Proof.
  apply Sorted_StronglySorted.
  - intros a b c Hab Hbc. unfold above in *. eapply Qle_trans; eassumption.
  - induction l as [|a l IH]; simpl; [constructor|].
    now apply insert_desc_sorted.
Qed.

End SortedFacts.

Section TotalsFacts.

Import DensityMap.

Lemma indicator_sum (d : string) (L : list string) :
  NoDup L -> In d L ->
  list_sum (map (fun k => if String.eqb d k then 1%nat else 0%nat) L) = 1%nat.
Proof.
  induction 1 as [|k L Hk _ IH]; simpl; [intros []|].
  intros [->|Hin].
  - rewrite String.eqb_refl. f_equal.
    clear IH. induction L as [|k' L IHL]; simpl; [reflexivity|].
    destruct (String.eqb_spec d k') as [->|_].
    + exfalso. apply Hk. now left.
    + apply IHL. intro H. apply Hk. now right.
  - destruct (String.eqb_spec d k) as [->|_]; [contradiction|].
    now apply IH.
Qed.

(** Counting by label: when every row carries one of the distinct labels
    [L], the counts of the labels add up to the number of rows. *)
Lemma count_partition (L : list string) (df : list winery) :
  NoDup L ->
  (forall w, In w df -> In (district w) L) ->
  list_sum (map (fun k => count_in k df) L) = List.length df.
Proof.
  intros HL. induction df as [|w df IH]; intro Hin.
  - clear. induction L as [|k L IHL]; simpl; [reflexivity|exact IHL].
  - assert (Hstep : forall k, count_in k (w :: df)
                    = ((if String.eqb (district w) k then 1 else 0) + count_in k df)%nat).
    { intro k. unfold count_in. simpl.
      destruct (String.eqb (district w) k); reflexivity. }
    rewrite (map_ext _ _ Hstep).
    assert (Hsplit : forall (f g : string -> nat) (l : list string),
               list_sum (map (fun k => (f k + g k)%nat) l)
               = (list_sum (map f l) + list_sum (map g l))%nat).
    { intros f g l. induction l; simpl; lia. }
    rewrite Hsplit, indicator_sum, IH.
    + reflexivity.
    + intros w' H. apply Hin. now right.
    + exact HL.
    + apply Hin. now left.
Qed.

(** A label is a name of the catalog or ['Other']. *)
Lemma label_in_names (districts : list (string * district_info)) (w : winery) :
  In (district (Policy.label bounds districts w))
     (map fst districts ++ ["Other"%string]).
Proof.
  unfold Policy.label, Policy.first_match. simpl.
  apply in_or_app.
  destruct (truthy_opt (latitude w) && truthy_opt (longitude w));
    [|right; now left].
  destruct (latitude w) as [lat|]; [|right; now left].
  destruct (longitude w) as [lon|]; [|right; now left].
  destruct (find _ districts) as [d|] eqn:E; [|right; now left].
  left. apply find_some in E as [E _]. now apply in_map.
Qed.

Lemma other_row_count (df : list winery) (districts : list (string * district_info)) :
  list_sum (map st_winery_count (other_row df districts)) = count_in "Other" df.
Proof.
  unfold other_row. destruct (0 <? count_in "Other" df)%nat eqn:E; simpl.
  - lia.
  - apply Nat.ltb_ge in E. lia.
Qed.

Lemma other_row_area (df : list winery) (districts : list (string * district_info)) :
  Py.sum (map st_area_km2 (other_row df districts))
  == if (0 <? count_in "Other" df)%nat then other_area districts else 0.
Proof.
  unfold other_row. destruct (0 <? count_in "Other" df)%nat; [|reflexivity].
  simpl map. rewrite sum_cons. unfold Py.sum. simpl. ring.
Qed.

End TotalsFacts.

(** X4.  The statistics count every winery once.  On a catalog and a
    frame that are not both empty (pandas has no column to sort on
    otherwise), when the names of the catalog are distinct and none is
    ['Other'], the total of the [winery_count] column, which the report
    gives as the wineries analysed, is the number of rows of the frame;
    and the total of the [area_km2] column is the nominal city area,
    891.7, when some winery is in ['Other'], and the sum of the cataloged
    areas when none is. *)
Theorem statistics_count_every_winery_once :
  forall (districts : list (string * DensityMap.district_info)) (df : list winery),
    districts <> [] \/ df <> [] ->
    NoDup (map fst districts) ->
    ~ In "Other"%string (map fst districts) ->
    let out := DensityMap.assign_districts_to_wineries df districts in
    DensityMap.total_wineries (snd out) = List.length df
    /\ DensityMap.total_area (snd out)
       == if (0 <? count_in "Other" (fst out))%nat
          then DensityMap.berlin_total_area
          else Py.sum (map (fun d => DensityMap.area_km2 (snd d)) districts).
Proof.
  intros districts df _ Hnodup Hother out.
  assert (Hout : fst out = map (Policy.label DensityMap.bounds districts) df)
    by apply assign_loop_label.
  assert (Hperm : Permutation (snd out) (DensityMap.district_stats (fst out) districts))
    by apply sort_values_desc_perm.
  split.
  - unfold DensityMap.total_wineries.
    rewrite (list_sum_perm _ _ (Permutation_map _ Hperm)).
    unfold DensityMap.district_stats.
    rewrite map_app, list_sum_app, other_row_count, map_map. simpl.
    transitivity (list_sum (map (fun k => count_in k (fst out))
                              (map fst districts ++ ["Other"%string]))).
    { rewrite map_app, list_sum_app, map_map. simpl. lia. }
    rewrite count_partition.
    + rewrite Hout. apply length_map.
    + apply NoDup_app; [exact Hnodup|repeat constructor; intros []|].
      intros k Hk [<-|[]]. contradiction.
    + intros w Hw. rewrite Hout in Hw. apply in_map_iff in Hw as (w0 & <- & _).
      apply label_in_names.
  - unfold DensityMap.total_area.
    rewrite (sum_perm _ _ (Permutation_map _ Hperm)).
    unfold DensityMap.district_stats.
    rewrite map_app, sum_app, other_row_area, map_map. simpl.
    destruct (0 <? count_in "Other" _)%nat.
    + unfold DensityMap.other_area. ring.
    + ring.
Qed.

(** The theorem at the catalog of the script and a frame of three
    wineries, one of them outside every district. *)
Lemma statistics_count_every_winery_once_witness :
  DensityMap.total_wineries
    (snd (DensityMap.assign_districts_to_wineries
            [Inputs.neukoelln_winery; Inputs.far_winery; Inputs.overlap_winery]
            DensityMap.get_district_boundaries_and_areas)) = 3%nat
  /\ DensityMap.total_area
       (snd (DensityMap.assign_districts_to_wineries
               [Inputs.neukoelln_winery; Inputs.far_winery; Inputs.overlap_winery]
               DensityMap.get_district_boundaries_and_areas)) == 891.7.
Proof.
  assert (Hnodup : NoDup (map fst DensityMap.get_district_boundaries_and_areas))
    by (repeat constructor; simpl; intuition discriminate).
  assert (Hother : ~ In "Other"%string
                     (map fst DensityMap.get_district_boundaries_and_areas))
    by (simpl; intuition discriminate).
  assert (Hne : DensityMap.get_district_boundaries_and_areas <> []
                \/ [Inputs.neukoelln_winery; Inputs.far_winery; Inputs.overlap_winery]
                   <> [])
    by (right; discriminate).
  destruct (statistics_count_every_winery_once
              DensityMap.get_district_boundaries_and_areas
              [Inputs.neukoelln_winery; Inputs.far_winery; Inputs.overlap_winery]
              Hne Hnodup Hother) as [H1 H2].
  split; [exact H1|exact H2].
Defined.

(** X5.  The row that the printed analysis reports as of highest density
    is a row that no row of the statistics exceeds in density.  (When the
    catalog and the frame are both empty the statistics have no column to
    sort on; otherwise there is such a row.) *)
Theorem highest_density_is_maximal :
  forall (districts : list (string * DensityMap.district_info)) (df : list winery),
    districts <> [] \/ df <> [] ->
    exists top,
      DensityMap.highest_density
        (snd (DensityMap.assign_districts_to_wineries df districts)) = Ok top
      /\ In top (snd (DensityMap.assign_districts_to_wineries df districts))
      /\ forall st,
           In st (snd (DensityMap.assign_districts_to_wineries df districts)) ->
           DensityMap.st_density_per_km2 st <= DensityMap.st_density_per_km2 top.
Proof.
  intros districts df Hne.
  assert (Hcases :
            match DensityMap.highest_density
                    (snd (DensityMap.assign_districts_to_wineries df districts)) with
            | Ok top =>
                In top (snd (DensityMap.assign_districts_to_wineries df districts))
                /\ forall st,
                     In st (snd (DensityMap.assign_districts_to_wineries df districts)) ->
                     DensityMap.st_density_per_km2 st
                     <= DensityMap.st_density_per_km2 top
            | Raise e => e = IndexError /\ districts = [] /\ df = []
            end).
  { pose proof (sort_values_desc_sorted DensityMap.st_density_per_km2
                  (DensityMap.district_stats
                     (fst (DensityMap.assign_districts_to_wineries df districts))
                     districts)) as Hsorted.
    pose proof (sort_values_desc_perm DensityMap.st_density_per_km2
                  (DensityMap.district_stats
                     (fst (DensityMap.assign_districts_to_wineries df districts))
                     districts)) as Hperm.
    change (sort_values_desc DensityMap.st_density_per_km2 _)
      with (snd (DensityMap.assign_districts_to_wineries df districts)) in Hsorted, Hperm.
    destruct (snd (DensityMap.assign_districts_to_wineries df districts))
      as [|top rest] eqn:E; simpl.
    - split; [reflexivity|].
      apply Permutation_nil in Hperm. unfold DensityMap.district_stats in Hperm.
      apply app_eq_nil in Hperm as [Hcat Hrow].
      destruct districts as [|d ds]; [|discriminate]. split; [reflexivity|].
      destruct df as [|w df]; [reflexivity|]. exfalso.
      revert Hrow. unfold DensityMap.other_row.
      assert (Hpos : (0 <? count_in "Other"
                             (fst (DensityMap.assign_districts_to_wineries (w :: df) [])))%nat
                     = true).
      { apply Nat.ltb_lt.
        apply (count_in_pos "Other" _ (Policy.label DensityMap.bounds [] w)).
        - unfold DensityMap.assign_districts_to_wineries. cbn [fst].
          rewrite assign_loop_label. now left.
        - unfold Policy.label, Policy.first_match. simpl.
          destruct (truthy_opt (latitude w) && truthy_opt (longitude w));
            [|reflexivity].
          destruct (latitude w), (longitude w); reflexivity. }
      rewrite Hpos. discriminate.
    - split; [now left|].
      apply StronglySorted_inv in Hsorted as [_ Hall].
      rewrite Forall_forall in Hall.
      intros st [<-|Hin]; [apply Qle_refl|now apply Hall].
  }
  destruct (DensityMap.highest_density
              (snd (DensityMap.assign_districts_to_wineries df districts)))
    as [top|e].
  - exists top. split; [reflexivity|exact Hcases].
  - destruct Hcases as (_ & Hd & Hf). destruct Hne as [H|H]; contradiction.
Qed.

(** The theorem at the catalog of the script and one winery in
    Neukölln: Neukölln has the highest density, 0.022. *)
Lemma highest_density_is_maximal_witness :
  exists top,
    DensityMap.highest_density
      (snd (DensityMap.assign_districts_to_wineries [Inputs.neukoelln_winery]
              DensityMap.get_district_boundaries_and_areas)) = Ok top
    /\ DensityMap.st_district top = "Neuk√∂lln"%string
    /\ forall st,
         In st (snd (DensityMap.assign_districts_to_wineries [Inputs.neukoelln_winery]
                       DensityMap.get_district_boundaries_and_areas)) ->
         DensityMap.st_density_per_km2 st <= DensityMap.st_density_per_km2 top.
Proof.
  destruct (highest_density_is_maximal DensityMap.get_district_boundaries_and_areas
              [Inputs.neukoelln_winery]) as (top & Htop & _ & Hmax).
  - right. discriminate.
  - exists top. split; [exact Htop|]. split; [|exact Hmax].
    revert Htop. vm_compute. intros [= <-]. reflexivity.
Defined.

(** Reading a comparison of rationals as the order it decides. *)
Ltac read_compare H :=
  match type of H with
  | _ = Eq => apply Qeq_alt in H
  | _ = Lt => apply Qlt_alt in H
  | _ = Gt => apply Qgt_alt in H
  end.

Section RoundingFacts.

(** The nearest integer is within one half. *)
Lemma rint_close (q : Q) :
  inject_Z (rint q) - q <= 1 # 2 /\ q - inject_Z (rint q) <= 1 # 2.
Proof.
  unfold rint.
  pose proof (Qfloor_le q) as Hlo.
  pose proof (Qlt_floor q) as Hhi.
  rewrite inject_Z_plus in Hhi. change (inject_Z 1) with 1 in Hhi.
  destruct (Qcompare (q - inject_Z (Qfloor q)) (1 # 2)) eqn:E.
  - apply Qeq_alt in E.
    destruct (Z.even (Qfloor q)); [|rewrite inject_Z_plus; change (inject_Z 1) with 1];
      split; lra.
  - apply Qlt_alt in E. split; lra.
  - apply Qgt_alt in E. rewrite inject_Z_plus. change (inject_Z 1) with 1.
    split; lra.
Qed.

Lemma round_as_quotient (q : Q) (n : nat) :
  round q n
  == inject_Z (rint (q * inject_Z (Zpos (pow10 n)))) / inject_Z (Zpos (pow10 n)).
Proof. unfold round. apply Qmake_Qdiv. Qed.

(** Rounding to 3 places moves a value by at most 0.0005. *)
Lemma round3_close (q : Q) :
  round q 3 - q <= 0.0005 /\ q - round q 3 <= 0.0005.
Proof.
  rewrite round_as_quotient.
  destruct (rint_close (q * inject_Z (Zpos (pow10 3)))) as [H1 H2].
  change (inject_Z (Zpos (pow10 3))) with 1000 in *.
  set (r := inject_Z (rint (q * 1000))) in *.
  assert (Hr : r / 1000 == r * (1 # 1000)) by (unfold Qdiv; reflexivity).
  rewrite Hr. split; lra.
Qed.

(** Rounding to 4 places moves a value by at most 0.00005. *)
Lemma round4_close (q : Q) :
  round q 4 - q <= 0.00005 /\ q - round q 4 <= 0.00005.
Proof.
  rewrite round_as_quotient.
  destruct (rint_close (q * inject_Z (Zpos (pow10 4)))) as [H1 H2].
  change (inject_Z (Zpos (pow10 4))) with 10000 in *.
  set (r := inject_Z (rint (q * 10000))) in *.
  assert (Hr : r / 10000 == r * (1 # 10000)) by (unfold Qdiv; reflexivity).
  rewrite Hr. split; lra.
Qed.

(** Rounding keeps the order. *)
Lemma rint_monotone (p q : Q) : p <= q -> (rint p <= rint q)%Z.
Proof.
  intro Hpq. pose proof (Qfloor_resp_le _ _ Hpq) as Hf.
  unfold rint.
  pose proof (Qfloor_le p) as Hp1. pose proof (Qlt_floor p) as Hp2.
  pose proof (Qfloor_le q) as Hq1. pose proof (Qlt_floor q) as Hq2.
  destruct (Z.eq_dec (Qfloor p) (Qfloor q)) as [Heq|Hne].
  - rewrite <- Heq in *. clear Hf Heq.
    destruct (Qcompare (p - inject_Z (Qfloor p)) (1 # 2)) eqn:Cp;
      destruct (Qcompare (q - inject_Z (Qfloor p)) (1 # 2)) eqn:Cq;
      try destruct (Z.even (Qfloor p)); try lia;
      read_compare Cp; read_compare Cq; exfalso; lra.
  - assert (Hlt : (Qfloor p + 1 <= Qfloor q)%Z) by lia.
    destruct (Qcompare (p - inject_Z (Qfloor p)) (1 # 2));
      destruct (Qcompare (q - inject_Z (Qfloor q)) (1 # 2));
      try destruct (Z.even (Qfloor p)); try destruct (Z.even (Qfloor q)); lia.
Qed.

Lemma round_monotone (p q : Q) (n : nat) : p <= q -> round p n <= round q n.
Proof.
  intro H. unfold round, Qle. simpl.
  apply Z.mul_le_mono_nonneg_r; [lia|].
  apply rint_monotone. apply Qmult_le_compat_r; [exact H|].
  unfold Qle. simpl. lia.
Qed.

End RoundingFacts.

(** X6.  The density of a cataloged district of positive area is the
    count of its wineries over its area to within the rounding to 3
    places: it is never negative and differs from [count / area] by at
    most 0.0005; the count is the number of wineries that carry the
    district's name. *)
Theorem district_density_accuracy :
  forall (df : list winery) (district_name : string)
         (district_info : DensityMap.district_info),
    0 < DensityMap.area_km2 district_info ->
    let st := DensityMap.district_row df district_name district_info in
    let exact := DensityMap.of_nat (count_in district_name df)
                 / DensityMap.area_km2 district_info in
    DensityMap.st_winery_count st = count_in district_name df
    /\ 0 <= DensityMap.st_density_per_km2 st
    /\ DensityMap.st_density_per_km2 st - exact <= 0.0005
    /\ exact - DensityMap.st_density_per_km2 st <= 0.0005.
Proof.
  intros df district_name district_info Harea st exact.
  unfold st, DensityMap.district_row. simpl.
  assert (Hpos : negb (Qle_bool (DensityMap.area_km2 district_info) 0) = true).
  { apply negb_true_iff. destruct (Qle_bool _ 0) eqn:E; [|reflexivity].
    apply Qle_bool_iff in E. exfalso. apply (Qlt_irrefl 0).
    eapply Qlt_le_trans; eassumption. }
  rewrite Hpos. fold exact.
  split; [reflexivity|]. split; [|apply round3_close].
  apply round_nonneg. unfold exact. apply Qle_shift_div_l; [exact Harea|].
  rewrite Qmult_0_l. unfold DensityMap.of_nat, Qle. simpl. lia.
Qed.

(** The theorem at Neukölln and a frame with one winery there: the
    recorded density is 0.022, for 1 / 44.9. *)
Lemma district_density_accuracy_witness :
  DensityMap.st_winery_count
    (DensityMap.district_row
       (fst (DensityMap.assign_districts_to_wineries
               [Inputs.neukoelln_winery; Inputs.far_winery]
               DensityMap.get_district_boundaries_and_areas))
       "Neuk√∂lln"
       (DensityMap.mk (52.450, 52.500, 13.400, 13.470) 44.9 (52.475, 13.435) 329000
          "Diverse, gentrifying area")) = 1%nat
  /\ DensityMap.st_density_per_km2
       (DensityMap.district_row
          (fst (DensityMap.assign_districts_to_wineries
                  [Inputs.neukoelln_winery; Inputs.far_winery]
                  DensityMap.get_district_boundaries_and_areas))
          "Neuk√∂lln"
          (DensityMap.mk (52.450, 52.500, 13.400, 13.470) 44.9 (52.475, 13.435) 329000
             "Diverse, gentrifying area")) = 0.022
  /\ 0.022 - 1 / 44.9 <= 0.0005.
Proof.
  assert (Harea : 0 < DensityMap.area_km2
                        (DensityMap.mk (52.450, 52.500, 13.400, 13.470) 44.9
                           (52.475, 13.435) 329000 "Diverse, gentrifying area"))
    by reflexivity.
  destruct (district_density_accuracy
              (fst (DensityMap.assign_districts_to_wineries
                      [Inputs.neukoelln_winery; Inputs.far_winery]
                      DensityMap.get_district_boundaries_and_areas))
              "Neuk√∂lln" _ Harea) as (Hc & _ & H & _).
  split; [exact Hc|]. split; [reflexivity|exact H].
Defined.

(* ================================================================== *)
(** * Colours and report categories *)
(* ================================================================== *)

(** Deciding the threshold tests of a classifier: each test is replaced
    by the inequality it decides. *)
Ltac read_tests :=
  repeat match goal with
         | H : Qle_bool _ _ = true |- _ => apply Qle_bool_iff in H
         | H : Qle_bool ?a ?b = false |- _ =>
             assert (b < a)
               by (apply Qnot_le_lt; rewrite <- Qle_bool_iff; congruence);
             clear H
         | H : Qeq_bool _ _ = true |- _ => apply Qeq_bool_iff in H
         | H : Qeq_bool _ _ = false |- _ => apply Qeq_bool_neq in H
         end.

Ltac by_thresholds :=
  unfold qge, qlt in *;
  repeat match goal with
         | |- context [Qle_bool ?a ?b] => destruct (Qle_bool a b) eqn:?
         | |- context [Qeq_bool ?a ?b] => destruct (Qeq_bool a b) eqn:?
         end;
  simpl; read_tests.

Section FilterFacts.

Context {A : Type}.

(** Two tests that exclude each other select, together, what their
    disjunction selects. *)
Lemma filter_split_length (f g h : A -> bool) (l : list A) :
  (forall a, f a = g a || h a) ->
  (forall a, g a && h a = false) ->
  List.length (filter f l)
  = (List.length (filter g l) + List.length (filter h l))%nat.
Proof.
  intros Hor Hex. induction l as [|a l IH]; simpl; [reflexivity|].
  rewrite Hor. specialize (Hex a).
  destruct (g a), (h a); simpl in *; try discriminate; lia.
Qed.

End FilterFacts.

(** X7.  The map and the report of the density analysis agree.  The
    marker colour of a density is decided by the polygon colour of that
    density: red for the two reds, orange for orange, green for yellow,
    blue for light yellow and for gray.  A row is listed under "High
    Density" exactly when its marker colour is red and under "Medium
    Density" exactly when it is orange (so no row is in both lists), and
    the number that the report gives as districts of high density (at
    least 1.0) is the number of rows in the two lists together. *)
Theorem density_map_and_report_agree :
  forall (district_stats_df : list DensityMap.stats),
    (forall density : Q,
        (DensityMap.marker_color_of density = "red"%string
         <-> DensityMap.get_density_color density = "#dc2626"%string
             \/ DensityMap.get_density_color density = "#7f1d1d"%string)
        /\ (DensityMap.marker_color_of density = "orange"%string
            <-> DensityMap.get_density_color density = "#f59e0b"%string)
        /\ (DensityMap.marker_color_of density = "green"%string
            <-> DensityMap.get_density_color density = "#fbbf24"%string)
        /\ (DensityMap.marker_color_of density = "blue"%string
            <-> DensityMap.get_density_color density = "#fde68a"%string
                \/ DensityMap.get_density_color density = "#f7f7f7"%string))
    /\ (forall st,
           (In st (DensityMap.high_density district_stats_df)
            <-> In st district_stats_df
                /\ DensityMap.marker_color_of (DensityMap.st_density_per_km2 st)
                   = "red"%string)
           /\ (In st (DensityMap.medium_density district_stats_df)
               <-> In st district_stats_df
                   /\ DensityMap.marker_color_of (DensityMap.st_density_per_km2 st)
                      = "orange"%string))
    /\ DensityMap.high_density_districts district_stats_df
       = (List.length (DensityMap.high_density district_stats_df)
          + List.length (DensityMap.medium_density district_stats_df))%nat.
Proof.
  intro stats. split; [|split].
  - intro d. unfold DensityMap.marker_color_of, DensityMap.get_density_color.
    by_thresholds;
      repeat split; intros; try discriminate; try (exfalso; lra);
      try reflexivity; intuition (try discriminate; auto).
  - intro st. unfold DensityMap.high_density, DensityMap.medium_density.
    rewrite !filter_In. unfold DensityMap.marker_color_of.
    split; (split; intros [Hin H]; (split; [exact Hin|]); revert H;
            by_thresholds; intros; try discriminate; try reflexivity;
            try (exfalso; lra)).
  - unfold DensityMap.high_density_districts, DensityMap.high_density,
      DensityMap.medium_density.
    apply filter_split_length; intro st;
      by_thresholds; try reflexivity; exfalso; lra.
Qed.

(** X8.  Every marker has a colour of its district.  Every winery of the
    labelled frame has a row in the statistics (that of its district, or
    that of ['Other'], which is made as soon as one winery is in it): its
    marker gets the colour of the density of such a row, never the gray
    of a district without statistics. *)
Theorem every_marker_has_a_district_row :
  forall (districts : list (string * DensityMap.district_info))
         (df : list winery) (w : winery),
    In w (fst (DensityMap.assign_districts_to_wineries df districts)) ->
    exists st,
      In st (snd (DensityMap.assign_districts_to_wineries df districts))
      /\ DensityMap.st_district st = district w
      /\ DensityMap.marker_color
           (snd (DensityMap.assign_districts_to_wineries df districts)) (district w)
         = DensityMap.marker_color_of (DensityMap.st_density_per_km2 st)
      /\ DensityMap.marker_color
           (snd (DensityMap.assign_districts_to_wineries df districts)) (district w)
         <> "gray"%string.
Proof.
  intros districts df w Hw.
  set (out := DensityMap.assign_districts_to_wineries df districts) in *.
  assert (Hout : fst out = map (Policy.label DensityMap.bounds districts) df)
    by apply assign_loop_label.
  assert (Hrow : exists st0,
             In st0 (DensityMap.district_stats (fst out) districts)
             /\ DensityMap.st_district st0 = district w).
  { pose proof Hw as Hw'. rewrite Hout in Hw'.
    apply in_map_iff in Hw' as (w0 & Hw0 & _).
    pose proof (label_in_names districts w0) as Hname. rewrite Hw0 in Hname.
    unfold DensityMap.district_stats.
    apply in_app_or in Hname as [Hname|[Hname|[]]].
    - apply in_map_iff in Hname as ([n i] & Hn & Hin). simpl in Hn.
      exists (DensityMap.district_row (fst out) n i). split; [|exact Hn].
      apply in_or_app. left.
      apply in_map_iff. exists (n, i). split; [reflexivity|exact Hin].
    - destruct (other_row_made (fst out) districts) as (st & Hst & Hd & _).
      { apply (count_in_pos _ _ w Hw). now symmetry. }
      exists st. split; [|congruence].
      apply in_or_app. right. rewrite Hst. now left. }
  destruct Hrow as (st0 & Hin0 & Hd0).
  assert (Hin0' : In st0 (snd out)).
  { apply (Permutation_in _ (Permutation_sym (sort_values_desc_perm _ _))).
    exact Hin0. }
  unfold DensityMap.marker_color.
  destruct (filter (fun st => String.eqb (DensityMap.st_district st) (district w))
              (snd out)) as [|st rest] eqn:F.
  - exfalso.
    assert (H : In st0 (filter (fun st => String.eqb (DensityMap.st_district st)
                                            (district w)) (snd out))).
    { apply filter_In. split; [exact Hin0'|]. now apply String.eqb_eq. }
    rewrite F in H. destruct H.
  - assert (H : In st (filter (fun st => String.eqb (DensityMap.st_district st)
                                           (district w)) (snd out)))
      by (rewrite F; now left).
    apply filter_In in H as [Hst Hname]. apply String.eqb_eq in Hname.
    exists st. split; [exact Hst|]. split; [exact Hname|]. split; [reflexivity|].
    unfold DensityMap.marker_color_of.
    destruct (qge _ 2.0); [discriminate|].
    destruct (qge _ 1.0); [discriminate|].
    destruct (qge _ 0.5); discriminate.
Qed.

(** The theorem at the catalog of the script and a winery outside every
    district: its marker is blue, for the density of ['Other']. *)
Lemma every_marker_has_a_district_row_witness :
  DensityMap.marker_color
    (snd (DensityMap.assign_districts_to_wineries
            [Inputs.neukoelln_winery; Inputs.far_winery]
            DensityMap.get_district_boundaries_and_areas)) "Other"
  = "blue"%string
  /\ exists st,
       In st (snd (DensityMap.assign_districts_to_wineries
                     [Inputs.neukoelln_winery; Inputs.far_winery]
                     DensityMap.get_district_boundaries_and_areas))
       /\ DensityMap.st_district st = "Other"%string.
Proof.
  split; [reflexivity|].
  destruct (every_marker_has_a_district_row
              DensityMap.get_district_boundaries_and_areas
              [Inputs.neukoelln_winery; Inputs.far_winery]
              (set_district Inputs.far_winery "Other"))
    as (st & Hst & Hd & _).
  - right. now left.
  - exists st. split; [exact Hst|exact Hd].
Defined.

(** X9.  The map and the report of the growth analysis agree.  A row is
    listed under "Explosive Growth" exactly when its polygon is dark
    green and under "High Growth" exactly when it is green (so no row is
    in both lists); the number that the report gives as districts of high
    growth (CAGR at least 10%) is the number of rows in the two lists
    together, and the gray of "no growth" is the colour of exactly the
    rates that are not positive. *)
Theorem growth_map_and_report_agree :
  forall (growth_metrics_df : list GrowthAnalysis.metrics),
    (forall m,
        (In m (GrowthAnalysis.explosive_growth growth_metrics_df)
         <-> In m growth_metrics_df
             /\ GrowthAnalysis.get_growth_color (GrowthAnalysis.m_cagr m)
                = "#006d2c"%string)
        /\ (In m (GrowthAnalysis.high_growth growth_metrics_df)
            <-> In m growth_metrics_df
                /\ GrowthAnalysis.get_growth_color (GrowthAnalysis.m_cagr m)
                   = "#31a354"%string))
    /\ GrowthAnalysis.high_growth_districts growth_metrics_df
       = (List.length (GrowthAnalysis.explosive_growth growth_metrics_df)
          + List.length (GrowthAnalysis.high_growth growth_metrics_df))%nat
    /\ forall cagr : Q,
         GrowthAnalysis.get_growth_color cagr = "#d9d9d9"%string <-> cagr <= 0.
Proof.
  intro ms. split; [|split].
  - intro m. unfold GrowthAnalysis.explosive_growth, GrowthAnalysis.high_growth.
    rewrite !filter_In. unfold GrowthAnalysis.get_growth_color.
    split; (split; intros [Hin H]; (split; [exact Hin|]); revert H;
            by_thresholds; intros; try discriminate; try reflexivity;
            try (exfalso; lra)).
  - unfold GrowthAnalysis.high_growth_districts, GrowthAnalysis.explosive_growth,
      GrowthAnalysis.high_growth.
    apply filter_split_length; intro m;
      by_thresholds; try reflexivity; exfalso; lra.
  - intro cagr. unfold GrowthAnalysis.get_growth_color.
    by_thresholds; split; intros; try discriminate; try reflexivity;
      try lra; try (exfalso; lra).
Qed.

(* ================================================================== *)
(** * The lag sweep: when it returns, and how it mirrors *)
(* ================================================================== *)

Section SweepFacts.

Import TemporalAnalysis.

Variable pearson_stat : list Q -> list Q -> pyfloat * pyfloat.

Lemma pearsonr_returns (a b : list Q) :
  List.length a = List.length b -> (2 <= List.length a)%nat ->
  exists r, pearsonr pearson_stat a b = Ok r.
Proof.
  intros Hlen Hn. unfold pearsonr. rewrite <- Hlen, Nat.eqb_refl. simpl.
  destruct (List.length a <? 2)%nat eqn:E; [apply Nat.ltb_lt in E; lia|].
  destruct (constant a || constant b); [eauto|].
  destruct a as [|a0 [|a1 [|a2 a]]], b as [|b0 [|b1 [|b2 b]]]; eauto.
Qed.

Lemma pearsonr_raises (a b : list Q) :
  (List.length a < 2)%nat -> pearsonr pearson_stat a b = Raise ValueError.
Proof.
  intro Hn. unfold pearsonr.
  destruct (negb (List.length a =? List.length b)%nat); [reflexivity|].
  apply Nat.ltb_lt in Hn. now rewrite Hn.
Qed.

Lemma pearsonr_error (a b : list Q) (e : exn) :
  pearsonr pearson_stat a b = Raise e -> e = ValueError.
Proof.
  unfold pearsonr.
  destruct (negb _); [now intros [= <-]|].
  destruct (_ <? 2)%nat; [now intros [= <-]|].
  destruct (constant a || constant b); [discriminate|].
  destruct a as [|a0 [|a1 [|a2 a]]], b as [|b0 [|b1 [|b2 b]]]; discriminate.
Qed.

Lemma correlate_at_error (x y : list Q) (lag : Z) (e : exn) :
  correlate_at pearson_stat x y lag = Raise e -> e = ValueError.
Proof.
  unfold correlate_at.
  destruct (lag =? 0)%Z; [apply pearsonr_error|].
  destruct (0 <? lag)%Z.
  - destruct (lag <? _)%Z; [apply pearsonr_error|discriminate].
  - destruct (Z.abs lag <? _)%Z; [apply pearsonr_error|discriminate].
Qed.

(** On two series of [n] points each, the pair of a lag is computed
    when the overlap is empty or has two points or more. *)
Lemma correlate_at_returns (x y : list Q) (lag : Z) :
  List.length x = List.length y ->
  (Z.abs lag + 2 <= Z.of_nat (List.length x)
   \/ lag <> 0 /\ Z.of_nat (List.length x) <= Z.abs lag)%Z ->
  exists r, correlate_at pearson_stat x y lag = Ok r.
Proof.
  intros Hlen H. unfold correlate_at.
  destruct (Z.eqb_spec lag 0) as [->|Hz].
  - apply pearsonr_returns; [exact Hlen|]. simpl in H. lia.
  - destruct (Z.ltb_spec 0 lag).
    + destruct (Z.ltb_spec lag (Z.of_nat (List.length x))); [|eauto].
      apply pearsonr_returns.
      * rewrite length_firstn, length_skipn. lia.
      * rewrite length_firstn. lia.
    + destruct (Z.ltb_spec (Z.abs lag) (Z.of_nat (List.length y))); [|eauto].
      apply pearsonr_returns.
      * rewrite length_firstn, length_skipn. lia.
      * rewrite length_skipn. lia.
Qed.

(** And it raises when the overlap has a single point, or at lag 0 when
    the series have fewer than two. *)
Lemma correlate_at_raises (x y : list Q) (lag : Z) :
  List.length x = List.length y ->
  (Z.abs lag < Z.of_nat (List.length x) < Z.abs lag + 2
   \/ lag = 0 /\ Z.of_nat (List.length x) < 2)%Z ->
  correlate_at pearson_stat x y lag = Raise ValueError.
Proof.
  intros Hlen H. unfold correlate_at.
  destruct (Z.eqb_spec lag 0) as [->|Hz].
  - apply pearsonr_raises. simpl in H. lia.
  - destruct (Z.ltb_spec 0 lag).
    + destruct (Z.ltb_spec lag (Z.of_nat (List.length x))); [|lia].
      apply pearsonr_raises. rewrite length_firstn. lia.
    + destruct (Z.ltb_spec (Z.abs lag) (Z.of_nat (List.length y))); [|lia].
      apply pearsonr_raises. rewrite length_skipn. lia.
Qed.

Lemma range_In (n : nat) (lo k : Z) :
  In k (Py.range lo n) <-> (lo <= k < lo + Z.of_nat n)%Z.
Proof.
  revert lo. induction n as [|n IH]; intro lo; simpl; [lia|].
  rewrite IH. lia.
Qed.

Lemma range_length (n : nat) (lo : Z) : List.length (Py.range lo n) = n.
Proof. revert lo. induction n as [|n IH]; intro lo; simpl; [|rewrite IH]; reflexivity. Qed.

(** A loop of which one turn raises, raises; with a single kind of
    error, that error. *)
Lemma for_each_raises {A B : Type} (f : A -> outcome B) (e0 : exn) (l : list A) (a : A) :
  (forall a' e, f a' = Raise e -> e = e0) ->
  In a l -> f a = Raise e0 ->
  for_each f l = Raise e0.
Proof.
  intros Hone. induction l as [|a' l IH]; simpl; [intros []|].
  intros Hin Ha. destruct (f a') as [b|e] eqn:E.
  - simpl. destruct Hin as [->|Hin]; [congruence|].
    rewrite (IH Hin Ha). reflexivity.
  - simpl. now rewrite (Hone a' e E).
Qed.

Lemma for_each_inv {A B : Type} (f : A -> outcome B) (l : list A) (bs : list B) :
  for_each f l = Ok bs -> Forall2 (fun a b => f a = Ok b) l bs.
Proof.
  revert bs. induction l as [|a l IH]; intros bs; simpl.
  - intros [= <-]. constructor.
  - destruct (f a) as [b|e] eqn:E; simpl; [|discriminate].
    destruct (for_each f l) as [bs'|e]; simpl; [|discriminate].
    intros [= <-]. constructor; [exact E|now apply IH].
Qed.

End SweepFacts.

(** X10.  For a non-negative [max_lag], the lag sweep returns exactly when
    the two series have at least [max_lag + 2] points in common (the
    shorter length): then the table has one entry for each lag from
    [-max_lag] to [max_lag], in that order; otherwise some overlap has a
    single point, or the series have fewer than two, and the sweep raises
    [ValueError]. *)
Theorem sweep_returns_iff_enough_points :
  forall (pearson_stat : list Q -> list Q -> pyfloat * pyfloat)
         (x y : list Q) (max_lag : Z),
    (0 <= max_lag)%Z ->
    let n := Z.of_nat (Nat.min (List.length x) (List.length y)) in
    ((max_lag + 2 <= n)%Z ->
     exists table,
       TemporalAnalysis.calculate_cross_correlation pearson_stat x y max_lag = Ok table
       /\ map fst table = Py.range (- max_lag) (Z.to_nat (2 * max_lag + 1)))
    /\ ((n < max_lag + 2)%Z ->
        TemporalAnalysis.calculate_cross_correlation pearson_stat x y max_lag
        = Raise ValueError).
Proof.
  intros ps x y max_lag Hm n.
  set (k := Nat.min (List.length x) (List.length y)) in *.
  assert (Hx : List.length (firstn k x) = k) by (apply firstn_length_le; unfold k; lia).
  assert (Hy : List.length (firstn k y) = k) by (apply firstn_length_le; unfold k; lia).
  unfold TemporalAnalysis.calculate_cross_correlation. fold k.
  split; intro Hn.
  - destruct (for_each_outcome
                (fun lag =>
                   r <- TemporalAnalysis.correlate_at ps (firstn k x) (firstn k y) lag ;;
                   ret (lag, {| TemporalAnalysis.correlation := fst r;
                                TemporalAnalysis.p_value := snd r;
                                TemporalAnalysis.interpreted :=
                                  TemporalAnalysis.interpret lag |}))
                (fun lag e => fst e = lag)
                (Py.range (- max_lag) (Z.to_nat (2 * max_lag + 1))))
      as (table & Hrun & Hall).
    + intros lag Hlag. apply range_In in Hlag.
      destruct (correlate_at_returns ps (firstn k x) (firstn k y) lag) as (r & Hr).
      * congruence.
      * left. rewrite Hx. unfold n in Hn. lia.
      * rewrite Hr. eexists. split; reflexivity.
    + exists table. split; [exact Hrun|].
      clear Hrun. induction Hall as [|a b l bs Hab _ IH]; simpl; [reflexivity|].
      now rewrite Hab, IH.
  - assert (Hcases : (n < 2 \/ 2 <= n)%Z) by lia.
    destruct Hcases as [Hsmall|Hbig].
    + apply for_each_raises with (a := 0%Z).
      * intros lag e. destruct (TemporalAnalysis.correlate_at ps _ _ lag) eqn:E;
          simpl; [discriminate|]. intros [= <-].
        now apply correlate_at_error in E.
      * apply range_In. lia.
      * rewrite correlate_at_raises; [reflexivity|congruence|].
        right. rewrite Hx. unfold n in Hsmall. lia.
    + apply for_each_raises with (a := (- (n - 1))%Z).
      * intros lag e. destruct (TemporalAnalysis.correlate_at ps _ _ lag) eqn:E;
          simpl; [discriminate|]. intros [= <-].
        now apply correlate_at_error in E.
      * apply range_In. lia.
      * rewrite correlate_at_raises; [reflexivity|congruence|].
        left. rewrite Hx. unfold n in *. lia.
Qed.

(** The theorem at two series of four points: the sweep to lag 2
    returns, the sweep to lag 3 raises. *)
Lemma sweep_returns_iff_enough_points_witness :
  (exists table,
      TemporalAnalysis.calculate_cross_correlation Inputs.half_stat
        [1; 2; 3; 5] [2; 1; 3; 4] 2 = Ok table
      /\ map fst table = [-2; -1; 0; 1; 2]%Z)
  /\ TemporalAnalysis.calculate_cross_correlation Inputs.half_stat
       [1; 2; 3; 5] [2; 1; 3; 4] 3 = Raise ValueError.
Proof.
  split.
  - apply (sweep_returns_iff_enough_points Inputs.half_stat
             [1; 2; 3; 5] [2; 1; 3; 4] 2 ltac:(lia)). simpl. lia.
  - apply (sweep_returns_iff_enough_points Inputs.half_stat
             [1; 2; 3; 5] [2; 1; 3; 4] 3 ltac:(lia)). simpl. lia.
Defined.

Section MirrorFacts.

Import TemporalAnalysis.

Variable pearson_stat : list Q -> list Q -> pyfloat * pyfloat.
Hypothesis pearson_stat_sym : forall a b, pearson_stat a b = pearson_stat b a.

Lemma sign_product_sym (a b : Q) : sign a * sign b = sign b * sign a.
Proof. unfold sign. destruct (Qcompare a 0), (Qcompare b 0); reflexivity. Qed.

Lemma pearsonr_sym (a b : list Q) :
  pearsonr pearson_stat a b = pearsonr pearson_stat b a.
Proof.
  unfold pearsonr. rewrite (Nat.eqb_sym (List.length b) (List.length a)).
  destruct (Nat.eqb_spec (List.length a) (List.length b)) as [Hlen|]; [|reflexivity].
  simpl. rewrite <- Hlen.
  destruct (List.length a <? 2)%nat; [reflexivity|].
  rewrite (orb_comm (constant b)).
  destruct (constant a || constant b); [reflexivity|].
  destruct a as [|a0 [|a1 [|a2 a]]], b as [|b0 [|b1 [|b2 b]]];
    try discriminate Hlen; cbv beta iota.
  all: try (f_equal; apply pearson_stat_sym).
  now rewrite sign_product_sym.
Qed.

(** Exchanging the series and negating the lag leaves the pair of
    slices, hence the coefficient, as it is. *)
Lemma correlate_at_mirror (x y : list Q) (lag : Z) :
  List.length x = List.length y ->
  correlate_at pearson_stat y x (- lag) = correlate_at pearson_stat x y lag.
Proof.
  intro Hlen. unfold correlate_at.
  destruct (Z.eqb_spec lag 0) as [->|Hz]; [apply pearsonr_sym|].
  destruct (Z.eqb_spec (- lag) 0); [lia|].
  destruct (Z.ltb_spec 0 lag), (Z.ltb_spec 0 (- lag)); try lia.
  - rewrite Z.abs_opp, (Z.abs_eq lag) by lia.
    destruct (lag <? Z.of_nat (List.length x))%Z; [|reflexivity].
    apply pearsonr_sym.
  - rewrite (Z.abs_neq lag) by lia. rewrite <- Hlen.
    destruct (- lag <? Z.of_nat (List.length x))%Z; [|reflexivity].
    rewrite Hlen. apply pearsonr_sym.
Qed.

End MirrorFacts.

(** X11.  Exchanging the two series mirrors the lag table.  When the
    statistic on longer samples is symmetric in its two samples, as
    Pearson's is, and both sweeps return, the entry for a lag in the
    table of [(x, y)] has the correlation and the p-value of the entry for
    the opposite lag in the table of [(y, x)]. *)
Theorem exchanging_series_mirrors_lags :
  forall (pearson_stat : list Q -> list Q -> pyfloat * pyfloat)
         (x y : list Q) (max_lag : Z)
         (table mirrored : list (Z * TemporalAnalysis.lag_entry)),
    (forall a b, pearson_stat a b = pearson_stat b a) ->
    TemporalAnalysis.calculate_cross_correlation pearson_stat x y max_lag = Ok table ->
    TemporalAnalysis.calculate_cross_correlation pearson_stat y x max_lag = Ok mirrored ->
    forall lag e,
      In (lag, e) table ->
      exists e',
        In ((- lag)%Z, e') mirrored
        /\ TemporalAnalysis.correlation e' = TemporalAnalysis.correlation e
        /\ TemporalAnalysis.p_value e' = TemporalAnalysis.p_value e.
Proof.
  intros ps x y max_lag table mirrored Hsym Hxy Hyx lag e Hin.
  unfold TemporalAnalysis.calculate_cross_correlation in Hxy, Hyx.
  rewrite (Nat.min_comm (List.length y)) in Hyx.
  set (k := Nat.min (List.length x) (List.length y)) in *.
  assert (Hlen : List.length (firstn k x) = List.length (firstn k y)).
  { rewrite !firstn_length_le; unfold k; lia. }
  apply for_each_inv in Hxy, Hyx.
  destruct (Forall2_In_r _ _ _ _ Hxy Hin) as (lag0 & Hrange & Hlag0).
  simpl in Hlag0.
  destruct (TemporalAnalysis.correlate_at ps (firstn k x) (firstn k y) lag0)
    as [r|err] eqn:Er; simpl in Hlag0; [|discriminate].
  injection Hlag0 as -> <-.
  assert (Hopp : In (- lag)%Z (Py.range (- max_lag) (Z.to_nat (2 * max_lag + 1)))).
  { apply range_In. apply range_In in Hrange. lia. }
  destruct (Forall2_In_l _ _ _ _ Hyx Hopp) as ([lag' e'] & Hin' & He').
  simpl in He'. rewrite (correlate_at_mirror ps Hsym _ _ lag Hlen), Er in He'.
  simpl in He'. injection He' as <- <-.
  eexists. split; [exact Hin'|]. split; reflexivity.
Qed.

(** The theorem at two series of four points and lag 1. *)
Lemma exchanging_series_mirrors_lags_witness :
  exists e e',
    In (1%Z, e)
       [Inputs.entry (-1) 0.5 0.6; Inputs.entry 0 0.5 0.6; Inputs.entry 1 0.5 0.6]
    /\ In ((-1)%Z, e')
         [Inputs.entry (-1) 0.5 0.6; Inputs.entry 0 0.5 0.6; Inputs.entry 1 0.5 0.6]
    /\ TemporalAnalysis.correlation e' = TemporalAnalysis.correlation e.
Proof.
  assert (Hsym : forall a b, Inputs.half_stat a b = Inputs.half_stat b a)
    by reflexivity.
  assert (Hxy : TemporalAnalysis.calculate_cross_correlation Inputs.half_stat
                  [1; 2; 3; 5] [2; 1; 3; 4] 1
                = Ok [Inputs.entry (-1) 0.5 0.6; Inputs.entry 0 0.5 0.6;
                      Inputs.entry 1 0.5 0.6]) by reflexivity.
  assert (Hyx : TemporalAnalysis.calculate_cross_correlation Inputs.half_stat
                  [2; 1; 3; 4] [1; 2; 3; 5] 1
                = Ok [Inputs.entry (-1) 0.5 0.6; Inputs.entry 0 0.5 0.6;
                      Inputs.entry 1 0.5 0.6]) by reflexivity.
  assert (Hin : In (1%Z, snd (Inputs.entry 1 0.5 0.6))
                  [Inputs.entry (-1) 0.5 0.6; Inputs.entry 0 0.5 0.6;
                   Inputs.entry 1 0.5 0.6])
    by (right; right; left; reflexivity).
  destruct (exchanging_series_mirrors_lags Inputs.half_stat _ _ 1 _ _
              Hsym Hxy Hyx 1%Z _ Hin) as (e' & Hin' & Hc & _).
  exists (snd (Inputs.entry 1 0.5 0.6)), e'.
  split; [exact Hin|]. split; [exact Hin'|exact Hc].
Defined.

(* ================================================================== *)
(** * Growth metrics: the ranking and the rows the figures are read from *)
(* ================================================================== *)

Section AscendingFacts.

Context {A : Type}.
Variable key : A -> Z.

Let below (a b : A) : Prop := (key a <= key b)%Z.

Lemma insert_asc_sorted (a : A) (l : list A) :
  Sorted below l -> Sorted below (insert_asc key a l).
Proof.
  induction 1 as [|b l Hs IH Hb]; simpl.
  - repeat constructor.
  - destruct (Z.leb_spec (key a) (key b)) as [Hab|Hab].
    + repeat constructor; assumption.
    + constructor; [exact IH|].
      destruct l as [|c l]; simpl.
      * constructor. unfold below. lia.
      * destruct (key a <=? key c)%Z; constructor;
          [unfold below; lia|now inversion Hb].
Qed.

(** The rows come out of [sort_values] in non-decreasing order of the
    key. *)
Lemma sort_values_asc_sorted (l : list A) :
  StronglySorted below (sort_values_asc key l).
Proof.
  apply Sorted_StronglySorted.
  - intros a b c Hab Hbc. unfold below in *. lia.
  - induction l as [|a l IH]; simpl; [constructor|].
    now apply insert_asc_sorted.
Qed.

End AscendingFacts.

Section ListFacts.

Context {A : Type}.

(** In a strongly sorted list, what comes first is related to what comes
    later. *)
Lemma sorted_split (R : A -> A -> Prop) (pre post : list A) (a : A) :
  StronglySorted R (pre ++ a :: post) ->
  (forall b, In b pre -> R b a) /\ (forall b, In b post -> R a b).
Proof.
  induction pre as [|p pre IH]; simpl; intro Hs.
  - apply StronglySorted_inv in Hs as [_ Hall]. rewrite Forall_forall in Hall.
    split; [intros b []|exact Hall].
  - apply StronglySorted_inv in Hs as [Hs Hall]. rewrite Forall_forall in Hall.
    destruct (IH Hs) as [H1 H2]. split; [|exact H2].
    intros b [<-|Hb]; [|now apply H1].
    apply Hall. apply in_or_app. right. now left.
Qed.

Lemma last_In (l : list A) (d : A) : l <> [] -> In (List.last l d) l.
Proof.
  induction l as [|a l IH]; [contradiction|]. intros _.
  destruct l as [|b l]; [now left|].
  right. apply IH. discriminate.
Qed.

Lemma sorted_last (R : A -> A -> Prop) (l : list A) (d : A) :
  (forall a, R a a) ->
  StronglySorted R l -> forall a, In a l -> R a (List.last l d).
Proof.
  intros Hrefl. induction 1 as [|b l Hs IH Hall]; [intros a []|].
  rewrite Forall_forall in Hall.
  destruct l as [|c l].
  - intros a [<-|[]]. apply Hrefl.
  - change (List.last (b :: c :: l) d) with (List.last (c :: l) d).
    intros a [<-|Ha].
    + apply Hall. apply last_In. discriminate.
    + now apply IH.
Qed.

End ListFacts.

Section RankingFacts.

Import GrowthAnalysis.

Variable float_pow : Q -> Q -> Q.
Variable float_sqrt : Q -> Q.

Lemma unique_NoDup (l : list string) : NoDup (unique l).
Proof.
  induction l as [|x l IH]; simpl; constructor.
  - rewrite filter_In. intros [_ H]. rewrite String.eqb_refl in H. discriminate.
  - now apply NoDup_filter.
Qed.

Lemma district_data_In (df : list history_row) (d : string) (r : history_row) :
  In r (district_data df d) <-> In r df /\ h_district r = d.
Proof.
  unfold district_data. rewrite <- String.eqb_eq.
  rewrite <- (filter_In (fun r => String.eqb (h_district r) d)).
  split; apply Permutation_in; [|symmetry]; apply sort_values_asc_perm.
Qed.

(** What [district_metrics] returns for a district it keeps. *)
Lemma district_metrics_kept (df : list history_row) (d : string) (m : metrics) :
  district_metrics float_pow float_sqrt df d = Ok (Some m) ->
  exists first rest p,
    district_data df d = first :: rest
    /\ rest <> []
    /\ peak (first :: rest) = Ok p
    /\ m_district m = d
    /\ m_start_density_2014 m = round (h_density first) 4
    /\ m_end_density_2024 m = round (h_density (List.last (first :: rest) first)) 4
    /\ m_peak_growth_year m = h_year (fst p)
    /\ m_peak_growth_rate m = round (snd p) 4
    /\ m_total_growth_rate m
       = round (growth_rate (h_density first)
                  (h_density (List.last (first :: rest) first))) 4
    /\ (Qle_bool (h_density first) 0 = true -> m_cagr m = round 0.0 4).
Proof.
  unfold district_metrics. fold (district_data df d).
  destruct (Nat.ltb_spec (List.length (district_data df d)) 2) as [|Hlen];
    [discriminate|].
  destruct (district_data df d) as [|first rest]; [discriminate|].
  rewrite outcome_bind.
  destruct (peak (first :: rest)) as [p|e] eqn:Hp; [|discriminate].
  intros [= <-]. exists first, rest, p.
  split; [reflexivity|]. split; [destruct rest; [simpl in Hlen; lia|discriminate]|].
  split; [exact Hp|]. repeat (split; [reflexivity|]).
  simpl. intros ->. reflexivity.
Qed.

Lemma kept_names (names : list string) (results : list (option metrics)) :
  Forall2 (fun d r => forall m, r = Some m -> m_district m = d) names results ->
  NoDup names ->
  NoDup (map m_district (kept results))
  /\ forall m, In m (kept results) -> In (m_district m) names.
Proof.
  induction 1 as [|d r names results Hd _ IH]; intro Hnodup; simpl.
  - split; [constructor|intros m []].
  - apply NoDup_cons_iff in Hnodup as [Hnotin Hnodup].
    destruct (IH Hnodup) as [IH1 IH2].
    destruct r as [m|]; simpl.
    + rewrite (Hd m eq_refl). split.
      * constructor; [|exact IH1].
        intro Hin. apply in_map_iff in Hin as (m' & Hm' & Hin).
        apply Hnotin. rewrite <- Hm'. now apply IH2.
      * intros m' [<-|Hin]; [left; symmetry; now apply Hd|right; now apply IH2].
    + split; [exact IH1|]. intros m Hin. right. now apply IH2.
Qed.

(** The rows of the metrics frame are the results of the districts that
    the loop keeps. *)
Lemma metrics_from_districts (df : list history_row) (ms : list metrics) :
  calculate_growth_metrics float_pow float_sqrt df = Ok ms ->
  exists results,
    Forall2 (fun d r => district_metrics float_pow float_sqrt df d = Ok r)
      (unique (map h_district df)) results
    /\ kept results <> []
    /\ ms = sort_values_desc m_cagr (kept results).
Proof.
  unfold calculate_growth_metrics. rewrite outcome_bind.
  destruct (for_each _ _) as [results|e] eqn:E; [|discriminate].
  apply for_each_inv in E. intro H. exists results. split; [exact E|].
  destruct (kept results) as [|m0 rest]; [discriminate|].
  injection H as <-. split; [discriminate|reflexivity].
Qed.

Lemma metrics_row_origin (df : list history_row) (ms : list metrics) (m : metrics) :
  calculate_growth_metrics float_pow float_sqrt df = Ok ms ->
  In m ms ->
  district_metrics float_pow float_sqrt df (m_district m) = Ok (Some m).
Proof.
  intros Hrun Hin. apply metrics_from_districts in Hrun as (results & Hall & _ & ->).
  apply in_sort_values_desc, kept_In in Hin.
  destruct (Forall2_In_r _ _ _ _ Hall Hin) as (d & _ & Hd).
  destruct (district_metrics_kept _ _ _ Hd) as (_ & _ & _ & _ & _ & _ & <- & _).
  exact Hd.
Qed.

(** The peak of a list of rows: the first row of the largest rate. *)
Lemma peak_from_spec (rows : list history_row) :
  forall (best : history_row) (bv : Q) (r : history_row) (v : Q),
    peak_from best bv rows = (r, v) ->
    (r = best /\ v = bv
     /\ forall r' v', In r' rows -> h_yoy_growth_rate r' = Some v' -> v' <= v)
    \/ exists pre post,
         rows = pre ++ r :: post
         /\ h_yoy_growth_rate r = Some v
         /\ bv < v
         /\ (forall r' v', In r' pre -> h_yoy_growth_rate r' = Some v' -> v' < v)
         /\ (forall r' v', In r' post -> h_yoy_growth_rate r' = Some v' -> v' <= v).
Proof.
  induction rows as [|r0 rows IH]; intros best bv r v; simpl.
  - intros [= <- <-]. left. repeat split. intros r' v' [].
  - destruct (h_yoy_growth_rate r0) as [v0|] eqn:E0.
    + destruct (Qle_bool v0 bv) eqn:Hle; simpl.
      * apply Qle_bool_iff in Hle. intro H.
        destruct (IH _ _ _ _ H) as [(-> & -> & Hall)|(pre & post & -> & Hr & Hlt & Hpre & Hpost)].
        -- left. repeat split. intros r' v' [<-|Hin] Hv'; [|now apply (Hall r')].
           rewrite E0 in Hv'. injection Hv' as <-. exact Hle.
        -- right. exists (r0 :: pre), post. repeat split; try assumption.
           intros r' v' [<-|Hin] Hv'; [|now apply (Hpre r')].
           rewrite E0 in Hv'. injection Hv' as <-.
           eapply Qle_lt_trans; eassumption.
      * assert (Hlt0 : bv < v0).
        { apply Qnot_le_lt. rewrite <- Qle_bool_iff. congruence. }
        intro H.
        destruct (IH _ _ _ _ H) as [(-> & -> & Hall)|(pre & post & -> & Hr & Hlt & Hpre & Hpost)].
        -- right. exists [], rows. repeat split; try assumption.
           intros r' v' [].
        -- right. exists (r0 :: pre), post. repeat split; try assumption.
           ++ eapply Qlt_trans; eassumption.
           ++ intros r' v' [<-|Hin] Hv'; [|now apply (Hpre r')].
              rewrite E0 in Hv'. injection Hv' as <-. exact Hlt.
    + intro H.
      destruct (IH _ _ _ _ H) as [(-> & -> & Hall)|(pre & post & -> & Hr & Hlt & Hpre & Hpost)].
      * left. repeat split. intros r' v' [<-|Hin] Hv'; [congruence|now apply (Hall r')].
      * right. exists (r0 :: pre), post. repeat split; try assumption.
        intros r' v' [<-|Hin] Hv'; [congruence|now apply (Hpre r')].
Qed.

Lemma peak_spec (rows : list history_row) (r : history_row) (v : Q) :
  peak rows = Ok (r, v) ->
  exists pre post,
    rows = pre ++ r :: post
    /\ h_yoy_growth_rate r = Some v
    /\ (forall r' v', In r' pre -> h_yoy_growth_rate r' = Some v' -> v' < v)
    /\ (forall r' v', In r' post -> h_yoy_growth_rate r' = Some v' -> v' <= v).
Proof.
  induction rows as [|r0 rows IH]; simpl; [discriminate|].
  destruct (h_yoy_growth_rate r0) as [v0|] eqn:E0.
  - intros [= H].
    destruct (peak_from_spec _ _ _ _ _ H)
      as [(-> & -> & Hall)|(pre & post & -> & Hr & Hlt & Hpre & Hpost)].
    + exists [], rows. repeat split; try assumption. intros r' v' [].
    + exists (r0 :: pre), post. repeat split; try assumption.
      intros r' v' [<-|Hin] Hv'; [|now apply (Hpre r')].
      rewrite E0 in Hv'. injection Hv' as <-. exact Hlt.
  - intro H. destruct (IH H) as (pre & post & -> & Hr & Hpre & Hpost).
    exists (r0 :: pre), post. repeat split; try assumption.
    intros r' v' [<-|Hin] Hv'; [congruence|now apply (Hpre r')].
Qed.

End RankingFacts.

Section DistrictFacts.

Import GrowthAnalysis.

Variable float_pow : Q -> Q -> Q.
Variable float_sqrt : Q -> Q.

(** The metrics of one district are read from its earliest and its
    latest row. *)
Lemma district_first_last (df : list history_row) (m : metrics) :
  district_metrics float_pow float_sqrt df (m_district m) = Ok (Some m) ->
  exists first last,
    In first df /\ In last df
    /\ h_district first = m_district m
    /\ h_district last = m_district m
    /\ (forall r, In r df -> h_district r = m_district m ->
                  (h_year first <= h_year r <= h_year last)%Z)
    /\ m_start_density_2014 m = round (h_density first) 4
    /\ m_end_density_2024 m = round (h_density last) 4
    /\ m_total_growth_rate m
       = round (growth_rate (h_density first) (h_density last)) 4
    /\ (h_density first <= 0 ->
        m_cagr m == 0 /\ (0 < h_density last -> m_total_growth_rate m == 1)).
Proof.
  intro Hm.
  destruct (district_metrics_kept _ _ _ _ _ Hm)
    as (first & rest & p & Hdata & Hrest & _ & _ & Hstart & Hend & _ & _ & Htotal & Hcagr).
  pose proof (sort_values_asc_sorted h_year
                (filter (fun r => String.eqb (h_district r) (m_district m)) df))
    as Hsorted.
  fold (district_data df (m_district m)) in Hsorted.
  assert (Hfirst : In first (district_data df (m_district m)))
    by (rewrite Hdata; now left).
  assert (Hlast : In (List.last (first :: rest) first) (district_data df (m_district m)))
    by (rewrite Hdata; apply last_In; discriminate).
  apply district_data_In in Hfirst as [Hf1 Hf2], Hlast as [Hl1 Hl2].
  exists first, (List.last (first :: rest) first).
  repeat (split; [assumption|]).
  split; [|split; [exact Hstart|split; [exact Hend|split; [exact Htotal|]]]].
  - intros r Hr Hd.
    assert (Hrd : In r (district_data df (m_district m)))
      by (apply district_data_In; now split).
    rewrite Hdata in Hrd, Hsorted. split.
    + apply StronglySorted_inv in Hsorted as [_ Hall]. rewrite Forall_forall in Hall.
      destruct Hrd as [<-|Hrd]; [lia|now apply Hall].
    + apply (sorted_last _ _ first (fun a => Z.le_refl _) Hsorted r Hrd).
  - intro Hzero. assert (Hz : Qle_bool (h_density first) 0 = true)
      by now apply Qle_bool_iff.
    split; [rewrite (Hcagr Hz); reflexivity|].
    intro Hpos. rewrite Htotal. unfold growth_rate. rewrite Hz.
    destruct (Qle_bool (h_density (List.last (first :: rest) first)) 0)
      eqn:E; [|reflexivity].
    apply Qle_bool_iff in E. exfalso. apply (Qlt_irrefl 0).
    eapply Qlt_le_trans; eassumption.
Qed.

(** The peak of one district is the first, in the order of the years,
    of its rows of the largest rate. *)
Lemma district_peak (df : list history_row) (m : metrics) :
  district_metrics float_pow float_sqrt df (m_district m) = Ok (Some m) ->
  exists r v,
    In r df
    /\ h_district r = m_district m
    /\ h_yoy_growth_rate r = Some v
    /\ m_peak_growth_year m = h_year r
    /\ m_peak_growth_rate m = round v 4
    /\ forall r' v',
         In r' df -> h_district r' = m_district m ->
         h_yoy_growth_rate r' = Some v' ->
         v' <= v /\ (v' == v -> (h_year r <= h_year r')%Z).
Proof.
  intro Hm.
  destruct (district_metrics_kept _ _ _ _ _ Hm)
    as (first & rest & [r v] & Hdata & _ & Hpeak & _ & _ & _ & Hyear & Hrate & _).
  destruct (peak_spec _ _ _ Hpeak) as (pre & post & Hsplit & Hr & Hpre & Hpost).
  pose proof (sort_values_asc_sorted h_year
                (filter (fun r => String.eqb (h_district r) (m_district m)) df))
    as Hsorted.
  fold (district_data df (m_district m)) in Hsorted.
  rewrite Hdata, Hsplit in Hsorted.
  apply sorted_split in Hsorted as [_ Hlater].
  assert (Hrin : In r (district_data df (m_district m))).
  { rewrite Hdata, Hsplit. apply in_or_app. right. now left. }
  apply district_data_In in Hrin as [Hr1 Hr2].
  exists r, v. repeat (split; [assumption|]).
  intros r' v' Hr' Hd' Hv'.
  assert (Hin' : In r' (pre ++ r :: post)).
  { rewrite <- Hsplit, <- Hdata. apply district_data_In. now split. }
  apply in_app_or in Hin' as [Hin'|[<-|Hin']].
  - pose proof (Hpre r' v' Hin' Hv') as Hlt. split; [now apply Qlt_le_weak|].
    intro Heq. rewrite Heq in Hlt. exfalso. now apply (Qlt_irrefl v).
  - rewrite Hr in Hv'. injection Hv' as <-. split; [apply Qle_refl|intros _; lia].
  - split; [now apply (Hpost r' v')|]. intros _. now apply Hlater.
Qed.

End DistrictFacts.

(** X12.  The growth metrics come out as a ranking.  When the metrics
    step returns, its frame is not empty, has one row for each district
    it kept (no district twice, each a district of the historical frame)
    and is in non-increasing order of CAGR: the rows that [head(n)]
    selects for the report have a CAGR at least that of every row left
    out. *)
Theorem growth_metrics_are_ranked :
  forall (float_pow : Q -> Q -> Q) (float_sqrt : Q -> Q)
         (historical_df : list GrowthAnalysis.history_row)
         (growth_metrics_df : list GrowthAnalysis.metrics),
    GrowthAnalysis.calculate_growth_metrics float_pow float_sqrt historical_df
    = Ok growth_metrics_df ->
    growth_metrics_df <> []
    /\ NoDup (map GrowthAnalysis.m_district growth_metrics_df)
    /\ (forall m, In m growth_metrics_df ->
                  In (GrowthAnalysis.m_district m)
                     (map GrowthAnalysis.h_district historical_df))
    /\ forall (n : nat) (m m' : GrowthAnalysis.metrics),
         In m (GrowthAnalysis.head n growth_metrics_df) ->
         In m' (skipn n growth_metrics_df) ->
         GrowthAnalysis.m_cagr m' <= GrowthAnalysis.m_cagr m.
Proof.
  intros float_pow float_sqrt df ms Hrun.
  destruct (metrics_from_districts _ _ _ _ Hrun) as (results & Hall & Hne & ->).
  pose proof (sort_values_desc_perm GrowthAnalysis.m_cagr (GrowthAnalysis.kept results)) as Hperm.
  destruct (kept_names (GrowthAnalysis.unique (map GrowthAnalysis.h_district df)) results)
    as [Hnodup Hnames].
  { eapply Forall2_impl; [|exact Hall]. simpl. intros d r Hd m ->.
    now destruct (district_metrics_kept _ _ _ _ _ Hd)
      as (_ & _ & _ & _ & _ & _ & H & _). }
  { apply unique_NoDup. }
  split; [|split; [|split]].
  - intro H. rewrite H in Hperm. apply Permutation_nil in Hperm. contradiction.
  - eapply Permutation_NoDup; [|exact Hnodup].
    apply Permutation_map. now symmetry.
  - intros m Hin. apply unique_In, Hnames. now apply in_sort_values_desc in Hin.
  - intros n m m' Hm Hm'. unfold GrowthAnalysis.head in Hm.
    pose proof (sort_values_desc_sorted GrowthAnalysis.m_cagr (GrowthAnalysis.kept results)) as Hs.
    rewrite <- (firstn_skipn n (sort_values_desc _ _)) in Hs.
    apply in_split in Hm' as (l1 & l2 & Hsplit). rewrite Hsplit in Hs.
    rewrite app_assoc in Hs.
    apply sorted_split in Hs as [Hbefore _].
    apply Hbefore. apply in_or_app. now left.
Qed.

(** X13.  Growth is measured from the earliest to the latest year.  For
    every row of the metrics there are a row of the district's earliest
    year and one of its latest year in the historical frame whose
    densities, rounded to 4 places, are the start and the end density of
    the metrics, and the total growth rate is the rounded rate from the
    one to the other.  When the earliest density is not positive the CAGR
    is 0, while the total growth rate is 1 if the latest density is
    positive. *)
Theorem growth_is_measured_first_to_last :
  forall (float_pow : Q -> Q -> Q) (float_sqrt : Q -> Q)
         (historical_df : list GrowthAnalysis.history_row)
         (growth_metrics_df : list GrowthAnalysis.metrics)
         (m : GrowthAnalysis.metrics),
    GrowthAnalysis.calculate_growth_metrics float_pow float_sqrt historical_df
    = Ok growth_metrics_df ->
    In m growth_metrics_df ->
    exists first last,
      In first historical_df /\ In last historical_df
      /\ GrowthAnalysis.h_district first = GrowthAnalysis.m_district m
      /\ GrowthAnalysis.h_district last = GrowthAnalysis.m_district m
      /\ (forall r,
             In r historical_df ->
             GrowthAnalysis.h_district r = GrowthAnalysis.m_district m ->
             (GrowthAnalysis.h_year first <= GrowthAnalysis.h_year r
              <= GrowthAnalysis.h_year last)%Z)
      /\ GrowthAnalysis.m_start_density_2014 m
         = round (GrowthAnalysis.h_density first) 4
      /\ GrowthAnalysis.m_end_density_2024 m
         = round (GrowthAnalysis.h_density last) 4
      /\ GrowthAnalysis.m_total_growth_rate m
         = round (GrowthAnalysis.growth_rate (GrowthAnalysis.h_density first)
                    (GrowthAnalysis.h_density last)) 4
      /\ (GrowthAnalysis.h_density first <= 0 ->
          GrowthAnalysis.m_cagr m == 0
          /\ (0 < GrowthAnalysis.h_density last ->
              GrowthAnalysis.m_total_growth_rate m == 1)).
Proof.
  intros float_pow float_sqrt df ms m Hrun Hin.
  apply (district_first_last float_pow float_sqrt).
  exact (metrics_row_origin _ _ _ _ _ Hrun Hin).
Qed.

(** X14.  The peak growth year is the earliest year of the largest rate.
    For every row of the metrics there is a row of the district in the
    historical frame whose year is the peak growth year and whose rate,
    rounded to 4 places, is the peak growth rate; no row of the district
    has a larger rate, and none with the same rate has an earlier
    year. *)
Theorem peak_year_is_earliest_maximum :
  forall (float_pow : Q -> Q -> Q) (float_sqrt : Q -> Q)
         (historical_df : list GrowthAnalysis.history_row)
         (growth_metrics_df : list GrowthAnalysis.metrics)
         (m : GrowthAnalysis.metrics),
    GrowthAnalysis.calculate_growth_metrics float_pow float_sqrt historical_df
    = Ok growth_metrics_df ->
    In m growth_metrics_df ->
    exists r v,
      In r historical_df
      /\ GrowthAnalysis.h_district r = GrowthAnalysis.m_district m
      /\ GrowthAnalysis.h_yoy_growth_rate r = Some v
      /\ GrowthAnalysis.m_peak_growth_year m = GrowthAnalysis.h_year r
      /\ GrowthAnalysis.m_peak_growth_rate m = round v 4
      /\ forall r' v',
           In r' historical_df ->
           GrowthAnalysis.h_district r' = GrowthAnalysis.m_district m ->
           GrowthAnalysis.h_yoy_growth_rate r' = Some v' ->
           v' <= v
           /\ (v' == v -> (GrowthAnalysis.h_year r <= GrowthAnalysis.h_year r')%Z).
Proof.
  intros float_pow float_sqrt df ms m Hrun Hin.
  apply (district_peak float_pow float_sqrt).
  exact (metrics_row_origin _ _ _ _ _ Hrun Hin).
Qed.

(** The theorem at a frame of two years of ["B"] and three of ["C"]: the
    district that grew most comes first. *)
Lemma growth_metrics_are_ranked_witness :
  exists ms,
    GrowthAnalysis.calculate_growth_metrics (fun a _ => a) (fun a => a)
      Inputs.two_districts = Ok ms
    /\ map GrowthAnalysis.m_district ms = ["C"; "B"]%string
    /\ NoDup (map GrowthAnalysis.m_district ms).
Proof.
  destruct (GrowthAnalysis.calculate_growth_metrics (fun a _ => a) (fun a => a)
              Inputs.two_districts) as [ms|e] eqn:E.
  - exists ms. split; [reflexivity|]. split.
    + revert E. vm_compute. intros [= <-]. reflexivity.
    + exact (proj1 (proj2 (growth_metrics_are_ranked _ _ _ _ E))).
  - exfalso. revert E. vm_compute. discriminate.
Defined.

(** The theorem at the same frame: ["C"] is measured from 2022 to
    2024. *)
Lemma growth_is_measured_first_to_last_witness :
  exists ms m first last,
    GrowthAnalysis.calculate_growth_metrics (fun a _ => a) (fun a => a)
      Inputs.two_districts = Ok (m :: ms)
    /\ In first Inputs.two_districts /\ In last Inputs.two_districts
    /\ GrowthAnalysis.m_start_density_2014 m = round (GrowthAnalysis.h_density first) 4
    /\ GrowthAnalysis.m_end_density_2024 m = round (GrowthAnalysis.h_density last) 4.
Proof.
  destruct (GrowthAnalysis.calculate_growth_metrics (fun a _ => a) (fun a => a)
              Inputs.two_districts) as [[|m ms]|e] eqn:E;
    [exfalso; revert E; vm_compute; discriminate| |
     exfalso; revert E; vm_compute; discriminate].
  destruct (growth_is_measured_first_to_last _ _ _ _ m E (or_introl eq_refl))
    as (first & last & H1 & H2 & _ & _ & _ & H3 & H4 & _).
  exists ms, m, first, last. repeat split; assumption || reflexivity.
Defined.

(** The theorem at the same frame: the peak of ["C"] is a row of the
    frame. *)
Lemma peak_year_is_earliest_maximum_witness :
  exists ms m r v,
    GrowthAnalysis.calculate_growth_metrics (fun a _ => a) (fun a => a)
      Inputs.two_districts = Ok (m :: ms)
    /\ In r Inputs.two_districts
    /\ GrowthAnalysis.h_yoy_growth_rate r = Some v
    /\ GrowthAnalysis.m_peak_growth_year m = GrowthAnalysis.h_year r
    /\ GrowthAnalysis.m_peak_growth_rate m = round v 4.
Proof.
  destruct (GrowthAnalysis.calculate_growth_metrics (fun a _ => a) (fun a => a)
              Inputs.two_districts) as [[|m ms]|e] eqn:E;
    [exfalso; revert E; vm_compute; discriminate| |
     exfalso; revert E; vm_compute; discriminate].
  destruct (peak_year_is_earliest_maximum _ _ _ _ m E (or_introl eq_refl))
    as (r & v & H1 & _ & H3 & H4 & H5 & _).
  exists ms, m, r, v. repeat split; assumption || reflexivity.
Defined.

(* ================================================================== *)
(** * Historical synthesis: the run as a whole *)
(* ================================================================== *)

Section SimulationFacts.

Import GrowthAnalysis.

(** A stream none of whose variates is below -10: every random factor
    [1.0 + 0.1 * draw] is then at least 0. *)
Let tame (g : bitgen) : Prop := forall k, -10 <= draws g k.

(** A loop whose every turn returns and keeps an invariant of the
    generator, returns and keeps it. *)
Lemma for_each_returns_inv {A B : Type} (I : bitgen -> Prop) (f : A -> M B)
  (P : A -> B -> Prop) (l : list A) :
  (forall a, In a l -> forall g, I g ->
             exists b g', f a g = Ok (b, g') /\ I g' /\ P a b) ->
  forall g, I g ->
            exists bs g', for_each f l g = Ok (bs, g') /\ I g' /\ Forall2 P l bs.
Proof.
  induction l as [|a l IH]; intros Hf g Hg.
  - exists [], g. split; [reflexivity|]. split; [exact Hg|constructor].
  - destruct (Hf a (or_introl eq_refl) g Hg) as (b & g' & Hb & Hg' & HP).
    destruct (IH (fun a' H => Hf a' (or_intror H)) g' Hg')
      as (bs & g'' & Hbs & Hg'' & HPs).
    exists (b :: bs), g''. rewrite run_for_each_cons, Hb, Hbs.
    split; [reflexivity|]. split; [exact Hg''|now constructor].
Qed.

Lemma year_modifier_pos (context : context) (year : Z) :
  0 < year_modifier context year.
Proof. unfold year_modifier. destruct (existsb _ _); reflexivity. Qed.

Lemma back_in_time (V p : Q) : 0 <= V -> 1 <= p -> max0 (V / p) <= V.
Proof.
  intros HV Hp. unfold max0. destruct (Qle_bool (V / p) 0); [exact HV|].
  apply Qle_shift_div_r; [eapply Qlt_le_trans; [|exact Hp]; reflexivity|].
  nra.
Qed.

(** What a row of a year is to its district. *)
Let entry_of (district_name : string) (V : Q) (count : nat) (area : Q)
  (year : Z) (row : history_row) : Prop :=
  h_district row = district_name
  /\ h_year row = year
  /\ h_area_km2 row = area
  /\ 0 <= h_density row <= round V 4
  /\ (year = 2024%Z -> h_density row = round V 4 /\ h_count row = Z.of_nat count).

Lemma year_entry_bounds (district_name : string) (context : context)
  (V : Q) (count : nat) (area : Q) (year : Z) (g : bitgen) :
  0 <= V -> 0 <= base_growth_rate context -> tame g -> (year <= 2024)%Z ->
  exists row g',
    year_entry district_name context V count area year g = Ok (row, g')
    /\ tame g'
    /\ entry_of district_name V count area year row.
Proof.
  intros HV Hbase Hg Hyear. unfold year_entry.
  destruct (Z.eqb_spec year 2024) as [->|Hne].
  - eexists _, g. split; [reflexivity|]. split; [exact Hg|].
    unfold entry_of, current_entry. simpl.
    repeat split; try reflexivity; [now apply round_nonneg|apply Qle_refl].
  - rewrite run_bind. unfold normal at 1, lift.
    set (random_factor := 1.0 + 0.1 * draws g (pos g)).
    assert (Hrf : 0 <= random_factor).
    { unfold random_factor. specialize (Hg (pos g)). lra. }
    assert (Hgrowth : 0 <= annual_growth context year random_factor).
    { unfold annual_growth. pose proof (year_modifier_pos context year).
      apply Qmult_le_0_compat; [apply Qmult_le_0_compat|]; try assumption.
      now apply Qlt_le_weak. }
    rewrite historical_entry_ok.
    2:{ revert Hgrowth. generalize (annual_growth context year random_factor).
        intros q Hq H0. lra. }
    eexists _, (advance 1 g). split; [reflexivity|]. split; [exact Hg|].
    unfold entry_of, make_row.
    cbn [h_district h_year h_area_km2 h_density h_count].
    repeat split; try reflexivity.
    + apply round_nonneg, max0_nonneg.
    + apply round_monotone, back_in_time; [exact HV|].
      apply Qpower_1_le; [|lia].
      revert Hgrowth. generalize (annual_growth context year random_factor).
      intros q Hq. lra.
    + contradiction.
    + contradiction.
Qed.

(** What the rates leave as it was. *)
Let same_entry (r o : history_row) : Prop :=
  h_district o = h_district r /\ h_year o = h_year r
  /\ h_area_km2 o = h_area_km2 r
  /\ h_density o = h_density r /\ h_count o = h_count r.

Lemma yoy_from_same (prev : Q) (rows : list history_row) :
  Forall2 same_entry rows (yoy_from prev rows).
Proof.
  revert prev. induction rows as [|r rows IH]; intro prev; simpl; constructor.
  - repeat split.
  - apply IH.
Qed.

Lemma with_yoy_same (rows out : list history_row) :
  with_yoy rows = Ok out -> Forall2 same_entry rows out.
Proof.
  destruct rows as [|r0 rest]; simpl; [discriminate|].
  intros [= <-]. constructor; [repeat split|apply yoy_from_same].
Qed.

Lemma Forall2_rev {A B : Type} (P : A -> B -> Prop) (l : list A) (l' : list B) :
  Forall2 P l l' -> Forall2 P (rev l) (rev l').
Proof.
  induction 1 as [|a b l l' Hab _ IH]; simpl; [constructor|].
  apply Forall2_app; [exact IH|]. repeat constructor. exact Hab.
Qed.

Lemma Forall2_compose {A B C : Type} (P : A -> B -> Prop) (R : B -> C -> Prop)
  (S : A -> C -> Prop) (l : list A) (l' : list B) (l'' : list C) :
  (forall a b c, P a b -> R b c -> S a c) ->
  Forall2 P l l' -> Forall2 R l' l'' -> Forall2 S l l''.
Proof.
  intros H HP. revert l''. induction HP as [|a b l l' Hab _ IH]; intros l'' HR.
  - inversion HR. constructor.
  - inversion HR as [|b' c l0 l1 Hbc HR']; subst. constructor; [eauto|now apply IH].
Qed.

(** The history of one district of non-negative density and base rate,
    from a tame stream: it returns the rows of 2014 to 2024, in that
    order. *)
Lemma district_history_bounds (current_df : list winery) (district_name : string)
  (district_info : district_info) (context : context) (g : bitgen) :
  0 <= base_growth_rate context -> tame g ->
  exists rows g',
    district_history current_df district_name district_info context g = Ok (rows, g')
    /\ tame g'
    /\ Forall2 (entry_of district_name
                  (current_density current_df district_name district_info)
                  (current_count current_df district_name)
                  (area_km2 district_info))
               years rows.
Proof.
  intros Hbase Hg. unfold district_history.
  set (V := current_density current_df district_name district_info).
  assert (HV : 0 <= V).
  { unfold V, current_density.
    destruct (Qle_bool (area_km2 district_info) 0) eqn:E; simpl; [apply Qle_refl|].
    apply Qle_shift_div_l.
    - apply Qnot_le_lt. rewrite <- Qle_bool_iff. congruence.
    - rewrite Qmult_0_l. unfold of_nat, Qle. simpl. lia. }
  destruct (for_each_returns_inv tame
              (year_entry district_name context V
                 (current_count current_df district_name) (area_km2 district_info))
              (entry_of district_name V (current_count current_df district_name)
                 (area_km2 district_info))
              (rev years)) with (g := g)
    as (backwards & g' & Hrun & Hg' & Hall).
  { intros year Hin g0 Hg0. apply year_entry_bounds; try assumption.
    apply in_rev in Hin. simpl in Hin. lia. }
  { exact Hg. }
  rewrite run_bind, Hrun. unfold lift.
  apply Forall2_rev in Hall. rewrite rev_involutive in Hall.
  destruct (with_yoy (rev backwards)) as [out|e] eqn:E.
  - exists out, g'. split; [reflexivity|]. split; [exact Hg'|].
    apply with_yoy_same in E.
    eapply Forall2_compose; [|exact Hall|exact E].
    intros year r o (H1 & H2 & H3 & H4 & H5) (S1 & S2 & S3 & S4 & S5).
    unfold entry_of. rewrite S1, S2, S3, S4, S5. repeat split; try assumption;
      try apply H4; apply H5; assumption.
  - exfalso. inversion Hall as [|? ? ? ? ? ? Hy Hb]. subst.
    rewrite <- Hb in E. discriminate.
Qed.

Lemma lookup_In {A : Type} (k : string) (d : list (string * A)) (a : A) :
  lookup k d = Some a -> exists k', In (k', a) d.
Proof.
  unfold lookup. destruct (find _ d) as [[k' a']|] eqn:F; [|discriminate].
  intros [= <-]. apply find_some in F as [Hin _]. now exists k'.
Qed.

(** The block of a district of the catalog: empty when the district has
    no context, its eleven years when it has one. *)
Let block_shape (district_context : list (string * context)) (df : list winery)
  (d : string * district_info) (block : list history_row) : Prop :=
  match lookup (fst d) district_context with
  | None => block = []
  | Some _ =>
      Forall2 (entry_of (fst d) (current_density df (fst d) (snd d))
                 (current_count df (fst d)) (area_km2 (snd d)))
              years block
  end.

Lemma block_shape_district (district_context : list (string * context))
  (df : list winery) (d : string * district_info) (block : list history_row) :
  block_shape district_context df d block ->
  Forall (fun r => h_district r = fst d) block.
Proof.
  unfold block_shape. destruct (lookup _ _); [|intros ->; constructor].
  intro H. apply Forall_forall. intros r Hr.
  destruct (Forall2_In_r _ _ _ _ H Hr) as (y & _ & H1 & _). exact H1.
Qed.

Lemma block_shape_length (district_context : list (string * context))
  (df : list winery) (d : string * district_info) (block : list history_row) :
  block_shape district_context df d block ->
  List.length block
  = match lookup (fst d) district_context with
    | Some _ => 11%nat
    | None => 0%nat
    end.
Proof.
  unfold block_shape. destruct (lookup _ _); [|intros ->; reflexivity].
  intro H. apply Forall2_length in H. rewrite <- H. reflexivity.
Qed.

(** The number of rows of a name in the frame of the blocks of a catalog
    of distinct names. *)
Lemma points_of_blocks (district_context : list (string * context))
  (df : list winery) (districts_info : list (string * district_info))
  (blocks : list (list history_row)) (n : string) :
  NoDup (map fst districts_info) ->
  Forall2 (block_shape district_context df) districts_info blocks ->
  (In n (map fst (Keyed.processed district_context districts_info)) ->
   List.length (filter (fun r => String.eqb (h_district r) n) (List.concat blocks))
   = 11%nat)
  /\ (~ In n (map fst (Keyed.processed district_context districts_info)) ->
      List.length (filter (fun r => String.eqb (h_district r) n) (List.concat blocks))
      = 0%nat).
Proof.
  intros Hnodup Hall. induction Hall as [|d block ds blocks Hd _ IH].
  - split; [intros []|reflexivity].
  - apply NoDup_cons_iff in Hnodup as [Hnotin Hnodup].
    destruct (IH Hnodup) as [IH1 IH0]. clear IH.
    simpl List.concat. rewrite filter_app, length_app.
    pose proof (block_shape_district _ _ _ _ Hd) as Hnames.
    pose proof (block_shape_length _ _ _ _ Hd) as Hlen.
    assert (Hrest : ~ In (fst d) (map fst (Keyed.processed district_context ds))).
    { intro Hin. apply Hnotin. apply in_map_iff in Hin as (e & He & Hin).
      unfold Keyed.processed in Hin. apply filter_In in Hin as [Hin _].
      rewrite <- He. now apply in_map. }
    unfold Keyed.processed in *. simpl filter.
    destruct (string_dec n (fst d)) as [Hn|Hne].
    + rewrite Hn in *.
      rewrite (filter_block_same _ _ _ _ Hnames), Hlen, (IH0 Hrest).
      destruct (lookup (fst d) district_context); simpl.
      * split; [reflexivity|]. intro H. exfalso. apply H. now left.
      * split; [intro H; contradiction|reflexivity].
    + rewrite (filter_block_other _ _ _ _ _ Hne Hnames). simpl.
      destruct (lookup (fst d) district_context); simpl.
      * split.
        -- intros [H|H]; [congruence|now apply IH1].
        -- intro H. apply IH0. intro H'. apply H. now right.
      * split; assumption.
Qed.

Lemma concat_length_blocks (district_context : list (string * context))
  (df : list winery) (districts_info : list (string * district_info))
  (blocks : list (list history_row)) :
  Forall2 (block_shape district_context df) districts_info blocks ->
  List.length (List.concat blocks)
  = (11 * List.length (Keyed.processed district_context districts_info))%nat.
Proof.
  induction 1 as [|d block ds blocks Hd _ IH]; simpl; [lia|].
  rewrite length_app, IH, (block_shape_length _ _ _ _ Hd). unfold Keyed.processed.
  simpl. destruct (lookup (fst d) district_context); simpl; lia.
Qed.

(** The loop of the simulation over a catalog, from a stream that is
    tame after the seeding and with base rates that are not negative. *)
Lemma simulate_over_blocks (seeded : Z -> nat -> Q)
  (districts_info : list (string * district_info)) (current_df : list winery)
  (district_context : list (string * context)) (g : bitgen) :
  (forall k, -10 <= seeded 42%Z k) ->
  (forall d context, In (d, context) district_context ->
                     0 <= base_growth_rate context) ->
  exists blocks g',
    simulate_over seeded districts_info current_df district_context g
    = Ok (List.concat blocks, g')
    /\ Forall2 (block_shape district_context
                  (assign_loop bounds districts_info current_df))
               districts_info blocks.
Proof.
  intros Hstream Hrates. unfold simulate_over.
  rewrite run_bind. unfold seed at 1. rewrite run_bind.
  set (df := assign_loop bounds districts_info current_df).
  destruct (for_each_returns_inv tame
              (fun d : string * district_info =>
                 match lookup (fst d) district_context with
                 | None => ret []
                 | Some context => district_history df (fst d) (snd d) context
                 end)
              (block_shape district_context df)
              districts_info)
    with (g := {| draws := seeded 42%Z; pos := 0 |})
    as (blocks & g' & Hrun & _ & Hall).
  { intros d _ g0 Hg0. unfold block_shape.
    destruct (lookup (fst d) district_context) as [context|] eqn:L.
    - destruct (lookup_In _ _ _ L) as (k' & Hin).
      apply district_history_bounds; [now apply (Hrates k')|exact Hg0].
    - exists [], g0. split; [reflexivity|]. split; [exact Hg0|reflexivity]. }
  { exact Hstream. }
  rewrite Hrun, run_ret. exists blocks, g'. split; [reflexivity|exact Hall].
Qed.

(** What the rows of such a frame are. *)
Lemma rows_of_blocks (district_context : list (string * context))
  (df : list winery) (districts_info : list (string * district_info))
  (blocks : list (list history_row)) (r : history_row) :
  Forall2 (block_shape district_context df) districts_info blocks ->
  In r (List.concat blocks) ->
  exists district_info,
    In (h_district r, district_info) districts_info
    /\ lookup (h_district r) district_context <> None
    /\ (2014 <= h_year r <= 2024)%Z
    /\ h_area_km2 r = area_km2 district_info
    /\ 0 <= h_density r <= round (current_density df (h_district r) district_info) 4
    /\ (h_year r = 2024%Z ->
        h_density r = round (current_density df (h_district r) district_info) 4
        /\ h_count r = Z.of_nat (count_in (h_district r) df)).
Proof.
  intros Hall Hr. apply in_concat in Hr as (block & Hblock & Hr).
  destruct (Forall2_In_r _ _ _ _ Hall Hblock) as ([name info] & Hd & Hshape).
  unfold block_shape in Hshape. cbn [fst snd] in Hshape.
  destruct (lookup name district_context) as [context|] eqn:L;
    [|subst block; destruct Hr].
  destruct (Forall2_In_r _ _ _ _ Hshape Hr)
    as (year & Hyear & H1 & H2 & H3 & H4 & H5).
  exists info. rewrite H1, H2, H3.
  split; [exact Hd|]. split; [congruence|].
  split; [simpl in Hyear; lia|]. split; [reflexivity|]. split; [exact H4|exact H5].
Qed.

(** Every district that has a context has a row for each year. *)
Lemma years_of_blocks (district_context : list (string * context))
  (df : list winery) (districts_info : list (string * district_info))
  (blocks : list (list history_row)) (d : string * district_info) (year : Z) :
  Forall2 (block_shape district_context df) districts_info blocks ->
  In d (Keyed.processed district_context districts_info) ->
  In year years ->
  exists r, In r (List.concat blocks) /\ h_district r = fst d /\ h_year r = year.
Proof.
  intros Hall Hd Hyear. unfold Keyed.processed in Hd.
  apply filter_In in Hd as [Hd Hkeep].
  destruct (Forall2_In_l _ _ _ _ Hall Hd) as (block & Hblock & Hshape).
  unfold block_shape in Hshape.
  destruct (lookup (fst d) district_context); [|discriminate].
  destruct (Forall2_In_l _ _ _ _ Hshape Hyear) as (r & Hr & H1 & H2 & _).
  exists r. split; [|split; assumption].
  apply in_concat. exists block. split; assumption.
Qed.

Lemma NoDup_fst_functional {A : Type} (l : list (string * A)) (k : string) (a b : A) :
  NoDup (map fst l) -> In (k, a) l -> In (k, b) l -> a = b.
Proof.
  induction l as [|[k0 a0] l IH]; simpl; [intros _ []|].
  intros Hnodup Ha Hb. apply NoDup_cons_iff in Hnodup as [Hnotin Hnodup].
  assert (Hout : forall c, In (k, c) l -> k0 <> k).
  { intros c Hc Hk. apply Hnotin. rewrite Hk.
    change k with (fst (k, c)). now apply in_map. }
  destruct Ha as [Ha|Ha], Hb as [Hb|Hb].
  - congruence.
  - exfalso. apply (Hout b Hb). congruence.
  - exfalso. apply (Hout a Ha). congruence.
  - now apply IH.
Qed.

Lemma growth_rate_nonneg (prev curr : Q) :
  0 <= prev -> prev <= curr -> 0 <= growth_rate prev curr.
Proof.
  intros Hprev Hle. unfold growth_rate.
  destruct (Qle_bool prev 0) eqn:E; simpl.
  - destruct (Qle_bool curr 0); simpl; discriminate.
  - assert (Hpos : 0 < prev)
      by (apply Qnot_le_lt; rewrite <- Qle_bool_iff; congruence).
    apply Qle_shift_div_l; [exact Hpos|]. lra.
Qed.

(** The run over a catalog, as its rows show it. *)
Lemma simulate_over_bounds (seeded : Z -> nat -> Q)
  (districts_info : list (string * district_info)) (current_df : list winery)
  (district_context : list (string * context)) (g : bitgen) :
  (forall k, -10 <= seeded 42%Z k) ->
  (forall d context, In (d, context) district_context ->
                     0 <= base_growth_rate context) ->
  exists rows g',
    simulate_over seeded districts_info current_df district_context g = Ok (rows, g')
    /\ List.length rows
       = (11 * List.length (Keyed.processed district_context districts_info))%nat
    /\ (forall d year,
           In d (Keyed.processed district_context districts_info) ->
           (2014 <= year <= 2024)%Z ->
           exists r, In r rows /\ h_district r = fst d /\ h_year r = year)
    /\ forall r,
         In r rows ->
         exists district_info,
           In (h_district r, district_info) districts_info
           /\ lookup (h_district r) district_context <> None
           /\ (2014 <= h_year r <= 2024)%Z
           /\ h_area_km2 r = area_km2 district_info
           /\ 0 <= h_density r
              <= round (current_density (assign_loop bounds districts_info current_df)
                          (h_district r) district_info) 4
           /\ (h_year r = 2024%Z ->
               h_density r
               = round (current_density (assign_loop bounds districts_info current_df)
                          (h_district r) district_info) 4
               /\ h_count r
                  = Z.of_nat (count_in (h_district r)
                                (assign_loop bounds districts_info current_df))).
Proof.
  intros Hstream Hrates.
  destruct (simulate_over_blocks seeded districts_info current_df district_context g
              Hstream Hrates) as (blocks & g' & Hrun & Hall).
  exists (List.concat blocks), g'. split; [exact Hrun|].
  split; [now apply (concat_length_blocks _ _ _ _ Hall)|]. split.
  - intros d year Hd Hyear. apply (years_of_blocks _ _ _ _ _ _ Hall Hd).
    unfold years. simpl. lia.
  - intros r Hr. now apply (rows_of_blocks _ _ _ _ _ Hall).
Qed.

(** The run over a catalog of distinct names, followed by the growth
    metrics. *)
Lemma simulate_over_summarised (float_pow : Q -> Q -> Q) (float_sqrt : Q -> Q)
  (seeded : Z -> nat -> Q)
  (districts_info : list (string * district_info)) (current_df : list winery)
  (district_context : list (string * context)) (g : bitgen) :
  (forall k, -10 <= seeded 42%Z k) ->
  (forall d context, In (d, context) district_context ->
                     0 <= base_growth_rate context) ->
  NoDup (map fst districts_info) ->
  Keyed.processed district_context districts_info <> [] ->
  exists rows g' ms,
    simulate_over seeded districts_info current_df district_context g = Ok (rows, g')
    /\ calculate_growth_metrics float_pow float_sqrt rows = Ok ms
    /\ (forall d, In d (map m_district ms)
                  <-> In d (map fst (Keyed.processed district_context districts_info)))
    /\ forall m,
         In m ms ->
         0 <= m_start_density_2014 m <= m_end_density_2024 m
         /\ 0 <= m_total_growth_rate m
         /\ (2014 <= m_peak_growth_year m <= 2024)%Z.
Proof.
  intros Hstream Hrates Hnodup Hsome.
  destruct (simulate_over_blocks seeded districts_info current_df district_context g
              Hstream Hrates) as (blocks & g' & Hrun & Hall).
  set (df := assign_loop bounds districts_info current_df) in *.
  set (rows := List.concat blocks) in *.
  assert (Hpoints : forall d,
             (2 <= List.length (Trend.series h_district h_year h_density d rows))%nat
             <-> In d (map fst (Keyed.processed district_context districts_info))).
  { intro d. unfold Trend.series. rewrite length_map.
    destruct (points_of_blocks district_context df districts_info blocks d
                Hnodup Hall) as [H11 H0].
    destruct (in_dec string_dec d
                (map fst (Keyed.processed district_context districts_info)))
      as [Hin|Hout].
    - split; [intros _; exact Hin|]. intros _. fold rows in H11.
      rewrite (H11 Hin). lia.
    - split; [|intro; contradiction]. fold rows in H0. rewrite (H0 Hout). lia. }
  destruct (metrics_rows float_pow float_sqrt rows) as (ms & Hcalc & Hiff).
  { apply Forall_forall. exact (simulate_over_rated _ _ _ _ _ _ _ Hrun). }
  { destruct (Keyed.processed district_context districts_info) as [|d0 rest] eqn:E;
      [contradiction|].
    exists (fst d0). apply Hpoints. now left. }
  exists rows, g', ms. split; [exact Hrun|]. split; [exact Hcalc|]. split.
  { intro d. rewrite Hiff. apply Hpoints. }
  intros m Hm.
  pose proof (metrics_row_origin _ _ _ _ _ Hcalc Hm) as Horigin.
  assert (Hd : In (m_district m)
                  (map fst (Keyed.processed district_context districts_info))).
  { apply Hpoints, Hiff. now apply in_map. }
  apply in_map_iff in Hd as (d & Hname & Hd).
  destruct (district_first_last _ _ _ _ Horigin)
    as (first & last & Hf & Hl & Hfd & Hld & Hspan & Hstart & Hend & Htotal & _).
  destruct (district_peak _ _ _ _ Horigin) as (r & v & Hr & _ & _ & Hyear & _).
  destruct (years_of_blocks _ _ _ _ d 2024%Z Hall Hd) as (r24 & Hr24 & Hd24 & Hy24);
    [unfold years; simpl; tauto|].
  destruct (rows_of_blocks _ _ _ _ _ Hall Hf)
    as (info & Hinfo & _ & _ & _ & [Hf0 Hfle] & _).
  destruct (rows_of_blocks _ _ _ _ _ Hall Hl)
    as (info' & Hinfo' & _ & Hly & _ & _ & Hl24).
  destruct (rows_of_blocks _ _ _ _ _ Hall Hr) as (_ & _ & _ & Hry & _).
  assert (Hlast : h_year last = 2024%Z).
  { destruct (Hspan r24 Hr24) as [_ H]; [congruence|]. lia. }
  destruct (Hl24 Hlast) as [Hl24d _].
  rewrite Hfd in Hinfo, Hfle. rewrite Hld in Hinfo', Hl24d.
  rewrite (NoDup_fst_functional _ _ _ _ Hnodup Hinfo' Hinfo) in Hl24d.
  rewrite <- Hl24d in Hfle.
  split; [split|split].
  - rewrite Hstart. now apply round_nonneg.
  - rewrite Hstart, Hend. now apply round_monotone.
  - rewrite Htotal. apply round_nonneg. now apply growth_rate_nonneg.
  - rewrite Hyear. exact Hry.
Qed.

End SimulationFacts.

(** X15.  The simulation returns, and shows no past denser than the
    present.  When no variate of the seeded stream is below -10 (no
    random factor is negative) and no base growth rate of the context is
    negative, the run returns eleven rows for each district of the
    catalog that has a context, one for each year from 2014 to 2024;
    every row is of such a district and year, and its density is at
    least 0 and at most the density recorded for the district in 2024,
    which is the count of its wineries over its area, rounded to 4
    places. *)
Theorem simulation_returns_bounded_history :
  forall (seeded : Z -> nat -> Q) (current_df : list winery)
         (district_context : list (string * GrowthAnalysis.context)) (g : bitgen),
    (forall k, -10 <= seeded 42%Z k) ->
    (forall d context,
        In (d, context) district_context ->
        0 <= GrowthAnalysis.base_growth_rate context) ->
    exists rows g',
      GrowthAnalysis.simulate_historical_winery_development seeded current_df
        district_context g = Ok (rows, g')
      /\ List.length rows
         = (11 * List.length
                   (Keyed.processed district_context
                      GrowthAnalysis.get_district_boundaries_and_areas))%nat
      /\ (forall d year,
             In d (Keyed.processed district_context
                     GrowthAnalysis.get_district_boundaries_and_areas) ->
             (2014 <= year <= 2024)%Z ->
             exists r,
               In r rows /\ GrowthAnalysis.h_district r = fst d
               /\ GrowthAnalysis.h_year r = year)
      /\ forall r,
           In r rows ->
           exists district_info,
             In (GrowthAnalysis.h_district r, district_info)
                GrowthAnalysis.get_district_boundaries_and_areas
             /\ GrowthAnalysis.lookup (GrowthAnalysis.h_district r) district_context
                <> None
             /\ (2014 <= GrowthAnalysis.h_year r <= 2024)%Z
             /\ GrowthAnalysis.h_area_km2 r = GrowthAnalysis.area_km2 district_info
             /\ 0 <= GrowthAnalysis.h_density r
                <= round (GrowthAnalysis.current_density
                            (GrowthAnalysis.assign_districts_to_wineries current_df)
                            (GrowthAnalysis.h_district r) district_info) 4
             /\ (GrowthAnalysis.h_year r = 2024%Z ->
                 GrowthAnalysis.h_density r
                 = round (GrowthAnalysis.current_density
                            (GrowthAnalysis.assign_districts_to_wineries current_df)
                            (GrowthAnalysis.h_district r) district_info) 4
                 /\ GrowthAnalysis.h_count r
                    = Z.of_nat (count_in (GrowthAnalysis.h_district r)
                                  (GrowthAnalysis.assign_districts_to_wineries
                                     current_df))).
Proof.
  intros seeded current_df district_context g Hstream Hrates.
  apply simulate_over_bounds; assumption.
Qed.

(** The theorem at the first variates of seed 42, one winery in
    Neukölln and the context of the script: 132 rows, none of negative
    density. *)
Lemma simulation_returns_bounded_history_witness :
  exists rows g',
    GrowthAnalysis.simulate_historical_winery_development Inputs.seeded_head
      [Inputs.neukoelln_winery] GrowthAnalysis.get_district_historical_context
      Inputs.quiet = Ok (rows, g')
    /\ List.length rows = 132%nat
    /\ forall r, In r rows -> 0 <= GrowthAnalysis.h_density r.
Proof.
  assert (Hstream : forall k, -10 <= Inputs.seeded_head 42%Z k).
  { intro k. unfold Inputs.seeded_head, Inputs.seed42_head.
    do 20 (destruct k as [|k]; [discriminate|]). destruct k; discriminate. }
  assert (Hrates : forall d context,
             In (d, context) GrowthAnalysis.get_district_historical_context ->
             0 <= GrowthAnalysis.base_growth_rate context).
  { intros d context Hin. simpl in Hin.
    repeat (destruct Hin as [[= <- <-]|Hin]; [discriminate|]). destruct Hin. }
  destruct (simulation_returns_bounded_history Inputs.seeded_head
              [Inputs.neukoelln_winery] GrowthAnalysis.get_district_historical_context
              Inputs.quiet Hstream Hrates) as (rows & g' & Hrun & Hlen & _ & Hrows).
  exists rows, g'. split; [exact Hrun|]. split; [exact Hlen|].
  intros r Hr. destruct (Hrows r Hr) as (info & _ & _ & _ & _ & [H _] & _). exact H.
Defined.

(** X16.  The simulated history, summarised.  Under the same conditions,
    when some district of the catalog has a context, the growth metrics
    of the simulated frame are returned and have a row for exactly the
    districts that have a context; for each of them the start density is
    at least 0 and at most the end density, the total growth rate is not
    negative, and the peak growth year is a year from 2014 to 2024: the
    synthesis never shows a district as having shrunk over the decade. *)
Theorem simulated_history_is_summarised :
  forall (float_pow : Q -> Q -> Q) (float_sqrt : Q -> Q)
         (seeded : Z -> nat -> Q) (current_df : list winery)
         (district_context : list (string * GrowthAnalysis.context)) (g : bitgen),
    (forall k, -10 <= seeded 42%Z k) ->
    (forall d context,
        In (d, context) district_context ->
        0 <= GrowthAnalysis.base_growth_rate context) ->
    Keyed.processed district_context GrowthAnalysis.get_district_boundaries_and_areas
    <> [] ->
    exists rows g' growth_metrics_df,
      GrowthAnalysis.simulate_historical_winery_development seeded current_df
        district_context g = Ok (rows, g')
      /\ GrowthAnalysis.calculate_growth_metrics float_pow float_sqrt rows
         = Ok growth_metrics_df
      /\ (forall d,
             In d (map GrowthAnalysis.m_district growth_metrics_df)
             <-> In d (map fst (Keyed.processed district_context
                                  GrowthAnalysis.get_district_boundaries_and_areas)))
      /\ forall m,
           In m growth_metrics_df ->
           0 <= GrowthAnalysis.m_start_density_2014 m
             <= GrowthAnalysis.m_end_density_2024 m
           /\ 0 <= GrowthAnalysis.m_total_growth_rate m
           /\ (2014 <= GrowthAnalysis.m_peak_growth_year m <= 2024)%Z.
Proof.
  intros float_pow float_sqrt seeded current_df district_context g
         Hstream Hrates Hsome.
  apply simulate_over_summarised; try assumption.
  repeat constructor; simpl; intuition discriminate.
Qed.

(** The theorem at the first variates of seed 42, one winery in
    Neukölln and the context of the script: twelve districts are
    summarised. *)
Lemma simulated_history_is_summarised_witness :
  exists rows g' growth_metrics_df,
    GrowthAnalysis.simulate_historical_winery_development Inputs.seeded_head
      [Inputs.neukoelln_winery] GrowthAnalysis.get_district_historical_context
      Inputs.quiet = Ok (rows, g')
    /\ GrowthAnalysis.calculate_growth_metrics (fun a _ => a) (fun a => a) rows
       = Ok growth_metrics_df
    /\ List.length growth_metrics_df = 12%nat
    /\ forall m,
         In m growth_metrics_df ->
         GrowthAnalysis.m_start_density_2014 m <= GrowthAnalysis.m_end_density_2024 m.
Proof.
  assert (Hstream : forall k, -10 <= Inputs.seeded_head 42%Z k).
  { intro k. unfold Inputs.seeded_head, Inputs.seed42_head.
    do 20 (destruct k as [|k]; [discriminate|]). destruct k; discriminate. }
  assert (Hrates : forall d context,
             In (d, context) GrowthAnalysis.get_district_historical_context ->
             0 <= GrowthAnalysis.base_growth_rate context).
  { intros d context Hin. simpl in Hin.
    repeat (destruct Hin as [[= <- <-]|Hin]; [discriminate|]). destruct Hin. }
  assert (Hsome : Keyed.processed GrowthAnalysis.get_district_historical_context
                    GrowthAnalysis.get_district_boundaries_and_areas <> [])
    by discriminate.
  destruct (simulated_history_is_summarised (fun a _ => a) (fun a => a)
              Inputs.seeded_head [Inputs.neukoelln_winery]
              GrowthAnalysis.get_district_historical_context Inputs.quiet
              Hstream Hrates Hsome) as (rows & g' & ms & Hrun & Hcalc & _ & Hms).
  exists rows, g', ms. split; [exact Hrun|]. split; [exact Hcalc|]. split.
  - revert Hrun. vm_compute. intros [= <- _].
    revert Hcalc. vm_compute. intros [= <-]. reflexivity.
  - intros m Hm. apply (Hms m Hm).
Defined.

(* ================================================================== *)
(** * The temporal analysis as a whole *)
(* ================================================================== *)

Section SelectionFacts.

Context {A : Type}.

Lemma filter_andb (f g : A -> bool) (l : list A) :
  filter (fun a => f a && g a) l = filter g (filter f l).
Proof.
  induction l as [|a l IH]; simpl; [reflexivity|].
  destruct (f a); simpl; [destruct (g a)|]; now rewrite IH.
Qed.

Lemma map_filter_key {B : Type} (key : A -> B) (test : B -> bool) (l : list A) :
  map key (filter (fun a => test (key a)) l) = filter test (map key l).
Proof.
  induction l as [|a l IH]; simpl; [reflexivity|].
  destruct (test (key a)); simpl; now rewrite IH.
Qed.

(** A fold that keeps one of its two arguments at each step ends with an
    item of the list. *)
Lemma fold_choice_In (better : A -> A -> bool) (l : list A) (a : A) :
  In (fold_left (fun best b => if better best b then b else best) l a) (a :: l).
Proof.
  revert a. induction l as [|b l IH]; intro a; simpl; [now left|].
  destruct (better a b).
  - right. apply IH.
  - destruct (IH a) as [H|H]; [now left|right; now right].
Qed.

(** [idxmax] finds a row of the largest rate as soon as there is a row. *)
Lemma idxmax_max (rate : A -> Q) (rows : list A) :
  rows <> [] ->
  exists r,
    TemporalAnalysis.idxmax rate rows = Ok r
    /\ In r rows
    /\ forall r', In r' rows -> rate r' <= rate r.
Proof.
  destruct rows as [|r0 rows]; [contradiction|]. intros _.
  eexists. split; [reflexivity|]. split; [apply fold_choice_In|].
  revert r0. induction rows as [|r1 rows IH]; intro r0; simpl.
  - intros r' [<-|[]]. apply Qle_refl.
  - assert (Hmono : forall rows a,
               rate a <= rate (fold_left
                                 (fun best r' => if qlt (rate best) (rate r') then r'
                                                 else best) rows a)).
    { clear. induction rows as [|b rows IH]; intro a; simpl; [apply Qle_refl|].
      unfold qlt at 2. destruct (Qle_bool (rate b) (rate a)) eqn:E; simpl.
      - apply IH.
      - apply Qle_trans with (rate b); [|apply IH].
        apply Qlt_le_weak, Qnot_le_lt. rewrite <- Qle_bool_iff. congruence. }
    intros r' [<-|Hr'].
    + apply Qle_trans with
        (rate (if qlt (rate r0) (rate r1) then r1 else r0)); [|apply Hmono].
      unfold qlt. destruct (Qle_bool (rate r1) (rate r0)) eqn:E; simpl;
        [apply Qle_refl|].
      apply Qlt_le_weak, Qnot_le_lt. rewrite <- Qle_bool_iff. congruence.
    + destruct (qlt (rate r0) (rate r1)) eqn:E.
      * now apply IH.
      * destruct Hr' as [<-|Hr'].
        -- apply Qle_trans with (rate r0); [|apply Hmono].
           unfold qlt in E. apply negb_false_iff in E. now apply Qle_bool_iff.
        -- apply IH. now right.
Qed.

End SelectionFacts.

Section BeforeFacts.

Import Trend.

Variable row : Type.
Variable district_of : row -> string.
Variable year_of : row -> Z.
Variable value_of : row -> Q.

(** In a frame of blocks over the years 2014 to 2024, the rows of a
    district before 2024 are those of 2014 to 2023. *)
Lemma before_2024 (names : list string) (blocks : list (list row)) (d : string) :
  NoDup names ->
  Forall2 (block_of district_of year_of value_of TemporalAnalysis.years) names blocks ->
  In d names ->
  map year_of
    (filter (fun r => String.eqb (district_of r) d && (year_of r <? 2024)%Z)
            (List.concat blocks))
  = Py.range 2014 10.
Proof.
  intros Hnodup Hblocks Hd.
  destruct (series_of_blocks _ district_of year_of value_of TemporalAnalysis.years
              names blocks Hnodup Hblocks d) as (_ & Hyears & _).
  specialize (Hyears Hd). unfold series in Hyears. rewrite map_map in Hyears.
  assert (Hy : map year_of
                 (filter (fun r => String.eqb (district_of r) d) (List.concat blocks))
               = TemporalAnalysis.years) by exact Hyears.
  rewrite filter_andb.
  rewrite (map_filter_key year_of (fun y => (y <? 2024)%Z)).
  rewrite Hy. reflexivity.
Qed.

End BeforeFacts.

Section PipelineFacts.

Import TemporalAnalysis.

Variable pearson_stat : list Q -> list Q -> pyfloat * pyfloat.

(** The sweep over two series that have enough points in common. *)
Lemma sweep_returns (x y : list Q) (max_lag : Z) :
  (0 <= max_lag)%Z ->
  (max_lag + 2 <= Z.of_nat (Nat.min (List.length x) (List.length y)))%Z ->
  exists table,
    calculate_cross_correlation pearson_stat x y max_lag = Ok table
    /\ map fst table = Py.range (- max_lag) (Z.to_nat (2 * max_lag + 1)).
Proof.
  intros Hm Hn.
  set (k := Nat.min (List.length x) (List.length y)) in *.
  assert (Hx : List.length (firstn k x) = k) by (apply firstn_length_le; unfold k; lia).
  assert (Hy : List.length (firstn k y) = k) by (apply firstn_length_le; unfold k; lia).
  unfold calculate_cross_correlation. fold k.
  destruct (for_each_outcome
              (fun lag =>
                 r <- correlate_at pearson_stat (firstn k x) (firstn k y) lag ;;
                 ret (lag, {| correlation := fst r; p_value := snd r;
                              interpreted := interpret lag |}))
              (fun lag e => fst e = lag)
              (Py.range (- max_lag) (Z.to_nat (2 * max_lag + 1))))
    as (table & Hrun & Hall).
  - intros lag Hlag. apply range_In in Hlag.
    destruct (correlate_at_returns pearson_stat (firstn k x) (firstn k y) lag)
      as (r & Hr).
    + congruence.
    + left. rewrite Hx. lia.
    + rewrite Hr. eexists. split; reflexivity.
  - exists table. split; [exact Hrun|].
    clear Hrun. induction Hall as [|a b l bs Hab _ IH]; simpl; [reflexivity|].
    now rewrite Hab, IH.
Qed.

(** The best lag of a table that is not empty is one of its lags. *)
Lemma best_lag_returns (table : list (Z * lag_entry)) :
  table <> [] ->
  exists L, best_lag table = Ok L /\ In L (map fst table).
Proof.
  destruct table as [|e table]; [contradiction|]. intros _.
  unfold best_lag, max_by. rewrite outcome_bind.
  eexists. split; [reflexivity|]. apply in_map.
  apply (fold_choice_In
           (fun maxitem item => fgt (correlation (snd item)) (correlation (snd maxitem)))).
Qed.

(** The frames of the two generators, as the blocks of their
    districts. *)
Lemma winery_frame (g : bitgen) :
  exists blocks g',
    get_annual_winery_growth_data g = Ok (List.concat blocks, g')
    /\ Forall2 (Trend.block_of c_district c_year winery_count years)
               (map fst winery_patterns) blocks.
Proof.
  destruct (for_each_returns count_rows
              (fun d rows =>
                 Trend.block_of c_district c_year winery_count years (fst d) rows
                 /\ Forall (fun r => 0 <= c_annual_growth_rate r) rows)
              winery_patterns) with (g := g)
    as (blocks & g' & Hrun & Hblocks).
  { intros d Hd g0. apply count_rows_block;
      simpl in Hd; repeat (destruct Hd as [<-|Hd]; [simpl; discriminate|]);
      contradiction. }
  exists blocks, g'. split.
  - unfold get_annual_winery_growth_data, winery_growth_data.
    rewrite run_bind, Hrun. reflexivity.
  - eapply Forall2_names; [|exact Hblocks]. intros a b [H _]. exact H.
Qed.

Lemma real_estate_frame (g : bitgen) :
  exists blocks g',
    get_annual_real_estate_data g = Ok (List.concat blocks, g')
    /\ Forall2 (Trend.block_of p_district p_year price_eur_sqm years)
               (map fst district_patterns) blocks.
Proof.
  destruct (for_each_returns price_rows
              (fun d rows =>
                 Trend.block_of p_district p_year price_eur_sqm years (fst d) rows
                 /\ Forall (fun r => 0 <= p_annual_growth_rate r) rows)
              district_patterns) with (g := g)
    as (blocks & g' & Hrun & Hblocks).
  { intros d Hd g0. apply price_rows_block;
      simpl in Hd; repeat (destruct Hd as [<-|Hd]; [simpl; try lia; discriminate|]);
      contradiction. }
  exists blocks, g'. split.
  - unfold get_annual_real_estate_data, real_estate_data.
    rewrite run_bind, Hrun. reflexivity.
  - eapply Forall2_names; [|exact Hblocks]. intros a b [H _]. exact H.
Qed.

End PipelineFacts.

Section ReportFacts.

Import TemporalAnalysis.

(** Every row of the peak timing is counted once. *)
Lemma peak_counts (peak_df : list peak_row) :
  (leads_count peak_df + simultaneous_count peak_df + lags_count peak_df
   = List.length peak_df)%nat.
Proof.
  unfold leads_count, simultaneous_count, lags_count.
  induction peak_df as [|row rows IH]; simpl; [reflexivity|].
  destruct (Z.ltb_spec 0 (lead_time row)), (Z.eqb_spec (lead_time row) 0),
    (Z.ltb_spec (lead_time row) 0); simpl; lia.
Qed.

Lemma Forall2_fst {A B : Type} (f : B -> A) (P : A -> B -> Prop)
  (l : list A) (bs : list B) :
  (forall a b, P a b -> f b = a) -> Forall2 P l bs -> map f bs = l.
Proof.
  intros H. induction 1 as [|a b l bs Hab _ IH]; simpl; [reflexivity|].
  now rewrite (H a b Hab), IH.
Qed.

End ReportFacts.

(** X17.  The temporal analysis runs through, whatever the generator
    delivers.  The two frames are generated, the lag study returns for
    each of its three districts a table with one entry for each lag from
    -2 to 2, of which the best lag is one; the peak timing returns a row
    for each of the six key districts, with both peak years from 2014 to
    2023 and their difference, from -9 to 9, as lead time; and the report
    counts every district once as leading, simultaneous or lagging. *)
Theorem temporal_analysis_runs_through :
  forall (pearson_stat : list Q -> list Q -> pyfloat * pyfloat) (g : bitgen),
    exists lags peak_df g',
      TemporalAnalysis.analysis pearson_stat g = Ok ((lags, peak_df), g')
      /\ map fst lags = TemporalAnalysis.lag_districts
      /\ (forall district cross_corr,
             In (district, cross_corr) lags ->
             map fst cross_corr = [-2; -1; 0; 1; 2]%Z
             /\ exists best,
                  TemporalAnalysis.best_lag cross_corr = Ok best
                  /\ (-2 <= best <= 2)%Z)
      /\ map TemporalAnalysis.pk_district peak_df = TemporalAnalysis.key_districts
      /\ (forall row,
             In row peak_df ->
             (2014 <= TemporalAnalysis.winery_peak row <= 2023)%Z
             /\ (2014 <= TemporalAnalysis.re_peak row <= 2023)%Z
             /\ TemporalAnalysis.lead_time row
                = (TemporalAnalysis.re_peak row - TemporalAnalysis.winery_peak row)%Z
             /\ (-9 <= TemporalAnalysis.lead_time row <= 9)%Z)
      /\ (TemporalAnalysis.leads_count peak_df
          + TemporalAnalysis.simultaneous_count peak_df
          + TemporalAnalysis.lags_count peak_df = 6)%nat.
Proof.
  intros ps g.
  destruct (winery_frame g) as (wb & g1 & Hw & Hwb).
  destruct (real_estate_frame g1) as (rb & g2 & Hr & Hrb).
  set (winery_df := List.concat wb) in *.
  set (real_estate_df := List.concat rb) in *.
  assert (Hnames : forall d, In d TemporalAnalysis.key_districts ->
             map TemporalAnalysis.c_year
               (TemporalAnalysis.district_winery winery_df d) = Py.range 2014 10
             /\ map TemporalAnalysis.p_year
                  (TemporalAnalysis.district_re real_estate_df d) = Py.range 2014 10).
  { intros d Hd. split.
    - apply (before_2024 _ _ _ TemporalAnalysis.winery_count
               (map fst TemporalAnalysis.winery_patterns)); [|exact Hwb|].
      + repeat constructor; simpl; intuition discriminate.
      + simpl in Hd |- *. tauto.
    - apply (before_2024 _ _ _ TemporalAnalysis.price_eur_sqm
               (map fst TemporalAnalysis.district_patterns)); [|exact Hrb|].
      + repeat constructor; simpl; intuition discriminate.
      + simpl in Hd |- *. tauto. }
  assert (Hlen : forall d, In d TemporalAnalysis.key_districts ->
             List.length (TemporalAnalysis.district_winery winery_df d) = 10%nat
             /\ List.length (TemporalAnalysis.district_re real_estate_df d) = 10%nat).
  { intros d Hd. destruct (Hnames d Hd) as [H1 H2].
    apply (f_equal (@List.length Z)) in H1, H2. rewrite length_map in H1, H2.
    split; assumption. }
  (* the lag study *)
  destruct (for_each_outcome
              (fun district =>
                 cross_corr <-
                   TemporalAnalysis.calculate_cross_correlation ps
                     (map TemporalAnalysis.c_annual_growth_rate
                        (TemporalAnalysis.district_winery winery_df district))
                     (map TemporalAnalysis.p_annual_growth_rate
                        (TemporalAnalysis.district_re real_estate_df district)) 2 ;;
                 ret (district, cross_corr))
              (fun district e =>
                 fst e = district /\ map fst (snd e) = [-2; -1; 0; 1; 2]%Z)
              TemporalAnalysis.lag_districts)
    as (lags & Hlags & Hlagrows).
  { intros d Hd.
    assert (Hkey : In d TemporalAnalysis.key_districts)
      by (simpl in Hd |- *; tauto).
    destruct (Hlen d Hkey) as [H1 H2].
    destruct (sweep_returns ps
                (map TemporalAnalysis.c_annual_growth_rate
                   (TemporalAnalysis.district_winery winery_df d))
                (map TemporalAnalysis.p_annual_growth_rate
                   (TemporalAnalysis.district_re real_estate_df d)) 2)
      as (table & Htable & Hkeys); [lia|rewrite !length_map, H1, H2; simpl; lia|].
    rewrite outcome_bind, Htable. eexists. split; [reflexivity|].
    split; [reflexivity|exact Hkeys]. }
  (* the peak timing *)
  destruct (for_each_outcome
              (fun district =>
                 w <- TemporalAnalysis.idxmax TemporalAnalysis.c_annual_growth_rate
                        (TemporalAnalysis.district_winery winery_df district) ;;
                 p <- TemporalAnalysis.idxmax TemporalAnalysis.p_annual_growth_rate
                        (TemporalAnalysis.district_re real_estate_df district) ;;
                 ret {| TemporalAnalysis.pk_district := district;
                        TemporalAnalysis.winery_peak := TemporalAnalysis.c_year w;
                        TemporalAnalysis.re_peak := TemporalAnalysis.p_year p;
                        TemporalAnalysis.lead_time :=
                          (TemporalAnalysis.p_year p - TemporalAnalysis.c_year w)%Z |})
              (fun district row =>
                 TemporalAnalysis.pk_district row = district
                 /\ (2014 <= TemporalAnalysis.winery_peak row <= 2023)%Z
                 /\ (2014 <= TemporalAnalysis.re_peak row <= 2023)%Z
                 /\ TemporalAnalysis.lead_time row
                    = (TemporalAnalysis.re_peak row
                       - TemporalAnalysis.winery_peak row)%Z)
              TemporalAnalysis.key_districts)
    as (peak_df & Hpeaks & Hpeakrows).
  { intros d Hd. destruct (Hlen d Hd) as [H1 H2]. destruct (Hnames d Hd) as [Y1 Y2].
    destruct (idxmax_max TemporalAnalysis.c_annual_growth_rate
                (TemporalAnalysis.district_winery winery_df d)) as (w & Hw' & Hwin & _).
    { intro H. rewrite H in H1. discriminate. }
    destruct (idxmax_max TemporalAnalysis.p_annual_growth_rate
                (TemporalAnalysis.district_re real_estate_df d)) as (p & Hp' & Hpin & _).
    { intro H. rewrite H in H2. discriminate. }
    rewrite outcome_bind, Hw', outcome_bind, Hp'.
    eexists. split; [reflexivity|]. cbn.
    assert (Hwy : In (TemporalAnalysis.c_year w) (Py.range 2014 10))
      by (rewrite <- Y1; now apply in_map).
    assert (Hpy : In (TemporalAnalysis.p_year p) (Py.range 2014 10))
      by (rewrite <- Y2; now apply in_map).
    apply range_In in Hwy, Hpy. repeat split; lia. }
  exists lags, peak_df, g2.
  split.
  { unfold TemporalAnalysis.analysis. rewrite run_bind, Hw, run_bind, Hr.
    fold winery_df real_estate_df.
    rewrite run_bind. unfold lift at 1.
    unfold TemporalAnalysis.lag_results. rewrite Hlags.
    rewrite run_bind. unfold lift at 1.
    unfold TemporalAnalysis.peak_analysis. rewrite Hpeaks. reflexivity. }
  split.
  { apply (Forall2_fst fst _ _ _ (fun a b H => proj1 H) Hlagrows). }
  split.
  { intros district cross_corr Hin.
    destruct (Forall2_In_r _ _ _ _ Hlagrows Hin) as (d & _ & _ & Hkeys).
    cbn [snd] in Hkeys. split; [exact Hkeys|].
    destruct (best_lag_returns cross_corr) as (L & HL & HLin).
    { intro H. rewrite H in Hkeys. discriminate. }
    exists L. split; [exact HL|]. rewrite Hkeys in HLin. simpl in HLin. lia. }
  split.
  { apply (Forall2_fst TemporalAnalysis.pk_district _ _ _ (fun a b H => proj1 H)
             Hpeakrows). }
  split.
  { intros row Hrow.
    destruct (Forall2_In_r _ _ _ _ Hpeakrows Hrow) as (d & _ & _ & H1 & H2 & H3).
    repeat split; lia. }
  rewrite peak_counts. apply Forall2_length in Hpeakrows. rewrite <- Hpeakrows.
  reflexivity.
Qed.

(* ================================================================== *)
(** * Recent wineries: the classification and the districts *)
(* ================================================================== *)

Section RecencyFacts.

Import RecentWineries.

Variable fromisoformat : string -> option datetime.
Variable now : Z.

Lemma version_bonus_range (w : entry) : (0 <= version_bonus w <= 2)%Z.
Proof.
  unfold version_bonus.
  destruct (5 <? _)%Z; [lia|]. destruct (2 <? _)%Z; lia.
Qed.

(** The score and the category of the metadata go together. *)
Lemma osm_recency_cases (w : entry) :
  osm_recency fromisoformat now w = (7%Z, "likely_recent"%string)
  \/ osm_recency fromisoformat now w = (5%Z, "possibly_recent"%string)
  \/ osm_recency fromisoformat now w = (1%Z, "established"%string)
  \/ osm_recency fromisoformat now w = (0%Z, "unknown"%string).
Proof.
  unfold osm_recency.
  destruct (present (created_date w)); [|tauto].
  destruct (parsed fromisoformat (created_date w)) as [d|]; [|tauto].
  destruct (ge d _) as [[|]|]; [|tauto|tauto].
  destruct (ge d _) as [[|]|]; tauto.
Qed.

(** A date with an offset cannot be compared with the dates of
    reference, which have none. *)
Lemma ge_aware (d : datetime) (n : Z) :
  aware d = true -> ge d (minus_days (current_date now) n) = TypeError.
Proof. intro H. unfold ge. rewrite H. reflexivity. Qed.

Lemma parsed_present (s : string) (d : datetime) :
  fromisoformat s = Some d -> s <> ""%string ->
  present (Some s) = true /\ parsed fromisoformat (Some s) = Some d.
Proof.
  intros Hd Hs. split; [|exact Hd]. simpl.
  destruct (String.eqb_spec s ""); [contradiction|reflexivity].
Qed.

Lemma classify_by_recency_raises (wineries : list entry) (w : entry) :
  In w wineries ->
  classify fromisoformat now w = TypeError ->
  classify_by_recency fromisoformat now wineries = TypeError.
Proof.
  induction wineries as [|w0 rest IH]; simpl; [intros []|].
  intros [->|Hin] Hw.
  - now rewrite Hw.
  - destruct (classify fromisoformat now w0); [|reflexivity].
    now rewrite (IH Hin Hw).
Qed.

End RecencyFacts.

(** X18.  The flag and the category of a classified winery agree.
    Whatever the dates and the clock, a winery that is classified is
    flagged as recent exactly when its category is one of
    ['very_recent'], ['recent'], ['likely_recent'] and
    ['possibly_recent']; its score is between 0 and 10; and the points
    for the version number never make an ['established'] or ['unknown']
    winery recent: its score stays at most 3. *)
Theorem recency_flag_matches_category :
  forall (fromisoformat : string -> option RecentWineries.datetime) (now : Z)
         (w : RecentWineries.entry) (c : RecentWineries.recency),
    RecentWineries.classify fromisoformat now w = RecentWineries.Done c ->
    (RecentWineries.is_recent c = true
     <-> In (RecentWineries.recency_category c)
            ["very_recent"; "recent"; "likely_recent"; "possibly_recent"]%string)
    /\ (0 <= RecentWineries.recency_score c <= 10)%Z
    /\ (In (RecentWineries.recency_category c) ["established"; "unknown"]%string ->
        (RecentWineries.recency_score c <= 3)%Z).
Proof.
  intros fromisoformat now w c. unfold RecentWineries.classify.
  pose proof (version_bonus_range w) as Hb.
  assert (Hmk : forall score category,
             (0 <= score <= 10)%Z ->
             ((5 <= score)%Z
              <-> In category
                    ["very_recent"; "recent"; "likely_recent"; "possibly_recent"]%string) ->
             (In category ["established"; "unknown"]%string -> (score <= 3)%Z) ->
             RecentWineries.Done (RecentWineries.mk score category) = RecentWineries.Done c ->
             (RecentWineries.is_recent c = true
              <-> In (RecentWineries.recency_category c)
                     ["very_recent"; "recent"; "likely_recent";
                      "possibly_recent"]%string)
             /\ (0 <= RecentWineries.recency_score c <= 10)%Z
             /\ (In (RecentWineries.recency_category c)
                    ["established"; "unknown"]%string ->
                 (RecentWineries.recency_score c <= 3)%Z)).
  { intros score category Hrange Hiff Hlow [= <-]. simpl.
    rewrite Z.leb_le. split; [exact Hiff|]. split; [exact Hrange|exact Hlow]. }
  destruct (RecentWineries.explicit_date fromisoformat w) as [d|].
  - destruct (RecentWineries.ge d _) as [[|]|]; [|apply Hmk|discriminate].
    + destruct (RecentWineries.ge d _) as [[|]|]; [apply Hmk|apply Hmk|discriminate].
      * lia.
      * split; [intros _; simpl; tauto|lia].
      * simpl. intros [H|[H|[]]]; discriminate.
      * lia.
      * split; [intros _; simpl; tauto|lia].
      * simpl. intros [H|[H|[]]]; discriminate.
    + lia.
    + split; [lia|]. simpl. intros [H|[H|[H|[H|[]]]]]; discriminate.
    + intros _. lia.
  - destruct (osm_recency_cases fromisoformat now w) as [H|[H|[H|H]]];
      rewrite H; apply Hmk.
    + lia.
    + split; [intros _; simpl; tauto|lia].
    + simpl. intros [E|[E|[]]]; discriminate.
    + lia.
    + split; [intros _; simpl; tauto|lia].
    + simpl. intros [E|[E|[]]]; discriminate.
    + lia.
    + split; [lia|]. simpl. intros [E|[E|[E|[E|[]]]]]; discriminate.
    + intros _. lia.
    + lia.
    + split; [lia|]. simpl. intros [E|[E|[E|[E|[]]]]]; discriminate.
    + intros _. lia.
Qed.

(** The theorem at a winery with an opening date two months before the
    clock: ['very_recent'], score 10, recent. *)
Lemma recency_flag_matches_category_witness :
  RecentWineries.classify Inputs.fromisoformat Inputs.clock Inputs.opened
  = RecentWineries.Done (RecentWineries.mk 10 "very_recent")
  /\ (RecentWineries.is_recent (RecentWineries.mk 10 "very_recent") = true
      <-> In (RecentWineries.recency_category (RecentWineries.mk 10 "very_recent"))
             ["very_recent"; "recent"; "likely_recent"; "possibly_recent"]%string).
Proof.
  assert (H : RecentWineries.classify Inputs.fromisoformat Inputs.clock Inputs.opened
              = RecentWineries.Done (RecentWineries.mk 10 "very_recent"))
    by reflexivity.
  split; [exact H|].
  exact (proj1 (recency_flag_matches_category _ _ _ _ H)).
Defined.

(** X19.  Dates with an offset are not classified.  The dates of
    reference come from [datetime.now()] and carry no offset, so a date
    that carries one cannot be compared with them.  For a text that
    [fromisoformat] reads as such a date: as an explicit opening date
    (['start_date'], or ['opening_date'] when there is no start date) it
    makes the classification of the winery, and with it of the whole list,
    raise [TypeError]; as the OSM creation date of a winery without
    explicit date the exception is passed over, and the winery is
    ['unknown'] with the points of its version number as score, and not
    recent, however new the date is. *)
Theorem dates_with_offset_are_not_classified :
  forall (fromisoformat : string -> option RecentWineries.datetime) (now : Z)
         (s : string) (d : RecentWineries.datetime) (w : RecentWineries.entry),
    fromisoformat s = Some d ->
    RecentWineries.aware d = true ->
    s <> ""%string ->
    (RecentWineries.start_date w = Some s
     \/ RecentWineries.present (RecentWineries.start_date w) = false
        /\ RecentWineries.opening_date w = Some s ->
     RecentWineries.classify fromisoformat now w = RecentWineries.TypeError
     /\ forall wineries,
          In w wineries ->
          RecentWineries.classify_by_recency fromisoformat now wineries
          = RecentWineries.TypeError)
    /\ (RecentWineries.present (RecentWineries.start_date w) = false ->
        RecentWineries.present (RecentWineries.opening_date w) = false ->
        RecentWineries.created_date w = Some s ->
        RecentWineries.classify fromisoformat now w
        = RecentWineries.Done
            (RecentWineries.mk (RecentWineries.version_bonus w) "unknown")
        /\ RecentWineries.is_recent
             (RecentWineries.mk (RecentWineries.version_bonus w) "unknown") = false).
Proof.
  intros fromisoformat now s d w Hd Haware Hs.
  destruct (parsed_present fromisoformat s d Hd Hs) as [Hpresent Hparsed].
  split.
  - intro Hexplicit.
    assert (Hraise : RecentWineries.classify fromisoformat now w
                     = RecentWineries.TypeError).
    { unfold RecentWineries.classify, RecentWineries.explicit_date.
      destruct Hexplicit as [H|[Hnone H]].
      - rewrite H, Hpresent, Hparsed.
        unfold RecentWineries.two_years_ago. now rewrite ge_aware.
      - rewrite Hnone, H, Hpresent, Hparsed.
        unfold RecentWineries.two_years_ago. now rewrite ge_aware. }
    split; [exact Hraise|].
    intros wineries Hin. now apply (classify_by_recency_raises _ _ _ w).
  - intros Hstart Hopening Hcreated. split.
    + unfold RecentWineries.classify, RecentWineries.explicit_date.
      rewrite Hstart, Hopening.
      unfold RecentWineries.osm_recency. rewrite Hcreated, Hpresent, Hparsed.
      unfold RecentWineries.two_years_ago. rewrite ge_aware by exact Haware.
      reflexivity.
    + pose proof (version_bonus_range w) as Hb. simpl.
      apply Z.leb_gt. lia.
Qed.

(** The theorem at a winery as the download writes it, two months old:
    ['unknown'], score 2, not recent; and at a winery whose opening date
    carries an offset. *)
Lemma dates_with_offset_are_not_classified_witness :
  RecentWineries.classify Inputs.fromisoformat Inputs.clock Inputs.downloaded
  = RecentWineries.Done (RecentWineries.mk 2 "unknown")
  /\ RecentWineries.classify_by_recency Inputs.fromisoformat Inputs.clock
       [Inputs.opened; Inputs.opened_with_offset] = RecentWineries.TypeError.
Proof.
  assert (Hd : Inputs.fromisoformat "2024-05-01T10:00:00+00:00"
               = Some {| RecentWineries.instant := 1714557600000000;
                         RecentWineries.aware := true |}) by reflexivity.
  assert (Hs : "2024-05-01T10:00:00+00:00"%string <> ""%string) by discriminate.
  split.
  - destruct (dates_with_offset_are_not_classified Inputs.fromisoformat Inputs.clock
                _ _ Inputs.downloaded Hd eq_refl Hs) as [_ H].
    destruct (H eq_refl eq_refl eq_refl) as [H1 _]. exact H1.
  - destruct (dates_with_offset_are_not_classified Inputs.fromisoformat Inputs.clock
                _ _ Inputs.opened_with_offset Hd eq_refl Hs) as [H _].
    destruct (H (or_introl eq_refl)) as [_ H2].
    apply H2. right. now left.
Defined.

Section BoxFacts.

Import RecentWineries.

Lemma fle_left (a a' : Q) (x : pyfloat) : a == a' -> fle (Fin a) x = fle (Fin a') x.
Proof.
  intro H. destruct x as [q| | |]; simpl; try reflexivity.
  destruct (Qle_bool a q) eqn:E, (Qle_bool a' q) eqn:E'; try reflexivity.
  - apply Qle_bool_iff in E. rewrite H in E. apply Qle_bool_iff in E. congruence.
  - apply Qle_bool_iff in E'. rewrite <- H in E'. apply Qle_bool_iff in E'. congruence.
Qed.

Lemma fle_right (a a' : Q) (x : pyfloat) : a == a' -> fle x (Fin a) = fle x (Fin a').
Proof.
  intro H. destruct x as [q| | |]; simpl; try reflexivity.
  destruct (Qle_bool q a) eqn:E, (Qle_bool q a') eqn:E'; try reflexivity.
  - apply Qle_bool_iff in E. rewrite H in E. apply Qle_bool_iff in E. congruence.
  - apply Qle_bool_iff in E'. rewrite <- H in E'. apply Qle_bool_iff in E'. congruence.
Qed.

(** Boxes with equal bounds contain the same points. *)
Lemma contains_same_box (b b' : bbox) (lat lon : pyfloat) :
  same_box b b' -> contains b lat lon = contains b' lat lon.
Proof.
  intros (H1 & H2 & H3 & H4). unfold contains.
  now rewrite (fle_left _ _ lat H1), (fle_right _ _ lat H2),
    (fle_left _ _ lon H3), (fle_right _ _ lon H4).
Qed.

Variables (I J : Type) (bi : I -> bbox) (bj : J -> bbox).
Variable rename : string -> string.

(** Catalogs of the same boxes in the same order assign alike, up to
    the names. *)
Lemma first_containing_renamed (l : list (string * I)) (l' : list (string * J))
  (lat lon : pyfloat) :
  Forall2 (fun a b => fst b = rename (fst a) /\ same_box (bi (snd a)) (bj (snd b)))
          l l' ->
  first_containing bj l' lat lon = option_map rename (first_containing bi l lat lon).
Proof.
  induction 1 as [|[n i] [n' j] l l' [Hn Hb] _ IH]; simpl; [reflexivity|].
  simpl in Hn, Hb. rewrite (contains_same_box _ _ lat lon Hb).
  destruct (contains (bj j) lat lon); [simpl; now rewrite Hn|exact IH].
Qed.

Lemma first_containing_app (l1 l2 : list (string * I)) (lat lon : pyfloat) :
  first_containing bi (l1 ++ l2) lat lon
  = match first_containing bi l1 lat lon with
    | Some n => Some n
    | None => first_containing bi l2 lat lon
    end.
Proof.
  induction l1 as [|[n i] l1 IH]; simpl; [reflexivity|].
  destruct (contains (bi i) lat lon); [reflexivity|exact IH].
Qed.

Lemma first_containing_In (l : list (string * I)) (lat lon : pyfloat) (n : string) :
  first_containing bi l lat lon = Some n -> In n (map fst l).
Proof.
  induction l as [|[n0 i] l IH]; simpl; [discriminate|].
  destruct (contains (bi i) lat lon); [intros [= <-]; now left|].
  intro H. right. now apply IH.
Qed.

End BoxFacts.

Section DistrictNameFacts.

(** One winery with both coordinates, under the two assigners. *)
Lemma add_district_row_known_as (w : winery) :
  truthy_opt (latitude w) && truthy_opt (longitude w) = true ->
  district (RecentWineries.add_district_row w)
  = RecentWineries.known_as
      (district (assign_row DensityMap.bounds
                   DensityMap.get_district_boundaries_and_areas
                   (set_district w "Other"))).
Proof.
  intro Hcoords. unfold RecentWineries.add_district_row, assign_row.
  cbn [latitude longitude set_district]. rewrite Hcoords.
  destruct (latitude w) as [lat|]; [|discriminate].
  destruct (longitude w) as [lon|]; [|now rewrite andb_false_r in Hcoords].
  rewrite <- (firstn_skipn 10 DensityMap.get_district_boundaries_and_areas).
  rewrite first_containing_app.
  rewrite (first_containing_renamed _ _ DensityMap.bounds (fun b : bbox => b)
             RecentWineries.known_as
             (firstn 10 DensityMap.get_district_boundaries_and_areas)
             RecentWineries.districts lat lon).
  2:{ repeat constructor; reflexivity. }
  destruct (first_containing DensityMap.bounds
              (firstn 10 DensityMap.get_district_boundaries_and_areas) lat lon)
    as [n|]; [reflexivity|]. cbn [option_map].
  destruct (first_containing DensityMap.bounds
              (skipn 10 DensityMap.get_district_boundaries_and_areas) lat lon)
    as [n|] eqn:E; [|reflexivity].
  apply first_containing_In in E. cbn [district set_district].
  destruct E as [<-|[<-|[]]]; reflexivity.
Qed.

End DistrictNameFacts.

(** X20.  The districts of the recent wineries follow the density map.
    On a list of wineries that all have both coordinates,
    [add_district_info] gives each winery the district that the density
    map gives it, under the name by which this script knows it: the same
    but for the spelling of Neukölln and Schöneberg, and ['Other'] for
    Wilmersdorf and Spandau, which have no box here. *)
Theorem recent_districts_follow_density_map :
  forall wineries : list winery,
    Forall (fun w => truthy_opt (latitude w) && truthy_opt (longitude w) = true)
           wineries ->
    map district (RecentWineries.add_district_info wineries)
    = map RecentWineries.known_as
        (map district
           (fst (DensityMap.assign_districts_to_wineries wineries
                   DensityMap.get_district_boundaries_and_areas))).
Proof.
  intros wineries Hall.
  unfold DensityMap.assign_districts_to_wineries, assign_loop,
    RecentWineries.add_district_info. cbn [fst].
  rewrite !map_map.
  induction Hall as [|w wineries Hw _ IH]; [reflexivity|].
  cbn [map]. rewrite IH. f_equal. now apply add_district_row_known_as.
Qed.

(** The theorem at a winery in Neukölln and one in Wilmersdorf. *)
Lemma recent_districts_follow_density_map_witness :
  map district
    (RecentWineries.add_district_info
       [Inputs.neukoelln_winery; Inputs.wilmersdorf_winery])
  = ["Neukölln"; "Other"]%string
  /\ map district
       (fst (DensityMap.assign_districts_to_wineries
               [Inputs.neukoelln_winery; Inputs.wilmersdorf_winery]
               DensityMap.get_district_boundaries_and_areas))
     = ["Neuk√∂lln"; "Wilmersdorf"]%string
  /\ map district
       (RecentWineries.add_district_info
          [Inputs.neukoelln_winery; Inputs.wilmersdorf_winery])
     = map RecentWineries.known_as
         (map district
            (fst (DensityMap.assign_districts_to_wineries
                    [Inputs.neukoelln_winery; Inputs.wilmersdorf_winery]
                    DensityMap.get_district_boundaries_and_areas))).
Proof.
  split; [reflexivity|]. split; [reflexivity|].
  apply recent_districts_follow_density_map. repeat constructor.
Defined.
